(** * mcp_onenote: the OneNote tool server (server.js)

    A shallow embedding of [server.js]: the token cache plugin, the access
    token provider [getAccessToken], the Graph client [graphRequest] and the
    tool dispatcher registered for [CallToolRequestSchema].

    JavaScript code that awaits collaborators (the MSAL client, [fetch],
    [fs], the console, timers) is embedded as a finite program tree whose
    nodes are the calls it makes; a run feeds each call the answer of an
    environment and records the calls in order.  Exceptions are explicit:
    every computation ends in [Ok v] or [Throw e]. *)

From Stdlib Require Import ZArith String Ascii List Lia Bool DecimalString Permutation.
From stdpp Require Import base option strings gmap.

Set Warnings "-register-all".

Import ListNotations.
Open Scope string_scope.
Open Scope Z_scope.

(** ** The JavaScript runtime *)

(** Numbers are kept abstract: the embedding never decides what a double
    is, only which arithmetic the source asks of the runtime. *)
Class Numbers := {
  number : Type;
  number_of_Z : Z -> number;              (* a numeric literal *)
  number_mul : number -> number -> number; (* [a * b] on numbers *)
  StringToNumber : string -> number;      (* coercion of a string operand *)
  number_truthy : number -> bool;         (* false on 0 and NaN *)
  number_to_string : number -> string     (* [`${n}`] *)
}.

Module Js.
Section Values.
Context `{Numbers}.

(** JSON-shaped values plus [undefined]. *)
Inductive JsValue : Type :=
| JUndefined
| JNull
| JBool (b : bool)
| JNumber (n : number)
| JString (s : string)
| JArray (items : list JsValue)
| JObject (fields : list (string * JsValue)).

(** Own-property lookup on the fields of an object. *)
Fixpoint lookup_field (k : string) (fields : list (string * JsValue)) : JsValue :=
  match fields with
  | [] => JUndefined
  | (k', v) :: rest => if String.eqb k k' then v else lookup_field k rest
  end.

(** [v.k] for a data property [k]: [None] is the TypeError raised on
    [undefined] and [null]; primitives and arrays have no such property. *)
Definition get_prop (v : JsValue) (k : string) : option JsValue :=
  match v with
  | JUndefined | JNull => None
  | JObject fields => Some (lookup_field k fields)
  | _ => Some JUndefined
  end.

Definition truthy (v : JsValue) : bool :=
  match v with
  | JUndefined | JNull => false
  | JBool b => b
  | JNumber n => number_truthy n
  | JString s => negb (String.eqb s "")
  | JArray _ | JObject _ => true
  end.

Definition join_comma (parts : list string) : string :=
  match parts with
  | [] => ""
  | p :: rest => fold_left (fun acc q => acc ++ "," ++ q) rest p
  end.

(** Whether an object has an own property [k]. *)
Definition has_field (k : string) (fields : list (string * JsValue)) : bool :=
  existsb (fun kv => String.eqb (fst kv) k) fields.

Fixpoint all_some {A : Type} (l : list (option A)) : option (list A) :=
  match l with
  | [] => Some []
  | Some a :: rest =>
      match all_some rest with
      | Some rest' => Some (a :: rest')
      | None => None
      end
  | None :: _ => None
  end.

(** String conversion, as performed by a template literal, of a value
    made of JSON data; [None] is the TypeError of a failed conversion.  An
    object converts through [Object.prototype.toString] unless it has an
    own member named toString: that member, being data, is not callable,
    [valueOf] yields no primitive, and the conversion throws.  An array
    converts through [join], which converts its elements. *)
Fixpoint ToString (v : JsValue) : option string :=
  match v with
  | JUndefined => Some "undefined"
  | JNull => Some "null"
  | JBool true => Some "true"
  | JBool false => Some "false"
  | JNumber n => Some (number_to_string n)
  | JString s => Some s
  | JArray items =>
      option_map join_comma
        (all_some (map (fun x => match x with
                                 | JUndefined | JNull => Some ""
                                 | _ => ToString x
                                 end) items))
  | JObject fields =>
      if has_field "toString" fields then None else Some "[object Object]"
  end.

Definition is_string (v : JsValue) : bool :=
  match v with JString _ => true | _ => false end.
End Values.
End Js.
Export Js.

(** Thrown values: every error the program meets is an [Error] object, of
    which the source reads [message] only. *)
Record JsError := mkError { err_name : string; err_message : string }.

Inductive Res (A : Type) : Type :=
| Ok (a : A)
| Throw (e : JsError).
Arguments Ok {A} a.
Arguments Throw {A} e.

(** Built-ins and SDK pieces whose text output the claims never inspect. *)
Class Builtins `{Numbers} := {
  JSON_stringify : JsValue -> option string;        (* [JSON.stringify(v)], [None] = undefined *)
  JSON_stringify_pretty : JsValue -> option string; (* [JSON.stringify(v, null, 2)] *)
  JSON_parse : string -> Res JsValue;               (* [JSON.parse(s)] *)
  McpError_message : Z -> string -> string;         (* message set by [new McpError(code, msg)] *)
  TypeError_message : string -> string              (* engine text of a TypeError *)
}.

Definition new_Error (msg : string) : JsError := mkError "Error" msg.
Definition new_TypeError `{Builtins} (what : string) : JsError :=
  mkError "TypeError" (TypeError_message what).
Definition ErrorCode_MethodNotFound : Z := -32601.
Definition new_McpError `{Builtins} (code : Z) (msg : string) : JsError :=
  mkError "McpError" (McpError_message code msg).

(** ** Programs over external calls *)

Inductive Prog (E : Type -> Type) (R : Type) : Type :=
| Ret (r : R)
| Vis {X : Type} (e : E X) (k : X -> Prog E R).
Arguments Ret {E R} r.
Arguments Vis {E R X} e k.

Fixpoint bind {E A B} (p : Prog E A) (f : A -> Prog E B) : Prog E B :=
  match p with
  | Ret a => f a
  | Vis e k => Vis e (fun x => bind (k x) f)
  end.

Definition call {E X} (e : E X) : Prog E X := Vis e Ret.

(** An async function body: runs to a value or to a thrown error. *)
Definition Async (E : Type -> Type) (A : Type) : Type := Prog E (Res A).

Definition ret {E A} (a : A) : Async E A := Ret (Ok a).
Definition throw {E A} (e : JsError) : Async E A := Ret (Throw e).

(** [await]/sequencing: a thrown error skips the rest. *)
Definition abind {E A B} (p : Async E A) (f : A -> Async E B) : Async E B :=
  bind p (fun r => match r with Ok a => f a | Throw e => throw e end).

(** [try { p } catch (error) { h error }]. *)
Definition try_catch {E A} (p : Async E A) (h : JsError -> Async E A) : Async E A :=
  bind p (fun r => match r with Ok a => ret a | Throw e => h e end).

(** A call that cannot throw. *)
Definition perform {E X} (e : E X) : Async E X := bind (call e) ret.
(** A call whose answer is a value or a thrown error. *)
Definition await {E X} (e : E (Res X)) : Async E X := call e.

Declare Scope async_scope.
Delimit Scope async_scope with async.
Notation "'let*' x ':=' c 'in' k" := (abind c (fun x => k))
  (at level 10, x pattern, c at level 100, k at level 200) : async_scope.
Notation "c ';;' k" := (abind c (fun _ => k))
  (at level 100, k at level 200, right associativity) : async_scope.
Open Scope async_scope.

(** Environments answer calls; a run records each call with its answer. *)
Definition handler (E : Type -> Type) (S : Type) : Type := forall X, E X -> S -> X * S.

Inductive Entry (E : Type -> Type) : Type :=
| entry {X : Type} (e : E X) (x : X).
Arguments entry {E X} e x.

Fixpoint run {E S R} (h : handler E S) (p : Prog E R) (s : S) : R * S * list (Entry E) :=
  match p with
  | Ret r => (r, s, [])
  | Vis e k =>
      let '(x, s1) := h _ e s in
      let '(r, s2, tr) := run h (k x) s1 in
      (r, s2, entry e x :: tr)
  end.

Definition result_of {E S R} (h : handler E S) (p : Prog E R) (s : S) : R := fst (fst (run h p s)).
Definition state_of {E S R} (h : handler E S) (p : Prog E R) (s : S) : S := snd (fst (run h p s)).
Definition trace_of {E S R} (h : handler E S) (p : Prog E R) (s : S) : list (Entry E) := snd (run h p s).

(** ** server.js *)

Module Server.

(** *** Data exchanged with the collaborators *)

Record AccountInfo := {
  homeAccountId : string;
  username : string;
  tenantId : string
}.

Record AuthenticationResult := {
  accessToken : string;
  account : AccountInfo
}.

Record DeviceCodeResponse := {
  userCode : string;
  verificationUri : string;
  interval : Z;
  expiresIn : Z;
  message : option string
}.

(** The context object MSAL hands to the cache plugin. *)
Record TokenCacheContext := { cacheHasChanged : bool }.

Record RequestInit := {
  method : string;
  headers : list (string * string);
  body : option string
}.

(** What the source reads of a fetch [Response]; [headers_get] is
    [response.headers.get], [None] being [null]. *)
Record Response := {
  status : Z;
  statusText : string;
  headers_get : string -> option string;
  body_text : string
}.

(** [response.ok]: the status is in the range 200-299. *)
Definition ok (r : Response) : bool := (200 <=? status r) && (status r <=? 299).

(** Arguments of [console.error]. *)
Inductive LogItem :=
| LText (s : string)
| LError (e : JsError)
| LJsonError (e : JsError)                (* JSON.stringify(error, null, 2) *)
| LJsonDeviceCode (r : DeviceCodeResponse). (* JSON.stringify(response, null, 2) *)

(** *** The calls server.js makes *)

Inductive Ev `{Numbers} : Type -> Type :=
| PcaGetAllAccounts : Ev (Res (list AccountInfo))
| PcaAcquireTokenSilent (account : AccountInfo) (scopes : list string)
    : Ev (Res AuthenticationResult)
| PcaAcquireTokenByDeviceCode (scopes : list string)
    : Ev (Res (option AuthenticationResult))
| Fetch (url : string) (options : RequestInit) : Ev (Res Response)
| SetTimeout (ms : number) : Ev unit
| ConsoleError (items : list LogItem) : Ev unit
| FsExistsSync (path : string) : Ev bool
| FsReadFileSync (path : string) : Ev (Res string)
| FsWriteFileSync (path : string) (data : string) : Ev (Res unit)
| TokenCacheDeserialize (blob : string) : Ev (Res unit)
| TokenCacheSerialize : Ev string.

Class Config := { TOKEN_CACHE_PATH : string }.

Definition GRAPH_ENDPOINT : string := "https://graph.microsoft.com/v1.0".
Definition SCOPES : list string := ["User.Read"; "Notes.Read"; "Notes.Create"; "Notes.ReadWrite"].

Section Code.
Context `{Builtins} `{Config}.

(** *** cachePlugin *)

Definition beforeCacheAccess (context : TokenCacheContext) : Async Ev unit :=
  let* present := perform (FsExistsSync TOKEN_CACHE_PATH) in
  if (present : bool) then
    let* data := await (FsReadFileSync TOKEN_CACHE_PATH) in
    await (TokenCacheDeserialize data)
  else ret tt.

Definition afterCacheAccess (context : TokenCacheContext) : Async Ev unit :=
  if cacheHasChanged context then
    let* blob := perform TokenCacheSerialize in
    await (FsWriteFileSync TOKEN_CACHE_PATH blob)
  else ret tt.

(** *** deviceCodeCallback *)

Definition deviceCodeCallback (response : DeviceCodeResponse) : Async Ev unit :=
  perform (ConsoleError [LText "Device Code Response:"; LJsonDeviceCode response]);;
  match message response with
  | Some m => if String.eqb m "" then ret tt else perform (ConsoleError [LText m])
  | None => ret tt
  end.

(** *** getAccessToken *)

(** The silent branch: [Some token] is its [return], [None] falls through. *)
Definition trySilent (accounts : list AccountInfo) : Async Ev (option string) :=
  match accounts with
  | account0 :: _ =>
      try_catch
        (let* response := await (PcaAcquireTokenSilent account0 SCOPES) in
         ret (Some (accessToken response)))
        (fun error =>
           perform (ConsoleError
             [LText "Silent token acquisition failed, falling back to device code."; LError error]);;
           ret None)
  | [] => ret None
  end.

Definition deviceCodeFlow : Async Ev string :=
  try_catch
    (let* response := await (PcaAcquireTokenByDeviceCode SCOPES) in
     match response with
     | Some r => ret (accessToken r)
     | None => throw (new_TypeError "response.accessToken")
     end)
    (fun error =>
       perform (ConsoleError [LText "Device code flow failed:"; LJsonError error]);;
       throw error).

Definition getAccessToken : Async Ev string :=
  let* accounts := await PcaGetAllAccounts in
  let* silent := trySilent accounts in
  match silent with
  | Some token => ret token
  | None => deviceCodeFlow
  end.

(** *** graphRequest *)

(** [hay.indexOf(needle) !== -1]. *)
Fixpoint includes (needle hay : string) : bool :=
  if String.prefix needle hay then true
  else match hay with
       | EmptyString => false
       | String _ rest => includes needle rest
       end.

(** [response.headers.get("Retry-After") || 1]: the header text when it is
    a non-empty string, the number 1 otherwise. *)
Definition retryAfterOf (response : Response) : string + Z :=
  match headers_get response "Retry-After" with
  | Some s => if String.eqb s "" then inr 1 else inl s
  | None => inr 1
  end.

(** [`${retryAfter}`] and the numeric operand of [retryAfter * 1000]. *)
Definition retryAfterText (r : string + Z) : string :=
  match r with
  | inl s => s
  | inr n => number_to_string (number_of_Z n)
  end.

Definition retryAfterNumber (r : string + Z) : number :=
  match r with
  | inl s => StringToNumber s
  | inr n => number_of_Z n
  end.

(** The message built in the [!response.ok] branch. *)
Definition graphErrorMessage (response : Response) : string :=
  let errorText := body_text response in
  let errorMessage :=
    "Graph API Error: " ++ number_to_string (number_of_Z (status response))
      ++ " " ++ statusText response in
  match JSON_parse errorText with
  | Ok errorJson =>
      match get_prop errorJson "error" with
      | Some err =>
          if truthy err then
            match get_prop err "message" with
            | Some m =>
                if truthy m then
                  match ToString m with
                  | Some text => errorMessage ++ " - " ++ text
                  | None => errorMessage ++ " - " ++ errorText
                  end
                else errorMessage
            | None => errorMessage ++ " - " ++ errorText
            end
          else errorMessage
      | None => errorMessage ++ " - " ++ errorText
      end
  | Throw _ => errorMessage ++ " - " ++ errorText
  end.

(** [response.json()] and [response.text()]. *)
Definition response_json (response : Response) : Async Ev JsValue :=
  Ret (JSON_parse (body_text response)).
Definition response_text (response : Response) : Async Ev JsValue :=
  ret (JString (body_text response)).

Definition graphOptions (token method : string) (body : JsValue) : RequestInit :=
  {| method := method;
     headers := [("Authorization", "Bearer " ++ token);
                 ("Content-Type", "application/json")];
     body := if truthy body then JSON_stringify body else None |}.

(** The end of [graphRequest], from [if (!response.ok)] on. *)
Definition graphReturn (response : Response) : Async Ev JsValue :=
  if negb (ok response) then
    throw (new_Error (graphErrorMessage response))
  else
    match headers_get response "content-type" with
    | Some contentType =>
        if negb (String.eqb contentType "") && includes "application/json" contentType
        then response_json response
        else response_text response
    | None => response_text response
    end.

Definition graphRequest (endpoint method : string) (body : JsValue) : Async Ev JsValue :=
  let* token := getAccessToken in
  let options := graphOptions token method body in
  let* response := await (Fetch (GRAPH_ENDPOINT ++ endpoint) options) in
  let* response :=
    if status response =? 429 then
      let retryAfter := retryAfterOf response in
      perform (ConsoleError
        [LText ("Throttled. Retrying after " ++ retryAfterText retryAfter ++ " seconds...")]);;
      perform (SetTimeout (number_mul (retryAfterNumber retryAfter) (number_of_Z 1000)));;
      await (Fetch (GRAPH_ENDPOINT ++ endpoint) options)
    else ret response in
  graphReturn response.

(** *** The CallToolRequestSchema handler *)

Record CallToolRequest := {
  name : string;
  arguments : option (list (string * JsValue))
}.

Record TextContent := { type : string; text : option string }.
Record CallToolResult := { content : list TextContent; isError : bool }.

Definition textResult (t : option string) : CallToolResult :=
  {| content := [{| type := "text"; text := t |}]; isError := false |}.

(** [const { k } = request.params.arguments]: a TypeError when there is no
    arguments object, [undefined] for a key it lacks. *)
Definition destructure (request : CallToolRequest) (k : string) : Async Ev JsValue :=
  match arguments request with
  | Some fields => ret (lookup_field k fields)
  | None => throw (new_TypeError k)
  end.

(** [result.value]. *)
Definition valueOf (result : JsValue) : Async Ev JsValue :=
  match get_prop result "value" with
  | Some v => ret v
  | None => throw (new_TypeError "value")
  end.

(** [`${v}`] in a template literal: the text of [v], or the TypeError of
    its conversion. *)
Definition interpolate (v : JsValue) : Async Ev string :=
  match ToString v with
  | Some text => ret text
  | None => throw (new_TypeError "toString")
  end.

(** The page body, [htmlContent] being the text interpolated. *)
Definition createPageBody (htmlContent : string) : string :=
  "<!DOCTYPE html><html><head><title>New Page</title></head><body>"
    ++ htmlContent ++ "</body></html>".

Definition createPageOptions (token : string) (htmlContent : string) : RequestInit :=
  {| method := "POST";
     headers := [("Authorization", "Bearer " ++ token); ("Content-Type", "text/html")];
     body := Some (createPageBody htmlContent) |}.

(** The [switch] of the handler, inside its [try].  A template literal
    is evaluated, and may throw, where the source evaluates it: as an
    argument, before [graphRequest] is entered; in create_page, after the
    token is obtained, the address before the body. *)
Definition dispatch (request : CallToolRequest) : Async Ev CallToolResult :=
  let tool := name request in
  if String.eqb tool "list_notebooks" then
    let* result := graphRequest "/me/onenote/notebooks" "GET" JNull in
    let* v := valueOf result in
    ret (textResult (JSON_stringify_pretty v))
  else if String.eqb tool "list_sections" then
    let* notebookId := destructure request "notebookId" in
    let* notebook := interpolate notebookId in
    let* result :=
      graphRequest ("/me/onenote/notebooks/" ++ notebook ++ "/sections") "GET" JNull in
    let* v := valueOf result in
    ret (textResult (JSON_stringify_pretty v))
  else if String.eqb tool "list_pages" then
    let* sectionId := destructure request "sectionId" in
    let* section := interpolate sectionId in
    let* result :=
      graphRequest ("/me/onenote/sections/" ++ section ++ "/pages") "GET" JNull in
    let* v := valueOf result in
    ret (textResult (JSON_stringify_pretty v))
  else if String.eqb tool "read_content" then
    let* pageId := destructure request "pageId" in
    let* page := interpolate pageId in
    let* result :=
      graphRequest ("/me/onenote/pages/" ++ page ++ "/content") "GET" JNull in
    ret (textResult (match result with
                     | JString s => Some s
                     | _ => JSON_stringify_pretty result
                     end))
  else if String.eqb tool "create_notebook" then
    let* displayName := destructure request "displayName" in
    let* result :=
      graphRequest "/me/onenote/notebooks" "POST" (JObject [("displayName", displayName)]) in
    ret (textResult (JSON_stringify_pretty result))
  else if String.eqb tool "create_section" then
    let* notebookId := destructure request "notebookId" in
    let* displayName := destructure request "displayName" in
    let* notebook := interpolate notebookId in
    let* result :=
      graphRequest ("/me/onenote/notebooks/" ++ notebook ++ "/sections") "POST"
        (JObject [("displayName", displayName)]) in
    ret (textResult (JSON_stringify_pretty result))
  else if String.eqb tool "create_page" then
    let* sectionId := destructure request "sectionId" in
    let* htmlContent := destructure request "htmlContent" in
    let* token := getAccessToken in
    let* section := interpolate sectionId in
    let* html := interpolate htmlContent in
    let* response :=
      await (Fetch (GRAPH_ENDPOINT ++ "/me/onenote/sections/" ++ section ++ "/pages")
                   (createPageOptions token html)) in
    if negb (ok response) then
      throw (new_Error ("Failed to create page: " ++ statusText response))
    else
      let* result := response_json response in
      ret (textResult (JSON_stringify_pretty result))
  else
    throw (new_McpError ErrorCode_MethodNotFound ("Unknown tool: " ++ tool)).

(** The [catch] of the handler. *)
Definition errorResult (error : JsError) : CallToolResult :=
  {| content := [{| type := "text";
                    text := JSON_stringify (JObject [("error", JString (err_message error))]) |}];
     isError := true |}.

Definition callTool (request : CallToolRequest) : Async Ev CallToolResult :=
  try_catch (dispatch request)
    (fun error =>
       perform (ConsoleError [LText "Error executing tool:"; LError error]);;
       ret (errorResult error)).
End Code.
End Server.

(** ** server.js linked with a token library

    [pca] is an MSAL [PublicClientApplication] configured with
    [cachePlugin]: whatever the library does inside [getAllAccounts],
    [acquireTokenSilent] and [acquireTokenByDeviceCode], it reaches the
    credential store and the operator only through the callbacks server.js
    hands it.  A library is therefore any program over its own effects [I]
    and invocations of those callbacks. *)

Module Msal.
Import Server.

Section Link.
Context `{Builtins} `{Config}.
Variable I : Type -> Type.

Inductive LibEv : Type -> Type :=
| BeforeCacheAccess (context : TokenCacheContext) : LibEv (Res unit)
| AfterCacheAccess (context : TokenCacheContext) : LibEv (Res unit)
| DeviceCodeCallback (response : DeviceCodeResponse) : LibEv (Res unit)
| Internal {X : Type} (i : I X) : LibEv X.

Record Library := {
  lib_getAllAccounts : Prog LibEv (Res (list AccountInfo));
  lib_acquireTokenSilent :
    AccountInfo -> list string -> Prog LibEv (Res AuthenticationResult);
  lib_acquireTokenByDeviceCode :
    list string -> Prog LibEv (Res (option AuthenticationResult))
}.

(** The callbacks server.js hands to the library, as invoked. *)
Inductive Callback :=
| CbBeforeCacheAccess (context : TokenCacheContext)
| CbAfterCacheAccess (context : TokenCacheContext)
| CbDeviceCode (response : DeviceCodeResponse).

(** What a run of the linked program records besides the calls of
    server.js ([Src]) and of the library ([Own]). *)
Inductive Marker :=
| Enters (c : Callback)   (* the library invokes a callback *)
| Returns (r : Entry Ev). (* a [pca] method answers server.js *)

Inductive SysEv : Type -> Type :=
| Src {X : Type} (e : Ev X) : SysEv X
| Own {X : Type} (i : I X) : SysEv X
| Mark (m : Marker) : SysEv unit.

Fixpoint interp {E F R} (f : forall X, E X -> Prog F X) (p : Prog E R) : Prog F R :=
  match p with
  | Ret r => Ret r
  | Vis e k => bind (f _ e) (fun x => interp f (k x))
  end.

Definition lift {R} (p : Prog Ev R) : Prog SysEv R :=
  interp (fun X e => call (Src e)) p.

Definition entering {X} (c : Callback) (p : Prog SysEv X) : Prog SysEv X :=
  bind (call (Mark (Enters c))) (fun _ => p).

Definition callbacks X (c : LibEv X) : Prog SysEv X :=
  match c in LibEv X return Prog SysEv X with
  | BeforeCacheAccess context =>
      entering (CbBeforeCacheAccess context) (lift (beforeCacheAccess context))
  | AfterCacheAccess context =>
      entering (CbAfterCacheAccess context) (lift (afterCacheAccess context))
  | DeviceCodeCallback response =>
      entering (CbDeviceCode response) (lift (deviceCodeCallback response))
  | Internal i => call (Own i)
  end.

Definition returning {X} (e : Ev X) (p : Prog SysEv X) : Prog SysEv X :=
  bind p (fun x => bind (call (Mark (Returns (entry e x)))) (fun _ => Ret x)).

Definition link_call (lib : Library) X (e : Ev X) : Prog SysEv X :=
  match e in Ev X return Prog SysEv X with
  | PcaGetAllAccounts as e =>
      returning e (interp callbacks (lib_getAllAccounts lib))
  | PcaAcquireTokenSilent account scopes as e =>
      returning e (interp callbacks (lib_acquireTokenSilent lib account scopes))
  | PcaAcquireTokenByDeviceCode scopes as e =>
      returning e (interp callbacks (lib_acquireTokenByDeviceCode lib scopes))
  | e => call (Src e)
  end.

(** server.js code [p] with [pca] implemented by [lib]. *)
Definition linked (lib : Library) {R} (p : Prog Ev R) : Prog SysEv R :=
  interp (link_call lib) p.
End Link.

Arguments lib_getAllAccounts {I} l.
Arguments lib_acquireTokenSilent {I} l _ _.
Arguments lib_acquireTokenByDeviceCode {I} l _.
Arguments callbacks {_ _ I} X c.
Arguments lift {_ I R} p.
Arguments entering {_ I X} c p.
Arguments returning {_ I X} e p.
Arguments link_call {_ _ I} lib X e.
Arguments linked {_ _ I} lib {R} p.
Arguments BeforeCacheAccess {I} context.
Arguments AfterCacheAccess {I} context.
Arguments DeviceCodeCallback {I} response.
Arguments Internal {I X} i.
Arguments Src {_ I X} e.
Arguments Own {_ I X} i.
Arguments Mark {_ I} m.
End Msal.

(** ** Reading a trace *)

Module Observe.
Import Server Msal.

Section Readers.
Context `{Numbers}.

Definition collect {E : Type -> Type} {A} (f : Entry E -> list A) (tr : list (Entry E)) : list A :=
  flat_map f tr.

(** Answers of [pca.getTokenCache().getAllAccounts()]. *)
Definition account_queries : list (Entry Ev) -> list (Res (list AccountInfo)) :=
  collect (fun en => match en with
    | entry e x => match e in Ev X return X -> list _ with
                   | PcaGetAllAccounts => fun r => [r]
                   | _ => fun _ => []
                   end x
    end).

(** Calls of [pca.acquireTokenSilent]: account, scopes, answer. *)
Definition silent_calls
  : list (Entry Ev) -> list (AccountInfo * list string * Res AuthenticationResult) :=
  collect (fun en => match en with
    | entry e x => match e in Ev X return X -> list _ with
                   | PcaAcquireTokenSilent a sc => fun r => [(a, sc, r)]
                   | _ => fun _ => []
                   end x
    end).

(** Calls of [pca.acquireTokenByDeviceCode]: scopes, answer. *)
Definition device_calls
  : list (Entry Ev) -> list (list string * Res (option AuthenticationResult)) :=
  collect (fun en => match en with
    | entry e x => match e in Ev X return X -> list _ with
                   | PcaAcquireTokenByDeviceCode sc => fun r => [(sc, r)]
                   | _ => fun _ => []
                   end x
    end).

(** Calls of [fetch]: url, options, answer. *)
Definition fetch_calls : list (Entry Ev) -> list (string * RequestInit * Res Response) :=
  collect (fun en => match en with
    | entry e x => match e in Ev X return X -> list _ with
                   | Fetch url options => fun r => [(url, options, r)]
                   | _ => fun _ => []
                   end x
    end).

(** Delays handed to [setTimeout]. *)
Definition timeouts : list (Entry Ev) -> list number :=
  collect (fun en => match en with
    | entry e _ => match e with
                   | SetTimeout ms => [ms]
                   | _ => []
                   end
    end).

(** Calls of [fs.writeFileSync]: path, data. *)
Definition store_writes : list (Entry Ev) -> list (string * string) :=
  collect (fun en => match en with
    | entry e _ => match e with
                   | FsWriteFileSync path data => [(path, data)]
                   | _ => []
                   end
    end).

(** The calls of [pca] methods, with their answers. *)
Definition pca_calls : list (Entry Ev) -> list (Entry Ev) :=
  collect (fun en => match en with
    | entry e _ => match e with
                   | PcaGetAllAccounts | PcaAcquireTokenSilent _ _
                   | PcaAcquireTokenByDeviceCode _ => [en]
                   | _ => []
                   end
    end).

(** Calls of [tokenCache.deserialize]: blob, answer. *)
Definition deserializations : list (Entry Ev) -> list (string * Res unit) :=
  collect (fun en => match en with
    | entry e x => match e in Ev X return X -> list _ with
                   | TokenCacheDeserialize blob => fun r => [(blob, r)]
                   | _ => fun _ => []
                   end x
    end).

(** Calls on [fs] and on the token cache object, of any kind. *)
Definition store_calls : list (Entry Ev) -> list (Entry Ev) :=
  collect (fun en => match en with
    | entry e _ => match e with
                   | FsExistsSync _ | FsReadFileSync _ | FsWriteFileSync _ _
                   | TokenCacheDeserialize _ | TokenCacheSerialize => [en]
                   | _ => []
                   end
    end).

Section Linked.
Variable I : Type -> Type.

(** The calls made by server.js code in a linked run. *)
Definition src_entries : list (Entry (SysEv I)) -> list (Entry Ev) :=
  collect (fun en => match en with
    | entry e x => match e in SysEv _ X return X -> list _ with
                   | Src e' => fun x' => [entry e' x']
                   | _ => fun _ => []
                   end x
    end).

(** The callbacks the library invoked. *)
Definition entered : list (Entry (SysEv I)) -> list Callback :=
  collect (fun en => match en with
    | entry e _ => match e with
                   | Mark (Enters c) => [c]
                   | _ => []
                   end
    end).

(** The answers the [pca] methods gave server.js. *)
Definition returned : list (Entry (SysEv I)) -> list (Entry Ev) :=
  collect (fun en => match en with
    | entry e _ => match e with
                   | Mark (Returns r) => [r]
                   | _ => []
                   end
    end).
End Linked.

(** Contexts of the [afterCacheAccess] invocations that report a change. *)
Definition changed_accesses (cs : list Callback) : list TokenCacheContext :=
  flat_map (fun c => match c with
                     | CbAfterCacheAccess context =>
                         if cacheHasChanged context then [context] else []
                     | _ => []
                     end) cs.

(** Write-through: the store is written once per cache access that reports
    a change, onto [TOKEN_CACHE_PATH], and never otherwise. *)
Definition writeThrough `{Config} {I : Type -> Type} (tr : list (Entry (SysEv I))) : Prop :=
  map fst (store_writes (src_entries I tr))
    = map (fun _ => TOKEN_CACHE_PATH) (changed_accesses (entered I tr)).
End Readers.

Arguments src_entries {_ I} tr.
Arguments entered {_ I} tr.
Arguments returned {_ I} tr.
End Observe.

(** ** A sample runtime, world and library

    Concrete inhabitants of the interfaces above, on which the statements
    below are exercised. *)

Module Sample.
Import Server Msal Observe.

(** Integers and NaN; a string of decimal digits converts to its value,
    the empty string to 0, any other text to NaN. *)
Definition digit_value (c : ascii) : option Z :=
  let n := Z.of_nat (nat_of_ascii c) in
  if (48 <=? n) && (n <=? 57) then Some (n - 48) else None.

Fixpoint digits_value (acc : Z) (s : string) : option Z :=
  match s with
  | EmptyString => Some acc
  | String c rest =>
      match digit_value c with
      | Some d => digits_value (10 * acc + d) rest
      | None => None
      end
  end.

Definition Z_to_string (z : Z) : string := NilZero.string_of_int (Z.to_int z).

#[export] Instance numbers : Numbers := {|
  number := option Z;
  number_of_Z := Some;
  number_mul := fun a b =>
    match a, b with
    | Some x, Some y => Some (x * y)
    | _, _ => None
    end;
  StringToNumber := digits_value 0;
  number_truthy := fun a =>
    match a with
    | Some x => negb (x =? 0)
    | None => false
    end;
  number_to_string := fun a =>
    match a with
    | Some x => Z_to_string x
    | None => "NaN"
    end
|}.

Definition dq : string := String (ascii_of_nat 34) EmptyString.

(** A compact renderer: strings are quoted without escapes, [undefined]
    members are dropped from objects and print as null in arrays. *)
Fixpoint render (v : JsValue) : option string :=
  match v with
  | JUndefined => None
  | JNull => Some "null"
  | JBool true => Some "true"
  | JBool false => Some "false"
  | JNumber n => Some (match n with Some _ => number_to_string n | None => "null" end)
  | JString s => Some (dq ++ s ++ dq)
  | JArray items =>
      Some ("[" ++ join_comma (map (fun x => default "null" (render x)) items) ++ "]")
  | JObject fields =>
      Some ("{" ++ join_comma
                     (flat_map (fun kv => match render (snd kv) with
                                          | Some t => [dq ++ fst kv ++ dq ++ ":" ++ t]
                                          | None => []
                                          end) fields) ++ "}")
  end.

(** The documents the sample parser knows, by their rendering. *)
Definition throttled_body : JsValue :=
  JObject [("error", JObject [("code", JString "TooManyRequests");
                              ("message", JString "Too many requests")])].
Definition notebooks_body : JsValue :=
  JObject [("value", JArray [JObject [("displayName", JString "Work")]])].

(** The token cache as the library serializes it: one renewal secret per
    cached account. *)
Definition cacheDocument (secrets : list (string * string)) : JsValue :=
  JObject [("Account",
            JObject (map (fun kv => (fst kv, JObject [("secret", JString (snd kv))]))
                         secrets))].
Definition cacheText (secrets : list (string * string)) : string :=
  default "" (render (cacheDocument secrets)).

Definition known_documents : list JsValue :=
  [throttled_body; notebooks_body; JNull;
   cacheDocument [("a1.tenant", "r0")];
   cacheDocument [("a1.tenant", "r1")];
   cacheDocument [("a1.tenant", "r1"); ("b2.tenant", "r7")]].

Definition parse (s : string) : Res JsValue :=
  match List.find (fun d => match render d with
                            | Some t => String.eqb t s
                            | None => false
                            end) known_documents with
  | Some d => Ok d
  | None => Throw (mkError "SyntaxError" "Unexpected token in JSON")
  end.

#[export] Instance builtins : Builtins := {|
  JSON_stringify := render;
  JSON_stringify_pretty := render;
  JSON_parse := parse;
  McpError_message := fun code msg => "MCP error " ++ Z_to_string code ++ ": " ++ msg;
  TypeError_message := fun what => "Cannot read properties of undefined (reading " ++ what ++ ")"
|}.

#[export] Instance config : Config := {|
  TOKEN_CACHE_PATH := "/srv/mcp-onenote/token_cache.json"
|}.

(** The world: the file system, the state of the token library and the
    scripted answers of the identity provider and of the Graph API. *)
Record World := {
  files : gmap string string;
  cachedAccounts : list AccountInfo;
  accountsError : option JsError;   (* [getAllAccounts] rejects with it *)
  silent : Res AuthenticationResult;
  silentChanges : bool;             (* silent renewal rewrote the cache *)
  challenge : Res DeviceCodeResponse;
  deviceCode : Res (option AuthenticationResult);
  cacheBlob : string;               (* what [serialize] yields *)
  network : list (Res Response)
}.

Definition set_files (f : gmap string string) (w : World) : World :=
  {| files := f; cachedAccounts := cachedAccounts w; accountsError := accountsError w;
     silent := silent w; silentChanges := silentChanges w; challenge := challenge w;
     deviceCode := deviceCode w; cacheBlob := cacheBlob w; network := network w |}.
Definition set_network (n : list (Res Response)) (w : World) : World :=
  {| files := files w; cachedAccounts := cachedAccounts w; accountsError := accountsError w;
     silent := silent w; silentChanges := silentChanges w; challenge := challenge w;
     deviceCode := deviceCode w; cacheBlob := cacheBlob w; network := n |}.

(** [tokenCache.deserialize(blob)] as msal-node has it: an empty blob is
    no snapshot and is left alone, any other one goes through [JSON.parse]
    and must hold an object. *)
Definition deserializes (blob : string) : bool :=
  String.eqb blob "" ||
  match parse blob with
  | Ok (JObject _) => true
  | _ => false
  end.

Definition world : handler Ev World := fun X e =>
  match e in Ev X return World -> X * World with
  | PcaGetAllAccounts => fun w =>
      (match accountsError w with
       | Some e => Throw e
       | None => Ok (cachedAccounts w)
       end, w)
  | PcaAcquireTokenSilent _ _ => fun w => (silent w, w)
  | PcaAcquireTokenByDeviceCode _ => fun w => (deviceCode w, w)
  | Fetch _ _ => fun w =>
      match network w with
      | r :: rest => (r, set_network rest w)
      | [] => (Throw (mkError "FetchError" "network unreachable"), w)
      end
  | SetTimeout _ => fun w => (tt, w)
  | ConsoleError _ => fun w => (tt, w)
  | FsExistsSync path => fun w => (bool_decide (is_Some (files w !! path)), w)
  | FsReadFileSync path => fun w =>
      (match files w !! path with
       | Some data => Ok data
       | None => Throw (mkError "Error" "ENOENT: no such file or directory")
       end, w)
  | FsWriteFileSync path data => fun w => (Ok tt, set_files (<[path := data]> (files w)) w)
  | TokenCacheDeserialize blob => fun w =>
      (if deserializes blob then Ok tt
       else Throw (mkError "SyntaxError" "Unexpected token in JSON"), w)
  | TokenCacheSerialize => fun w => (cacheBlob w, w)
  end.

(** The library's own effects. *)
Inductive Core : Type -> Type :=
| ReadAccounts : Core (list AccountInfo)
| RedeemCached (account : AccountInfo) (scopes : list string)
    : Core (Res AuthenticationResult * bool)
| RequestDeviceCode (scopes : list string) : Core (Res DeviceCodeResponse)
| PollDeviceCode : Core (Res (option AuthenticationResult)).

(** [try { p } finally { q }]. *)
Definition finally {E A} (p : Async E A) (q : Async E unit) : Async E A :=
  bind p (fun r => abind q (fun _ => Ret r)).

(** A library that drives the cache plugin the way msal-node does: a cache
    read is bracketed by [beforeCacheAccess] and [afterCacheAccess] (the
    latter in a [finally]) with an unchanged context, a cache update by the
    same pair with a changed one; the device code challenge goes to the
    callback before polling starts. *)
Definition unchanged : TokenCacheContext := {| cacheHasChanged := false |}.
Definition changed : TokenCacheContext := {| cacheHasChanged := true |}.

Definition persist : Async (LibEv Core) unit :=
  finally (await (BeforeCacheAccess changed)) (await (AfterCacheAccess changed)).

Definition library : Library Core := {|
  lib_getAllAccounts :=
    finally (await (BeforeCacheAccess unchanged);; perform (Internal ReadAccounts))
            (await (AfterCacheAccess unchanged));
  lib_acquireTokenSilent := fun account scopes =>
    let* answer := perform (Internal (RedeemCached account scopes)) in
    match answer with
    | (Ok result, true) => persist;; ret result
    | (r, _) => Ret r
    end;
  lib_acquireTokenByDeviceCode := fun scopes =>
    let* response := await (Internal (RequestDeviceCode scopes)) in
    await (DeviceCodeCallback response);;
    let* result := await (Internal PollDeviceCode) in
    persist;;
    ret result
|}.

Definition system : handler (SysEv Core) World := fun X e =>
  match e in SysEv _ X return World -> X * World with
  | Src e' => world _ e'
  | Own i =>
      match i in Core X return World -> X * World with
      | ReadAccounts => fun w => (cachedAccounts w, w)
      | RedeemCached _ _ => fun w => ((silent w, silentChanges w), w)
      | RequestDeviceCode _ => fun w => (challenge w, w)
      | PollDeviceCode => fun w => (deviceCode w, w)
      end
  | Mark _ => fun w => (tt, w)
  end.

Definition alice : AccountInfo :=
  {| homeAccountId := "a1.tenant"; username := "alice@example.org"; tenantId := "tenant" |}.
Definition bob : AccountInfo :=
  {| homeAccountId := "b2.tenant"; username := "bob@example.org"; tenantId := "tenant" |}.

Definition tokenFor (a : AccountInfo) (t : string) : AuthenticationResult :=
  {| accessToken := t; account := a |}.

Definition sampleChallenge : DeviceCodeResponse :=
  {| userCode := "ABCD1234"; verificationUri := "https://microsoft.com/devicelogin";
     interval := 5; expiresIn := 900;
     message := Some "To sign in, open the page and enter the code ABCD1234." |}.

Definition respond (code : Z) (reason : string) (hdrs : list (string * string))
    (text : string) : Response :=
  {| status := code; statusText := reason;
     headers_get := fun k =>
       match List.find (fun kv => String.eqb (fst kv) k) hdrs with
       | Some kv => Some (snd kv)
       | None => None
       end;
     body_text := text |}.

(** First run: no store, no cached account, the operator completes the
    device code flow. *)
Definition fresh : World := {|
  files := ∅;
  cachedAccounts := [];
  accountsError := None;
  silent := Throw (mkError "ClientAuthError" "no_tokens_found");
  silentChanges := false;
  challenge := Ok sampleChallenge;
  deviceCode := Ok (Some (tokenFor alice "token-from-device-code"));
  cacheBlob := cacheText [("a1.tenant", "r0")];
  network := []
|}.

(** A later run: the store holds a blob, [alice] is cached and her
    credential still yields a token. *)
Definition storedBlob : string := cacheText [("a1.tenant", "r0")].

Definition warm : World := {|
  files := {[ TOKEN_CACHE_PATH := storedBlob ]};
  cachedAccounts := [alice];
  accountsError := None;
  silent := Ok (tokenFor alice "token-from-cache");
  silentChanges := false;
  challenge := Ok sampleChallenge;
  deviceCode := Ok (Some (tokenFor alice "token-from-device-code"));
  cacheBlob := cacheText [("a1.tenant", "r1")];
  network := []
|}.

(** A first run over a store that does not parse. *)
Definition corrupt : World := set_files {[ TOKEN_CACHE_PATH := "not a cache" ]} fresh.

(** Two cached accounts. *)
Definition shared : World := {|
  files := {[ TOKEN_CACHE_PATH := storedBlob ]};
  cachedAccounts := [alice; bob];
  accountsError := None;
  silent := Ok (tokenFor alice "token-from-cache");
  silentChanges := false;
  challenge := Ok sampleChallenge;
  deviceCode := Ok (Some (tokenFor alice "token-from-device-code"));
  cacheBlob := cacheText [("a1.tenant", "r1"); ("b2.tenant", "r7")];
  network := []
|}.

(** The renewal secret has lapsed and the operator lets the device code
    expire. *)
Definition lapsed : World := {|
  files := {[ TOKEN_CACHE_PATH := storedBlob ]};
  cachedAccounts := [alice];
  accountsError := None;
  silent := Throw (mkError "InteractionRequiredAuthError" "invalid_grant");
  silentChanges := false;
  challenge := Ok sampleChallenge;
  deviceCode := Throw (mkError "ClientAuthError" "device_code_expired");
  cacheBlob := storedBlob;
  network := []
|}.

(** The library cannot list the accounts. *)
Definition unreadable : World := {|
  files := {[ TOKEN_CACHE_PATH := "not a cache" ]};
  cachedAccounts := [];
  accountsError := Some (mkError "SyntaxError" "Unexpected token in JSON");
  silent := Ok (tokenFor alice "token-from-cache");
  silentChanges := false;
  challenge := Ok sampleChallenge;
  deviceCode := Ok (Some (tokenFor alice "token-from-device-code"));
  cacheBlob := storedBlob;
  network := []
|}.

(** The Graph API throttles twice; its second answer carries a message. *)
Definition throttledText : string := default "" (render throttled_body).
Definition firstThrottle : Response :=
  respond 429 "Too Many Requests" [("Retry-After", "2")] "".
Definition secondThrottle : Response :=
  respond 429 "Too Many Requests" [("content-type", "application/json")] throttledText.
Definition throttled : World :=
  set_network [Ok firstThrottle; Ok secondThrottle] warm.

(** The Graph API answers 404. *)
Definition notFound : Response := respond 404 "Not Found" [] "".
Definition missing : World := set_network [Ok notFound] warm.

Definition listNotebooks : CallToolRequest :=
  {| name := "list_notebooks"; arguments := Some [] |}.
(** list_sections called without its notebookId. *)
Definition listSectionsBare : CallToolRequest :=
  {| name := "list_sections"; arguments := Some [] |}.
Definition createPage : CallToolRequest :=
  {| name := "create_page";
     arguments := Some [("sectionId", JString "s-1"); ("htmlContent", JString "<p>Hi</p>")] |}.
Definition deletePage : CallToolRequest :=
  {| name := "delete_page"; arguments := Some [("pageId", JString "p-1")] |}.

(** [fs.writeFileSync(path, data)] opens [path] with flag w, which
    truncates it, and then writes [data]: a process that dies after [n]
    characters leaves the first [n] characters of [data] in the file. *)
Definition interrupted_write (path data : string) (n : nat) (f : gmap string string)
  : gmap string string :=
  <[path := String.substring 0 n data]> f.

(** The Graph API throttles with a date to come back at, which Retry-After
    allows besides a number of seconds. *)
Definition retryDate : string := "Wed, 21 Oct 2015 07:28:00 GMT".
Definition dateThrottle : Response :=
  respond 429 "Too Many Requests" [("Retry-After", retryDate)] "".
Definition dated : World := set_network [Ok dateThrottle; Ok notFound] warm.

(** list_sections called with a notebookId that has no string conversion:
    an object with a member named toString. *)
Definition listSectionsOdd : CallToolRequest :=
  {| name := "list_sections";
     arguments := Some [("notebookId", JObject [("toString", JNumber (number_of_Z 1))])] |}.
End Sample.

(** ** The shape of every run

    What a run of the provider and of the Graph client can look like,
    whatever the environment answers: the calls in order, and the result. *)

Module Behaviour.
Import Server.

Section Shapes.
Context `{Builtins} `{Config}.

(** Result of the device code branch when the library answers [d]. *)
Definition deviceOutcome (d : Res (option AuthenticationResult)) : Res string :=
  match d with
  | Ok (Some r) => Ok (accessToken r)
  | Ok None => Throw (new_TypeError "response.accessToken")
  | Throw e => Throw e
  end.

Definition deviceTrace (d : Res (option AuthenticationResult)) : list (Entry Ev) :=
  entry (PcaAcquireTokenByDeviceCode SCOPES) d ::
  match deviceOutcome d with
  | Ok _ => []
  | Throw e => [entry (ConsoleError [LText "Device code flow failed:"; LJsonError e]) tt]
  end.

Definition silentFailureLog (e : JsError) : Entry Ev :=
  entry (ConsoleError
    [LText "Silent token acquisition failed, falling back to device code."; LError e]) tt.

Inductive TokenRun : list (Entry Ev) -> Res string -> Prop :=
| TokenAccountsFail (e : JsError) :
    TokenRun [entry PcaGetAllAccounts (Throw e)] (Throw e)
| TokenSilent (a : AccountInfo) (rest : list AccountInfo) (res : AuthenticationResult) :
    TokenRun [entry PcaGetAllAccounts (Ok (a :: rest));
              entry (PcaAcquireTokenSilent a SCOPES) (Ok res)]
             (Ok (accessToken res))
| TokenDeviceDirect (d : Res (option AuthenticationResult)) :
    TokenRun (entry PcaGetAllAccounts (Ok []) :: deviceTrace d) (deviceOutcome d)
| TokenDeviceFallback (a : AccountInfo) (rest : list AccountInfo) (e : JsError)
    (d : Res (option AuthenticationResult)) :
    TokenRun (entry PcaGetAllAccounts (Ok (a :: rest)) ::
              entry (PcaAcquireTokenSilent a SCOPES) (Throw e) ::
              silentFailureLog e :: deviceTrace d)
             (deviceOutcome d).

(** What [graphRequest] makes of the final response. *)
Definition graphResult (response : Response) : Res JsValue :=
  if negb (ok response) then Throw (new_Error (graphErrorMessage response))
  else match headers_get response "content-type" with
       | Some contentType =>
           if negb (String.eqb contentType "") && includes "application/json" contentType
           then JSON_parse (body_text response)
           else Ok (JString (body_text response))
       | None => Ok (JString (body_text response))
       end.

Definition throttleLog (response : Response) : Entry Ev :=
  entry (ConsoleError
    [LText ("Throttled. Retrying after " ++ retryAfterText (retryAfterOf response)
              ++ " seconds...")]) tt.

Definition throttleDelay (response : Response) : number :=
  number_mul (retryAfterNumber (retryAfterOf response)) (number_of_Z 1000).

(** The calls after the token is obtained, for a request [url]/[options]. *)
Inductive FetchRun (url : string) (options : RequestInit)
  : list (Entry Ev) -> Res Response -> Prop :=
| FetchFails (e : JsError) :
    FetchRun url options [entry (Fetch url options) (Throw e)] (Throw e)
| FetchOnce (r : Response) :
    status r <> 429 ->
    FetchRun url options [entry (Fetch url options) (Ok r)] (Ok r)
| FetchRetried (r1 : Response) (f2 : Res Response) :
    status r1 = 429 ->
    FetchRun url options
      [entry (Fetch url options) (Ok r1); throttleLog r1;
       entry (SetTimeout (throttleDelay r1)) tt;
       entry (Fetch url options) f2]
      f2.

Inductive GraphRun (endpoint method : string) (body : JsValue)
  : list (Entry Ev) -> Res JsValue -> Prop :=
| GraphNoToken (tr : list (Entry Ev)) (e : JsError) :
    TokenRun tr (Throw e) ->
    GraphRun endpoint method body tr (Throw e)
| GraphSent (tr1 tr2 : list (Entry Ev)) (token : string) (f : Res Response) :
    TokenRun tr1 (Ok token) ->
    FetchRun (GRAPH_ENDPOINT ++ endpoint) (graphOptions token method body) tr2 f ->
    GraphRun endpoint method body (tr1 ++ tr2)
      (match f with
       | Ok response => graphResult response
       | Throw e => Throw e
       end).

(** The tools registered by the ListTools handler. *)
Definition toolNames : list string :=
  ["list_notebooks"; "list_sections"; "list_pages"; "read_content";
   "create_notebook"; "create_section"; "create_page"].

(** The six tools served through [graphRequest], with the endpoint, method
    and body each passes, [fields] being the members of the arguments
    object; there is none when the member that goes into the path has no
    string conversion. *)
Definition graphCall (tool : string) (fields : list (string * JsValue))
  : option (string * string * JsValue) :=
  let arg k := lookup_field k fields in
  if String.eqb tool "list_notebooks" then
    Some ("/me/onenote/notebooks", "GET", JNull)
  else if String.eqb tool "list_sections" then
    match ToString (arg "notebookId") with
    | Some notebook => Some ("/me/onenote/notebooks/" ++ notebook ++ "/sections", "GET", JNull)
    | None => None
    end
  else if String.eqb tool "list_pages" then
    match ToString (arg "sectionId") with
    | Some section => Some ("/me/onenote/sections/" ++ section ++ "/pages", "GET", JNull)
    | None => None
    end
  else if String.eqb tool "read_content" then
    match ToString (arg "pageId") with
    | Some page => Some ("/me/onenote/pages/" ++ page ++ "/content", "GET", JNull)
    | None => None
    end
  else if String.eqb tool "create_notebook" then
    Some ("/me/onenote/notebooks", "POST", JObject [("displayName", arg "displayName")])
  else if String.eqb tool "create_section" then
    match ToString (arg "notebookId") with
    | Some notebook =>
        Some ("/me/onenote/notebooks/" ++ notebook ++ "/sections", "POST",
              JObject [("displayName", arg "displayName")])
    | None => None
    end
  else None.

(** The request each of the seven tools sends once it holds [token]; there
    is none when a member that goes into the path or the page has no
    string conversion. *)
Definition toolFetch (token tool : string) (fields : list (string * JsValue))
  : option (string * RequestInit) :=
  match graphCall tool fields with
  | Some (endpoint, method, body) =>
      Some (GRAPH_ENDPOINT ++ endpoint, graphOptions token method body)
  | None =>
      if String.eqb tool "create_page" then
        match ToString (lookup_field "sectionId" fields),
              ToString (lookup_field "htmlContent" fields) with
        | Some section, Some html =>
            Some (GRAPH_ENDPOINT ++ "/me/onenote/sections/" ++ section ++ "/pages",
                  createPageOptions token html)
        | _, _ => None
        end
      else None
  end.

(** What the create_page case makes of the answer to its request. *)
Definition createPageResult (f : Res Response) : Res CallToolResult :=
  match f with
  | Ok response =>
      if negb (ok response) then
        Throw (new_Error ("Failed to create page: " ++ statusText response))
      else match JSON_parse (body_text response) with
           | Ok result => Ok (textResult (JSON_stringify_pretty result))
           | Throw e => Throw e
           end
  | Throw e => Throw e
  end.

Definition toolErrorLog (e : JsError) : Entry Ev :=
  entry (ConsoleError [LText "Error executing tool:"; LError e]) tt.

(** A save that never writes onto the store artifact itself. *)
Definition writesElsewhere (store : string) (tr : list (Entry Ev)) : Prop :=
  Forall (fun w => fst w <> store) (Observe.store_writes tr).

(** The account handed to silent renewal when the cache lists [accounts],
    read off a run of the silent branch. *)
Definition selectedAccount {S} (h : handler Ev S) (s : S) (accounts : list AccountInfo)
  : list AccountInfo :=
  map (fun c => fst (fst c)) (Observe.silent_calls (trace_of h (trySilent accounts) s)).
End Shapes.
End Behaviour.

(** ** The ListTools handler *)

Module Registry.

(** One entry of [inputSchema.properties]. *)
Record Property := {
  key : string;
  type : string;
  description : string
}.

Record InputSchema := {
  schema_type : string;          (* [inputSchema.type] *)
  properties : list Property;
  required : list string         (* empty when the schema has no [required] *)
}.

Record Tool := {
  name : string;
  summary : string;              (* the tool's [description] *)
  inputSchema : InputSchema
}.

Definition stringProperty (k about : string) : Property :=
  {| key := k; type := "string"; description := about |}.

Definition objectSchema (ps : list Property) (req : list string) : InputSchema :=
  {| schema_type := "object"; properties := ps; required := req |}.

(** The [tools] array the handler returns. *)
Definition tools : list Tool :=
  [ {| name := "list_notebooks";
       summary := "List all OneNote notebooks";
       inputSchema := objectSchema [] [] |};
    {| name := "list_sections";
       summary := "List sections in a notebook";
       inputSchema :=
         objectSchema [stringProperty "notebookId" "The ID of the notebook"]
                      ["notebookId"] |};
    {| name := "list_pages";
       summary := "List pages in a section";
       inputSchema :=
         objectSchema [stringProperty "sectionId" "The ID of the section"]
                      ["sectionId"] |};
    {| name := "read_content";
       summary := "Read the HTML content of a page";
       inputSchema :=
         objectSchema [stringProperty "pageId" "The ID of the page"]
                      ["pageId"] |};
    {| name := "create_notebook";
       summary := "Create a new OneNote notebook";
       inputSchema :=
         objectSchema [stringProperty "displayName" "Name of the new notebook"]
                      ["displayName"] |};
    {| name := "create_section";
       summary := "Create a new section in a notebook";
       inputSchema :=
         objectSchema [stringProperty "notebookId" "ID of the notebook";
                       stringProperty "displayName" "Name of the new section"]
                      ["notebookId"; "displayName"] |};
    {| name := "create_page";
       summary := "Create a new page in a section";
       inputSchema :=
         objectSchema [stringProperty "sectionId" "ID of the section";
                       stringProperty "htmlContent" "HTML content of the page"]
                      ["sectionId"; "htmlContent"] |} ].
End Registry.

(** ** More ways to read a run *)

Module Channels.
Import Server Msal.

(** Every call a program can make satisfies [Q] and every value it can
    end in satisfies [P], whatever the answers. *)
Inductive Always {E : Type -> Type} {R : Type}
    (P : R -> Prop) (Q : forall X, E X -> Prop) : Prog E R -> Prop :=
| Always_Ret (r : R) : P r -> Always P Q (Ret r)
| Always_Vis {X : Type} (e : E X) (k : X -> Prog E R) :
    Q X e -> (forall x, Always P Q (k x)) -> Always P Q (Vis e k).

Definition anything {A : Type} : A -> Prop := fun _ => True.

Section Readers.
Context `{Numbers}.

(** Calls on [fs] and on the token cache object. *)
Definition is_store {X} (e : Ev X) : bool :=
  match e with
  | FsExistsSync _ | FsReadFileSync _ | FsWriteFileSync _ _
  | TokenCacheDeserialize _ | TokenCacheSerialize => true
  | _ => false
  end.

(** Paths handed to [fs], by any of its three functions. *)
Definition store_paths : list (Entry Ev) -> list string :=
  Observe.collect (fun en => match en with
    | entry e _ => match e with
                   | FsExistsSync path | FsReadFileSync path
                   | FsWriteFileSync path _ => [path]
                   | _ => []
                   end
    end).

(** Calls of [fs.existsSync]: path, answer. *)
Definition store_probes : list (Entry Ev) -> list (string * bool) :=
  Observe.collect (fun en => match en with
    | entry e x => match e in Ev X return X -> list _ with
                   | FsExistsSync path => fun b => [(path, b)]
                   | _ => fun _ => []
                   end x
    end).

(** Calls of [fs.readFileSync]: path, answer. *)
Definition store_reads : list (Entry Ev) -> list (string * Res string) :=
  Observe.collect (fun en => match en with
    | entry e x => match e in Ev X return X -> list _ with
                   | FsReadFileSync path => fun r => [(path, r)]
                   | _ => fun _ => []
                   end x
    end).

(** Calls of [tokenCache.serialize]. *)
Definition serializations : list (Entry Ev) -> list string :=
  Observe.collect (fun en => match en with
    | entry e x => match e in Ev X return X -> list _ with
                   | TokenCacheSerialize => fun blob => [blob]
                   | _ => fun _ => []
                   end x
    end).

(** What went to [console.error]. *)
Definition console_lines : list (Entry Ev) -> list (list LogItem) :=
  Observe.collect (fun en => match en with
    | entry e _ => match e with
                   | ConsoleError items => [items]
                   | _ => []
                   end
    end).

(** The device code challenges among the arguments of one [console.error]. *)
Definition shown_challenges (items : list LogItem) : list DeviceCodeResponse :=
  flat_map (fun item => match item with
                        | LJsonDeviceCode response => [response]
                        | _ => []
                        end) items.

(** The device code challenges written to stderr. *)
Definition prompts : list (Entry Ev) -> list DeviceCodeResponse :=
  Observe.collect (fun en => match en with
    | entry e _ => match e with
                   | ConsoleError items => shown_challenges items
                   | _ => []
                   end
    end).

(** The challenges the library handed to [deviceCodeCallback]. *)
Definition challenges (cs : list Callback) : list DeviceCodeResponse :=
  flat_map (fun c => match c with
                     | CbDeviceCode response => [response]
                     | _ => []
                     end) cs.

(** Calls that neither touch the store nor show a challenge. *)
Definition is_ordinary {X} (e : Ev X) : bool :=
  negb (is_store e) &&
  match e with
  | ConsoleError items => match shown_challenges items with
                          | [] => true
                          | _ :: _ => false
                          end
  | _ => true
  end.

Definition ordinary : forall X, Ev X -> Prop := fun X e => is_ordinary e = true.

(** In a linked run, stderr shows the challenges the library handed over,
    each once and in order, and no other. *)
Definition promptsShown {I : Type -> Type} (tr : list (Entry (SysEv I))) : Prop :=
  prompts (Observe.src_entries tr) = challenges (Observe.entered tr).

(** Every [fs] call of server.js in a linked run is on [TOKEN_CACHE_PATH]. *)
Definition onlyTheStore `{Config} {I : Type -> Type} (tr : list (Entry (SysEv I))) : Prop :=
  Forall (fun path => path = TOKEN_CACHE_PATH) (store_paths (Observe.src_entries tr)).
End Readers.

Section Position.
Context `{Numbers} {I : Type -> Type}.

(** Whether a linked run is inside a call of a [pca] method after [tr],
    having been so or not before: the library is entered at its first own
    step or callback and left when its method answers. *)
Definition entersLibrary {X} (e : SysEv I X) (inside : bool) : bool :=
  match e with
  | Src _ => inside
  | Own _ => true
  | Mark (Enters _) => true
  | Mark (Returns _) => false
  end.

Fixpoint inLibrary (inside : bool) (tr : list (Entry (SysEv I))) : bool :=
  match tr with
  | [] => inside
  | entry e _ :: rest => inLibrary (entersLibrary e inside) rest
  end.

(** The calls of server.js in a linked run, each with whether it was made
    inside a call of a [pca] method, that is, by a callback. *)
Fixpoint placed (inside : bool) (tr : list (Entry (SysEv I))) : list (bool * Entry Ev) :=
  match tr with
  | [] => []
  | entry e x :: rest =>
      (match e in SysEv _ X return X -> list (bool * Entry Ev) with
       | Src e' => fun x' => [(inside, entry e' x')]
       | _ => fun _ => []
       end x ++ placed (entersLibrary e inside) rest)%list
  end.

(** The calls made by the callbacks, and those made by the code that
    called the library. *)
Definition callback_entries (tr : list (Entry (SysEv I))) : list (Entry Ev) :=
  map snd (List.filter fst (placed false tr)).
Definition body_entries (tr : list (Entry (SysEv I))) : list (Entry Ev) :=
  map snd (List.filter (fun c => negb (fst c)) (placed false tr)).
End Position.

Section Results.
Context `{Builtins}.

(** The lines [getAccessToken] owes to stderr for the answers the library
    gave: one per failed silent renewal, then one per device code flow that
    yielded no token. *)
Definition failureLines (tr : list (Entry Ev)) : list (list LogItem) :=
  (flat_map (fun c => match snd c with
                      | Throw e =>
                          [[LText "Silent token acquisition failed, falling back to device code.";
                            LError e]]
                      | Ok _ => []
                      end) (Observe.silent_calls tr) ++
   flat_map (fun c => match Behaviour.deviceOutcome (snd c) with
                      | Throw e => [[LText "Device code flow failed:"; LJsonError e]]
                      | Ok _ => []
                      end) (Observe.device_calls tr))%list.

(** What [deviceCodeCallback] writes for one challenge: its dump, then its
    message when it has one that is not empty. *)
Definition callbackLines (response : DeviceCodeResponse) : list (list LogItem) :=
  [LText "Device Code Response:"; LJsonDeviceCode response] ::
  match message response with
  | Some m => if String.eqb m "" then [] else [[LText m]]
  | None => []
  end.

(** The lines the callbacks owe to stderr for the challenges handed over. *)
Definition challengeLines {I : Type -> Type} (tr : list (Entry (SysEv I)))
  : list (list LogItem) :=
  flat_map callbackLines (challenges (Observe.entered tr)).

(** The lines a linked token request owes to stderr, event by event: those
    of the callback when the library hands over a challenge, the failure
    line when a [pca] method gives an answer that is a failed attempt. *)
Definition owedLines {I : Type -> Type} (tr : list (Entry (SysEv I)))
  : list (list LogItem) :=
  flat_map (fun en => match en with
    | entry e _ => match e with
                   | Mark (Enters (CbDeviceCode response)) => callbackLines response
                   | Mark (Returns answer) => failureLines [answer]
                   | _ => []
                   end
    end) tr.

(** Stderr accounted for by position, in a trace that starts outside the
    library: it ends outside, the callbacks wrote what they owe for the
    challenges and nothing else, and the code outside the callbacks showed
    no challenge. *)
Definition accounted {I : Type -> Type} (tr : list (Entry (SysEv I))) : Prop :=
  inLibrary false tr = false /\
  console_lines (callback_entries tr) = challengeLines tr /\
  prompts (body_entries tr) = [].

(** A tool result with exactly one content item, of type text. *)
Definition oneText (v : CallToolResult) : Prop :=
  exists t, content v = [{| type := "text"; text := t |}].

(** A result of the [try] block: one text item, not flagged as an error. *)
Definition plainResult (r : Res CallToolResult) : Prop :=
  forall v, r = Ok v -> isError v = false /\ oneText v.
End Results.
End Channels.

(** ** test.js: the handler of the server's stdout *)

Module TestClient.

(** What the client logs; the two template texts are kept as they are
    given, unrendered. *)
Inductive LogItem `{Numbers} :=
| TText (s : string)
| TValue (v : JsValue)
| TToolsListed (tools : JsValue).  (* `✅ Tools listed: ${tools.length} found.` *)

Inductive Ev `{Numbers} : Type -> Type :=
| ConsoleLog (items : list LogItem) : Ev unit
| StdinWrite (data : string) : Ev unit   (* serverProcess.stdin.write *)
| ProcessExit (code : Z) : Ev unit.      (* process.exit: nothing runs after it *)

(** Whether the process is still running after a step. *)
Inductive Outcome := Running | Exited.

Definition LF : ascii := ascii_of_nat 10.
Definition newline : string := String LF EmptyString.

(** [s.split("\n")]: the pieces between line feeds, one more than there
    are line feeds. *)
Fixpoint split (s : string) : list string :=
  match s with
  | EmptyString => [EmptyString]
  | String c rest =>
      if Ascii.eqb c LF then EmptyString :: split rest
      else match split rest with
           | piece :: others => String c piece :: others
           | [] => [String c EmptyString]
           end
  end.

(** [pieces.join("\n")]. *)
Fixpoint join (pieces : list string) : string :=
  match pieces with
  | [] => EmptyString
  | piece :: rest =>
      match rest with
      | [] => piece
      | _ :: _ => piece ++ newline ++ join rest
      end
  end.

Section Client.
Context `{Builtins}.
(** [!line.trim()]. *)
Variable blank : string -> bool.

Definition listToolsRequest : JsValue :=
  JObject [("jsonrpc", JString "2.0");
           ("id", JNumber (number_of_Z 2));
           ("method", JString "tools/list")].

(** [JSON.stringify(v) + "\n"]. *)
Definition jsonLine (v : JsValue) : string :=
  match JSON_stringify v with
  | Some t => t
  | None => "undefined"
  end ++ newline.

(** [message.result && message.result.k]. *)
Definition resultHas (result : JsValue) (k : string) : option JsValue :=
  if truthy result then
    match get_prop result k with
    | Some v => if truthy v then Some v else None
    | None => None
    end
  else None.

(** The body of the [try] for one line; its [catch] ignores the error. *)
Definition onMessage (line : string) : Prog Ev Outcome :=
  match JSON_parse line with
  | Throw _ => Ret Running
  | Ok message =>
      bind (call (ConsoleLog [TText "Received message:"; TValue message])) (fun _ =>
      match get_prop message "result" with
      | None => Ret Running
      | Some result =>
          match resultHas result "capabilities" with
          | Some _ =>
              bind (call (ConsoleLog [TText "✅ Initialization successful!"])) (fun _ =>
              bind (call (StdinWrite (jsonLine listToolsRequest))) (fun _ =>
              Ret Running))
          | None =>
              match resultHas result "tools" with
              | Some tools =>
                  bind (call (ConsoleLog [TToolsListed tools])) (fun _ =>
                  bind (call (ConsoleLog [TText "Test passed. Exiting."])) (fun _ =>
                  bind (call (ProcessExit 0)) (fun _ =>
                  Ret Exited)))
              | None => Ret Running
              end
          end
      end)
  end.

(** [for (const line of lines)]. *)
Fixpoint processLines (lines : list string) : Prog Ev Outcome :=
  match lines with
  | [] => Ret Running
  | line :: rest =>
      if blank line then processLines rest
      else bind (onMessage line) (fun o =>
             match o with
             | Running => processLines rest
             | Exited => Ret Exited
             end)
  end.

(** The [data] handler, from the [buffer] left by the chunks before:
    [Some] of the new buffer, or [None] once [process.exit] has been
    called. *)
Definition onData (buffer chunk : string) : Prog Ev (option string) :=
  let parts := split (buffer ++ chunk) in
  let buffer' := List.last parts EmptyString in
  let lines := List.removelast parts in
  bind (processLines lines) (fun o =>
    match o with
    | Running => Ret (Some buffer')
    | Exited => Ret None
    end).

(** The handler over the chunks of a stream, in order; no chunk is handled
    once the process has exited. *)
Fixpoint session (buffer : string) (chunks : list string) : Prog Ev (option string) :=
  match chunks with
  | [] => Ret (Some buffer)
  | chunk :: rest =>
      bind (onData buffer chunk) (fun r =>
        match r with
        | Some buffer' => session buffer' rest
        | None => Ret None
        end)
  end.

(** Whether a line gets past [!line.trim()] and [JSON.parse]. *)
Definition heeded (line : string) : bool :=
  negb (blank line) && match JSON_parse line with
                       | Ok _ => true
                       | Throw _ => false
                       end.
End Client.
End TestClient.

(** ** More of the sample world *)

Module Scenes.
Import Server Sample.

(** The Graph API lists one notebook. *)
Definition notebooksAnswer : Response :=
  respond 200 "OK" [("content-type", "application/json; odata.metadata=minimal")]
    (default "" (render notebooks_body)).
Definition served : World := set_network [Ok notebooksAnswer] warm.

(** The Graph API returns a page as HTML. *)
Definition pageText : string := "<html><head><title>Notes</title></head><body><p>Hi</p></body></html>".
Definition pageAnswer : Response := respond 200 "OK" [("content-type", "text/html")] pageText.
Definition paged : World := set_network [Ok pageAnswer] warm.

Definition readContent : CallToolRequest :=
  {| name := "read_content"; arguments := Some [("pageId", JString "p-1")] |}.
(** list_sections called without an arguments object. *)
Definition listSectionsNoArguments : CallToolRequest :=
  {| name := "list_sections"; arguments := None |}.

(** The advertised list_sections tool. *)
Definition listSectionsTool : Registry.Tool :=
  {| Registry.name := "list_sections";
     Registry.summary := "List sections in a notebook";
     Registry.inputSchema :=
       Registry.objectSchema [Registry.stringProperty "notebookId" "The ID of the notebook"]
                             ["notebookId"] |}.
End Scenes.

(** * Facts about runs *)

Module RunFacts.
Section Runs.
Context {E : Type -> Type} {S : Type} (h : handler E S).

Lemma run_bind {A B} (p : Prog E A) (f : A -> Prog E B) (s : S) :
  run h (bind p f) s =
  let '(a, s1, t1) := run h p s in
  let '(b, s2, t2) := run h (f a) s1 in
  (b, s2, (t1 ++ t2)%list).
Proof.
  revert s. induction p as [a | X e k IH]; intros s; simpl.
  - destruct (run h (f a) s) as [[b s2] t2]. reflexivity.
  - destruct (h X e s) as [x s1]. rewrite IH.
    destruct (run h (k x) s1) as [[a s2] t1].
    destruct (run h (f a) s2) as [[b s3] t2]. reflexivity.
Qed.

Lemma trace_of_Ret {R} (r : R) s : trace_of h (Ret r) s = [].
Proof. reflexivity. Qed.

Lemma result_of_Ret {R} (r : R) s : result_of h (Ret r) s = r.
Proof. reflexivity. Qed.

Lemma state_of_Ret {R} (r : R) s : state_of h (Ret r) s = s.
Proof. reflexivity. Qed.

Lemma trace_of_Vis {R X} (e : E X) (k : X -> Prog E R) s :
  trace_of h (Vis e k) s =
  entry e (fst (h X e s)) :: trace_of h (k (fst (h X e s))) (snd (h X e s)).
Proof.
  unfold trace_of. simpl. destruct (h X e s) as [x s1]. simpl.
  destruct (run h (k x) s1) as [[r s2] tr]. reflexivity.
Qed.

Lemma result_of_Vis {R X} (e : E X) (k : X -> Prog E R) s :
  result_of h (Vis e k) s = result_of h (k (fst (h X e s))) (snd (h X e s)).
Proof.
  unfold result_of. simpl. destruct (h X e s) as [x s1]. simpl.
  destruct (run h (k x) s1) as [[r s2] tr]. reflexivity.
Qed.

Lemma state_of_Vis {R X} (e : E X) (k : X -> Prog E R) s :
  state_of h (Vis e k) s = state_of h (k (fst (h X e s))) (snd (h X e s)).
Proof.
  unfold state_of. simpl. destruct (h X e s) as [x s1]. simpl.
  destruct (run h (k x) s1) as [[r s2] tr]. reflexivity.
Qed.

Lemma trace_of_bind {A B} (p : Prog E A) (f : A -> Prog E B) s :
  trace_of h (bind p f) s =
  (trace_of h p s ++ trace_of h (f (result_of h p s)) (state_of h p s))%list.
Proof.
  unfold trace_of, result_of, state_of. rewrite run_bind.
  destruct (run h p s) as [[a s1] t1]. simpl.
  destruct (run h (f a) s1) as [[b s2] t2]. reflexivity.
Qed.

Lemma result_of_bind {A B} (p : Prog E A) (f : A -> Prog E B) s :
  result_of h (bind p f) s = result_of h (f (result_of h p s)) (state_of h p s).
Proof.
  unfold result_of, state_of. rewrite run_bind.
  destruct (run h p s) as [[a s1] t1]. simpl.
  destruct (run h (f a) s1) as [[b s2] t2]. reflexivity.
Qed.

Lemma state_of_bind {A B} (p : Prog E A) (f : A -> Prog E B) s :
  state_of h (bind p f) s = state_of h (f (result_of h p s)) (state_of h p s).
Proof.
  unfold result_of, state_of. rewrite run_bind.
  destruct (run h p s) as [[a s1] t1]. simpl.
  destruct (run h (f a) s1) as [[b s2] t2]. reflexivity.
Qed.

Lemma trace_of_abind {A B} (p : Async E A) (f : A -> Async E B) s :
  trace_of h (abind p f) s =
  (trace_of h p s ++
   match result_of h p s with
   | Ok a => trace_of h (f a) (state_of h p s)
   | Throw _ => []
   end)%list.
Proof.
  unfold abind. rewrite trace_of_bind. destruct (result_of h p s); reflexivity.
Qed.

Lemma result_of_abind {A B} (p : Async E A) (f : A -> Async E B) s :
  result_of h (abind p f) s =
  match result_of h p s with
  | Ok a => result_of h (f a) (state_of h p s)
  | Throw e => Throw e
  end.
Proof.
  unfold abind. rewrite result_of_bind. destruct (result_of h p s); reflexivity.
Qed.

Lemma trace_of_try_catch {A} (p : Async E A) (c : JsError -> Async E A) s :
  trace_of h (try_catch p c) s =
  (trace_of h p s ++
   match result_of h p s with
   | Ok _ => []
   | Throw e => trace_of h (c e) (state_of h p s)
   end)%list.
Proof.
  unfold try_catch. rewrite trace_of_bind. destruct (result_of h p s); reflexivity.
Qed.

Lemma result_of_try_catch {A} (p : Async E A) (c : JsError -> Async E A) s :
  result_of h (try_catch p c) s =
  match result_of h p s with
  | Ok a => Ok a
  | Throw e => result_of h (c e) (state_of h p s)
  end.
Proof.
  unfold try_catch. rewrite result_of_bind. destruct (result_of h p s); reflexivity.
Qed.
End Runs.

Lemma collect_app {F : Type -> Type} {A} (f : Entry F -> list A) (t1 t2 : list (Entry F)) :
  Observe.collect f (t1 ++ t2) = (Observe.collect f t1 ++ Observe.collect f t2)%list.
Proof. unfold Observe.collect. apply flat_map_app. Qed.

Lemma append_empty_r (t : string) : t ++ "" = t.
Proof.
  induction t as [| c t IH]; [reflexivity |].
  change (String c (t ++ "") = String c t). f_equal. exact IH.
Qed.
End RunFacts.

Arguments trace_of : simpl never.
Arguments result_of : simpl never.
Arguments state_of : simpl never.
Arguments Server.getAccessToken : simpl never.
Arguments Server.graphReturn : simpl never.
Arguments Server.graphRequest : simpl never.
Arguments Server.dispatch : simpl never.

(** Symbolic execution: expose the next call, then name its answer. *)
Ltac exec :=
  repeat (cbn; unfold ret, throw, await, perform, call;
          rewrite ?RunFacts.trace_of_Vis, ?RunFacts.result_of_Vis, ?RunFacts.state_of_Vis,
                  ?RunFacts.trace_of_Ret, ?RunFacts.result_of_Ret, ?RunFacts.state_of_Ret).

Ltac ask h :=
  match goal with
  | |- context [h ?X ?e ?s] =>
      let x := fresh "x" in
      let s' := fresh "s" in
      destruct (h X e s) as [x s']; cbn [fst snd]
  end.

(** * Facts about server.js *)

Module ServerFacts.
Import Server Msal Observe Behaviour RunFacts.

Section Provider.
Context `{Builtins} `{Config}.

Lemma getAccessToken_runs {S} (h : handler Ev S) (s : S) :
  TokenRun (trace_of h getAccessToken s) (result_of h getAccessToken s).
Proof.
  unfold getAccessToken. exec. ask h.
  destruct x as [accounts | e]; exec; [| constructor].
  destruct accounts as [| a rest]; exec.
  - ask h. destruct x as [[r |] | e]; exec.
    + apply (TokenDeviceDirect (Ok (Some r))).
    + ask h. destruct x. apply (TokenDeviceDirect (Ok None)).
    + ask h. destruct x. apply (TokenDeviceDirect (Throw e)).
  - ask h. destruct x as [res | e]; exec; [constructor |].
    ask h. destruct x. exec. ask h. destruct x as [[r |] | e']; exec.
    + apply (TokenDeviceFallback a rest e (Ok (Some r))).
    + ask h. destruct x. apply (TokenDeviceFallback a rest e (Ok None)).
    + ask h. destruct x. apply (TokenDeviceFallback a rest e (Throw e')).
Qed.

Lemma deviceTrace_calls d :
  device_calls (deviceTrace d) = [(SCOPES, d)] /\
  silent_calls (deviceTrace d) = [] /\
  account_queries (deviceTrace d) = [] /\
  fetch_calls (deviceTrace d) = [] /\
  timeouts (deviceTrace d) = [] /\
  store_calls (deviceTrace d) = [].
Proof. destruct d as [[r |] | e]; repeat split; reflexivity. Qed.

Lemma TokenRun_quiet tr r :
  TokenRun tr r ->
  fetch_calls tr = [] /\ timeouts tr = [] /\ store_calls tr = [].
Proof.
  intros Hr. destruct Hr as [e | a rest res | d | a rest e d];
    try (repeat split; reflexivity);
    destruct (deviceTrace_calls d) as (_ & _ & _ & Hf & Ht & Hs);
    repeat split; cbn; assumption.
Qed.

Lemma token_trace_quiet {S} (h : handler Ev S) (s : S) :
  fetch_calls (trace_of h getAccessToken s) = [] /\
  timeouts (trace_of h getAccessToken s) = [] /\
  store_calls (trace_of h getAccessToken s) = [].
Proof. apply (TokenRun_quiet _ _ (getAccessToken_runs h s)). Qed.

Lemma graphReturn_run {S} (h : handler Ev S) (s : S) response :
  trace_of h (graphReturn response) s = [] /\
  result_of h (graphReturn response) s = graphResult response.
Proof.
  unfold graphReturn, graphResult, response_json, response_text.
  destruct (negb (ok response)); [split; reflexivity |].
  destruct (headers_get response "content-type") as [ct |]; [| split; reflexivity].
  destruct (negb (ct =? "")%string && includes "application/json" ct);
    split; reflexivity.
Qed.

Lemma graphRequest_without_token {S} (h : handler Ev S) (s : S) endpoint method body e :
  result_of h getAccessToken s = Throw e ->
  result_of h (graphRequest endpoint method body) s = Throw e /\
  trace_of h (graphRequest endpoint method body) s = trace_of h getAccessToken s.
Proof.
  intros He. unfold graphRequest. rewrite result_of_abind, trace_of_abind, He.
  split; [reflexivity | apply app_nil_r].
Qed.

Lemma graphRequest_after_token {S} (h : handler Ev S) (s : S) endpoint method body token :
  result_of h getAccessToken s = Ok token ->
  exists tr2 f,
    FetchRun (GRAPH_ENDPOINT ++ endpoint) (graphOptions token method body) tr2 f /\
    trace_of h (graphRequest endpoint method body) s
      = (trace_of h getAccessToken s ++ tr2)%list /\
    result_of h (graphRequest endpoint method body) s
      = match f with
        | Ok response => graphResult response
        | Throw e => Throw e
        end.
Proof.
  intros Htok. unfold graphRequest. rewrite trace_of_abind, result_of_abind, Htok.
  generalize (state_of h getAccessToken s). intros s1.
  set (url := GRAPH_ENDPOINT ++ endpoint).
  set (options := graphOptions token method body).
  exec. ask h. destruct x as [r1 | e]; exec.
  2:{ exists [entry (Fetch url options) (Throw e)], (Throw e).
      split; [constructor | split; reflexivity]. }
  destruct (status r1 =? 429) eqn:Hs; exec.
  - apply Z.eqb_eq in Hs.
    ask h. destruct x. ask h. destruct x.
    ask h. destruct x as [r2 | e2]; exec.
    + destruct (graphReturn_run h s4 r2) as [-> ->].
      eexists _, (Ok r2).
      split; [apply (FetchRetried url options r1 (Ok r2) Hs) | split; reflexivity].
    + eexists _, (Throw e2).
      split; [apply (FetchRetried url options r1 (Throw e2) Hs) | split; reflexivity].
  - apply Z.eqb_neq in Hs.
    destruct (graphReturn_run h s0 r1) as [-> ->].
    exists [entry (Fetch url options) (Ok r1)], (Ok r1).
    split; [constructor; exact Hs | split; reflexivity].
Qed.

Lemma graphRequest_runs {S} (h : handler Ev S) (s : S) endpoint method body :
  GraphRun endpoint method body
    (trace_of h (graphRequest endpoint method body) s)
    (result_of h (graphRequest endpoint method body) s).
Proof.
  pose proof (getAccessToken_runs h s) as Ht.
  destruct (result_of h getAccessToken s) as [token | e] eqn:Hr.
  - destruct (graphRequest_after_token h s endpoint method body token Hr)
      as (tr2 & f & Hf & -> & ->).
    apply GraphSent with (token := token); assumption.
  - destruct (graphRequest_without_token h s endpoint method body e Hr) as [-> ->].
    apply GraphNoToken. exact Ht.
Qed.

Lemma message_needs_object (err m : JsValue) :
  get_prop err "message" = Some m -> truthy m = true -> truthy err = true.
Proof.
  destruct err; cbn; intros Hm Ht; try discriminate; try reflexivity;
    injection Hm as <-; discriminate.
Qed.

(** The message of a failed response is the status line, followed by the
    server's message when the body carries one that converts to text, by
    the body itself when it carries one that does not. *)
Lemma graphErrorMessage_carries response :
  let statusLine :=
    "Graph API Error: " ++ number_to_string (number_of_Z (status response))
      ++ " " ++ statusText response in
  (exists detail, graphErrorMessage response = statusLine ++ detail) /\
  forall j err m,
    JSON_parse (body_text response) = Ok j ->
    get_prop j "error" = Some err ->
    get_prop err "message" = Some m ->
    truthy m = true ->
    graphErrorMessage response =
      statusLine ++ " - " ++ match ToString m with
                             | Some text => text
                             | None => body_text response
                             end.
Proof.
  intros statusLine. unfold graphErrorMessage. fold statusLine. split.
  - destruct (JSON_parse (body_text response)) as [j | e]; [| eexists; reflexivity].
    destruct (get_prop j "error") as [err |]; [| eexists; reflexivity].
    destruct (truthy err); [| exists ""; symmetry; apply append_empty_r].
    destruct (get_prop err "message") as [m |]; [| eexists; reflexivity].
    destruct (truthy m); [| exists ""; symmetry; apply append_empty_r].
    destruct (ToString m); eexists; reflexivity.
  - intros j err m -> -> Hm Ht.
    rewrite (message_needs_object err m Hm Ht), Hm, Ht.
    destruct (ToString m); reflexivity.
Qed.

Lemma throttleDelay_value (r : Response) :
  throttleDelay r =
  number_mul
    match headers_get r "Retry-After" with
    | Some t => if String.eqb t "" then number_of_Z 1 else StringToNumber t
    | None => number_of_Z 1
    end
    (number_of_Z 1000).
Proof.
  unfold throttleDelay, retryAfterOf.
  destruct (headers_get r "Retry-After") as [t |]; [| reflexivity].
  destruct (String.eqb t ""); reflexivity.
Qed.

Lemma graphRequest_throttled {S} (h : handler Ev S) (s : S)
    (endpoint method : string) (body : JsValue)
    (url : string) (options : RequestInit) (r1 : Response)
    (rest : list (string * RequestInit * Res Response)) :
  fetch_calls (trace_of h (graphRequest endpoint method body) s)
    = (url, options, Ok r1) :: rest ->
  status r1 = 429 ->
  exists (f2 : Res Response) (before : list (Entry Ev)),
    trace_of h (graphRequest endpoint method body) s =
      (before ++
       [entry (Fetch url options) (Ok r1);
        throttleLog r1;
        entry (SetTimeout (throttleDelay r1)) tt;
        entry (Fetch url options) f2])%list /\
    fetch_calls before = [] /\ timeouts before = [] /\
    rest = [(url, options, f2)] /\
    result_of h (graphRequest endpoint method body) s =
      match f2 with
      | Ok r2 => graphResult r2
      | Throw e => Throw e
      end.
Proof.
  intros Hf Hs. pose proof (graphRequest_runs h s endpoint method body) as Hg.
  destruct Hg as [tr e Ht | tr1 tr2 token f Ht Hfetch].
  { destruct (TokenRun_quiet _ _ Ht) as (Hq & _). rewrite Hq in Hf. discriminate Hf. }
  destruct (TokenRun_quiet _ _ Ht) as (Hq & Hq' & _).
  unfold fetch_calls in Hf. rewrite collect_app in Hf. fold fetch_calls in Hf.
  rewrite Hq in Hf. cbn [app] in Hf.
  destruct Hfetch as [e | r Hr | r f2 Hr]; cbn in Hf.
  - discriminate Hf.
  - injection Hf as _ _ -> _. contradiction.
  - injection Hf as <- <- -> <-.
    exists f2, tr1. split; [reflexivity |]. split; [exact Hq |]. split; [exact Hq' |].
    split; reflexivity.
Qed.

(** *** The dispatcher *)
Lemma callTool_run {S} (h : handler Ev S) (s : S) (request : CallToolRequest) :
  trace_of h (callTool request) s =
    (trace_of h (dispatch request) s ++
     match result_of h (dispatch request) s with
     | Ok _ => []
     | Throw e => [toolErrorLog e]
     end)%list /\
  result_of h (callTool request) s =
    Ok match result_of h (dispatch request) s with
       | Ok r => r
       | Throw e => errorResult e
       end.
Proof.
  unfold callTool. rewrite trace_of_try_catch, result_of_try_catch.
  destruct (result_of h (dispatch request) s) as [r | e]; [split; reflexivity |].
  exec. ask h. destruct x. split; reflexivity.
Qed.

Lemma valueOf_run {S} (h : handler Ev S) (s : S) (v : JsValue) :
  trace_of h (valueOf v) s = [] /\ state_of h (valueOf v) s = s.
Proof. unfold valueOf. destruct (get_prop v "value"); split; reflexivity. Qed.

Ltac after_graph h :=
  rewrite trace_of_abind, result_of_abind;
  let v := fresh "v" in
  let e := fresh "e" in
  match goal with
  | |- context [result_of h (graphRequest ?ep ?m ?b) ?s] =>
      destruct (result_of h (graphRequest ep m b) s) as [v | e];
      [ split; [| intros ? [=]];
        try (rewrite trace_of_abind;
             destruct (valueOf_run h (state_of h (graphRequest ep m b) s) v) as [-> _];
             destruct (result_of h (valueOf v) (state_of h (graphRequest ep m b) s)));
        exec; rewrite ?app_nil_r; reflexivity
      | split; [apply app_nil_r | intros ? [= <-]; reflexivity] ]
  end.

(** Brings the conversion behind a defined [graphCall] into the goal. *)
Ltac converted Hcall :=
  match type of Hcall with
  | context [ToString ?v] =>
      let text := fresh "text" in
      let E := fresh "E" in
      destruct (ToString v) as [text |] eqn:E; [| discriminate Hcall];
      unfold interpolate; cbn; rewrite E
  end.

Lemma dispatch_graph {S} (h : handler Ev S) (s : S) (request : CallToolRequest)
    (fields : list (string * JsValue)) (endpoint method : string) (body : JsValue) :
  graphCall (name request) fields = Some (endpoint, method, body) ->
  arguments request = Some fields \/ name request = "list_notebooks" ->
  trace_of h (dispatch request) s = trace_of h (graphRequest endpoint method body) s /\
  forall e, result_of h (graphRequest endpoint method body) s = Throw e ->
            result_of h (dispatch request) s = Throw e.
Proof.
  unfold graphCall, dispatch, destructure. intros Hcall Hargs.
  destruct (String.eqb (name request) "list_notebooks") eqn:E1.
  { injection Hcall as <- <- <-. after_graph h. }
  destruct Hargs as [Hargs | Hn]; [| rewrite Hn in E1; discriminate E1].
  rewrite Hargs.
  destruct (String.eqb (name request) "list_sections") eqn:E2.
  { converted Hcall. injection Hcall as <- <- <-. cbn. after_graph h. }
  destruct (String.eqb (name request) "list_pages") eqn:E3.
  { converted Hcall. injection Hcall as <- <- <-. cbn. after_graph h. }
  destruct (String.eqb (name request) "read_content") eqn:E4.
  { converted Hcall. injection Hcall as <- <- <-. cbn. after_graph h. }
  destruct (String.eqb (name request) "create_notebook") eqn:E5.
  { injection Hcall as <- <- <-. cbn. after_graph h. }
  destruct (String.eqb (name request) "create_section") eqn:E6.
  { converted Hcall. injection Hcall as <- <- <-. cbn. after_graph h. }
  discriminate Hcall.
Qed.

(** A path argument without a string conversion stops the call before
    anything is done. *)
Lemma dispatch_unconvertible {S} (h : handler Ev S) (s : S) (request : CallToolRequest)
    (fields : list (string * JsValue)) :
  In (name request) toolNames ->
  name request <> "create_page" ->
  arguments request = Some fields ->
  graphCall (name request) fields = None ->
  trace_of h (dispatch request) s = [] /\
  result_of h (dispatch request) s = Throw (new_TypeError "toString").
Proof.
  intros Hin Hn Ha Hc. destruct request as [n args]. cbn in Hin, Hn, Ha, Hc |- *. subst args.
  destruct Hin as [<- | [<- | [<- | [<- | [<- | [<- | [<- | []]]]]]]];
    try (exfalso; apply Hn; reflexivity);
    unfold graphCall in Hc; cbn in Hc; try discriminate Hc;
    match type of Hc with
    | context [ToString ?v] =>
        destruct (ToString v) eqn:E; [discriminate Hc |];
        unfold dispatch, destructure, interpolate; cbn; rewrite E; split; reflexivity
    end.
Qed.

Lemma dispatch_create_page {S} (h : handler Ev S) (s : S) (request : CallToolRequest)
    (fields : list (string * JsValue)) :
  name request = "create_page" ->
  arguments request = Some fields ->
  match result_of h getAccessToken s with
  | Throw e =>
      trace_of h (dispatch request) s = trace_of h getAccessToken s /\
      result_of h (dispatch request) s = Throw e
  | Ok token =>
      match ToString (lookup_field "sectionId" fields),
            ToString (lookup_field "htmlContent" fields) with
      | Some section, Some html =>
          exists f,
            trace_of h (dispatch request) s =
              (trace_of h getAccessToken s ++
               [entry (Fetch (GRAPH_ENDPOINT ++ "/me/onenote/sections/" ++ section ++ "/pages")
                             (createPageOptions token html)) f])%list /\
            result_of h (dispatch request) s = createPageResult f
      | _, _ =>
          trace_of h (dispatch request) s = trace_of h getAccessToken s /\
          result_of h (dispatch request) s = Throw (new_TypeError "toString")
      end
  end.
Proof.
  destruct request as [n args]. cbn. intros -> ->.
  unfold dispatch, destructure. cbn.
  rewrite trace_of_abind, result_of_abind.
  destruct (result_of h getAccessToken s) as [token | e].
  2:{ split; [apply app_nil_r | reflexivity]. }
  generalize (state_of h getAccessToken s). intros s1.
  unfold interpolate.
  destruct (ToString (lookup_field "sectionId" fields)) as [section |];
    [| exec; split; [apply app_nil_r | reflexivity]].
  destruct (ToString (lookup_field "htmlContent" fields)) as [html |];
    [| exec; split; [apply app_nil_r | reflexivity]].
  exec. ask h. exists x. destruct x as [r | e]; exec; [| split; reflexivity].
  unfold createPageResult, response_json.
  destruct (negb (ok r)); exec; [split; reflexivity |].
  destruct (JSON_parse (body_text r)); split; reflexivity.
Qed.

Lemma dispatch_unknown {S} (h : handler Ev S) (s : S) (request : CallToolRequest) :
  ~ In (name request) toolNames ->
  trace_of h (dispatch request) s = [] /\
  result_of h (dispatch request) s =
    Throw (new_McpError ErrorCode_MethodNotFound ("Unknown tool: " ++ name request)).
Proof.
  intros Hn. unfold dispatch.
  repeat match goal with
  | |- context [String.eqb (name request) ?t] =>
      let E := fresh "E" in
      destruct (String.eqb (name request) t) eqn:E;
      [ exfalso; apply Hn; apply String.eqb_eq in E; rewrite E; cbn; tauto |]
  end.
  split; reflexivity.
Qed.

Lemma dispatch_without_arguments {S} (h : handler Ev S) (s : S) (request : CallToolRequest) :
  arguments request = None ->
  name request <> "list_notebooks" ->
  trace_of h (dispatch request) s = [] /\
  exists e, result_of h (dispatch request) s = Throw e.
Proof.
  intros Ha Hn. unfold dispatch, destructure. rewrite Ha.
  destruct (String.eqb (name request) "list_notebooks") eqn:E0;
    [apply String.eqb_eq in E0; contradiction |].
  repeat match goal with
  | |- context [if String.eqb (name request) ?t then _ else _] =>
      destruct (String.eqb (name request) t);
      [ exec; split; [reflexivity | eexists; reflexivity] |]
  end.
  exec. split; [reflexivity | eexists; reflexivity].
Qed.

Lemma callTool_calls {S} (h : handler Ev S) (s : S) (request : CallToolRequest) :
  fetch_calls (trace_of h (callTool request) s) = fetch_calls (trace_of h (dispatch request) s) /\
  timeouts (trace_of h (callTool request) s) = timeouts (trace_of h (dispatch request) s) /\
  account_queries (trace_of h (callTool request) s)
    = account_queries (trace_of h (dispatch request) s).
Proof.
  destruct (callTool_run h s request) as [-> _].
  unfold fetch_calls, timeouts, account_queries. rewrite !collect_app.
  destruct (result_of h (dispatch request) s); cbn; rewrite !app_nil_r; repeat split.
Qed.

(** Every tool but create_page either stops before any call is made or
    is served by one [graphRequest]. *)
Lemma dispatch_served {S} (h : handler Ev S) (s : S) (request : CallToolRequest) :
  In (name request) toolNames ->
  name request <> "create_page" ->
  (trace_of h (dispatch request) s = [] /\
   exists e, result_of h (dispatch request) s = Throw e) \/
  (exists fields endpoint method body,
     graphCall (name request) fields = Some (endpoint, method, body) /\
     (arguments request = Some fields \/ name request = "list_notebooks") /\
     trace_of h (dispatch request) s = trace_of h (graphRequest endpoint method body) s /\
     forall e, result_of h (graphRequest endpoint method body) s = Throw e ->
               result_of h (dispatch request) s = Throw e).
Proof.
  intros Hin Hn. destruct (arguments request) as [fields |] eqn:Ha.
  - destruct (graphCall (name request) fields) as [[[ep m] b] |] eqn:Hc.
    + right. exists fields, ep, m, b. split; [exact Hc |]. split; [left; reflexivity |].
      apply (dispatch_graph h s request fields ep m b Hc). left. exact Ha.
    + left. destruct (dispatch_unconvertible h s request fields Hin Hn Ha Hc) as [-> ->].
      split; [reflexivity | eexists; reflexivity].
  - destruct (string_dec (name request) "list_notebooks") as [E | E].
    + right. exists [], "/me/onenote/notebooks", "GET", JNull.
      assert (Hc : graphCall (name request) [] = Some ("/me/onenote/notebooks", "GET", JNull))
        by (rewrite E; reflexivity).
      split; [exact Hc |]. split; [right; exact E |].
      apply (dispatch_graph h s request [] _ _ _ Hc). right. exact E.
    + left. apply dispatch_without_arguments; assumption.
Qed.

Lemma dispatch_through_graph {S} (h : handler Ev S) (s : S) (request : CallToolRequest) :
  In (name request) toolNames ->
  name request <> "create_page" ->
  fetch_calls (trace_of h (dispatch request) s) = [] \/
  exists endpoint method body,
    trace_of h (dispatch request) s = trace_of h (graphRequest endpoint method body) s.
Proof.
  intros Hin Hn.
  destruct (dispatch_served h s request Hin Hn)
    as [[-> _] | (fields & ep & m & b & _ & _ & Htr & _)];
    [left; reflexivity | right; exists ep, m, b; exact Htr].
Qed.

Lemma lookup_field_missing (k : string) (fields : list (string * JsValue)) :
  ~ In k (map fst fields) -> lookup_field k fields = JUndefined.
Proof.
  induction fields as [| [k' v] fields IH]; intros Hk; [reflexivity |].
  cbn in Hk |- *. destruct (String.eqb k k') eqn:E.
  - apply String.eqb_eq in E. exfalso. apply Hk. left. symmetry. exact E.
  - apply IH. intros Hin. apply Hk. right. exact Hin.
Qed.

(** A tool call either is rejected before any call is made, or starts by
    requesting a token, and makes no other cache query. *)
Lemma dispatch_token_first {S} (h : handler Ev S) (s : S) (request : CallToolRequest) :
  (trace_of h (dispatch request) s = [] /\
   exists e, result_of h (dispatch request) s = Throw e) \/
  (exists rest,
     trace_of h (dispatch request) s = (trace_of h getAccessToken s ++ rest)%list /\
     account_queries rest = [] /\
     forall e, result_of h getAccessToken s = Throw e ->
               rest = [] /\ result_of h (dispatch request) s = Throw e).
Proof.
  destruct (in_dec string_dec (name request) toolNames) as [Hin | Hout].
  2:{ left. destruct (dispatch_unknown h s request Hout) as [-> ->].
      split; [reflexivity | eexists; reflexivity]. }
  destruct (string_dec (name request) "create_page") as [Hn | Hn].
  - destruct (arguments request) as [fields |] eqn:Ha.
    + right. pose proof (dispatch_create_page h s request fields Hn Ha) as Hd.
      destruct (result_of h getAccessToken s) as [token | e].
      * destruct (ToString (lookup_field "sectionId" fields)) as [section |];
          [destruct (ToString (lookup_field "htmlContent" fields)) as [html |] |].
        -- destruct Hd as (f & -> & _). eexists. split; [reflexivity |].
           split; [reflexivity | intros; discriminate].
        -- destruct Hd as [-> _]. exists []. rewrite app_nil_r.
           split; [reflexivity |]. split; [reflexivity | intros; discriminate].
        -- destruct Hd as [-> _]. exists []. rewrite app_nil_r.
           split; [reflexivity |]. split; [reflexivity | intros; discriminate].
      * destruct Hd as [-> ->]. exists []. rewrite app_nil_r.
        split; [reflexivity |]. split; [reflexivity |]. intros e' [= <-]. split; reflexivity.
    + left. apply dispatch_without_arguments; [exact Ha |]. rewrite Hn. discriminate.
  - destruct (dispatch_served h s request Hin Hn)
      as [Hstop | (fields & ep & m & b & _ & _ & -> & Hthrow)]; [left; exact Hstop |].
    right. destruct (result_of h getAccessToken s) as [token | e] eqn:Htok.
    + destruct (graphRequest_after_token h s ep m b token Htok) as (tr2 & f & Hf & -> & _).
      exists tr2. split; [reflexivity |].
      split; [destruct Hf; reflexivity | intros; discriminate].
    + destruct (graphRequest_without_token h s ep m b e Htok) as [Hr ->].
      exists []. rewrite app_nil_r. split; [reflexivity |]. split; [reflexivity |].
      intros e' [= <-]. split; [reflexivity | apply Hthrow; exact Hr].
Qed.

(** When the token request fails, the tool call that made it ends there:
    nothing is sent, and the caller gets the failure as an error result. *)
Lemma callTool_without_token {S} (h : handler Ev S) (s : S) (request : CallToolRequest) e :
  result_of h getAccessToken s = Throw e ->
  fetch_calls (trace_of h (callTool request) s) = [] /\
  exists e', result_of h (callTool request) s = Ok (errorResult e') /\
             (account_queries (trace_of h (callTool request) s) <> [] -> e' = e).
Proof.
  intros Htok. destruct (callTool_calls h s request) as (-> & _ & ->).
  destruct (callTool_run h s request) as [_ ->].
  destruct (token_trace_quiet h s) as (Hq & _).
  destruct (dispatch_token_first h s request) as [[-> [e' ->]] | (rest & -> & _ & Hrest)].
  - split; [reflexivity |]. exists e'. split; [reflexivity |]. intros Hne. contradiction.
  - destruct (Hrest e Htok) as [-> ->]. rewrite app_nil_r. split; [exact Hq |].
    exists e. split; reflexivity.
Qed.
End Provider.

Arguments returned : simpl never.
Arguments writeThrough : simpl never.
Arguments pca_calls : simpl never.
Arguments deviceCodeFlow : simpl never.
Arguments trySilent : simpl never.

Section Linking.
Context `{Builtins} `{Config}.
Context {I : Type -> Type}.

Lemma returning_run {S X} (h : handler (SysEv I) S) (s : S) (e : Ev X)
    (p : Prog (SysEv I) X) :
  trace_of h (returning e p) s =
    (trace_of h p s ++ [entry (Mark (Returns (entry e (result_of h p s)))) tt])%list /\
  result_of h (returning e p) s = result_of h p s.
Proof.
  unfold returning. rewrite trace_of_bind, result_of_bind. exec. ask h. destruct x.
  split; reflexivity.
Qed.

Lemma writeThrough_app (t1 t2 : list (Entry (SysEv I))) :
  writeThrough t1 -> writeThrough t2 -> writeThrough (t1 ++ t2).
Proof.
  unfold writeThrough, store_writes, src_entries, entered, changed_accesses.
  intros H1' H2'. rewrite !collect_app. unfold collect in *.
  rewrite !flat_map_app, !map_app, H1', H2'. reflexivity.
Qed.

Lemma returned_app (t1 t2 : list (Entry (SysEv I))) :
  returned (t1 ++ t2) = (returned t1 ++ returned t2)%list.
Proof. apply collect_app. Qed.

Lemma returned_cons (en : Entry (SysEv I)) (tr : list (Entry (SysEv I))) :
  returned (en :: tr) = (returned [en] ++ returned tr)%list.
Proof. apply (returned_app [en] tr). Qed.

(** Whatever the library does, it writes the store only through
    [afterCacheAccess] on a changed context. *)
Lemma library_segment {R} (q : Prog (LibEv I) R) {S} (h : handler (SysEv I) S) (s : S) :
  writeThrough (trace_of h (interp callbacks q) s) /\
  returned (trace_of h (interp callbacks q) s) = [].
Proof.
  revert s. induction q as [r | X c k IH]; intros s; [split; reflexivity |].
  cbn [interp]. rewrite trace_of_bind.
  destruct (IH (result_of h (callbacks _ c) s) (state_of h (callbacks _ c) s)) as [IHw IHr].
  rewrite returned_app, IHr, app_nil_r.
  assert (Hc : writeThrough (trace_of h (callbacks _ c) s) /\
               returned (trace_of h (callbacks _ c) s) = []).
  { clear. destruct c as [context | context | response | Y i]; unfold callbacks, entering.
    - unfold beforeCacheAccess. exec. ask h. destruct x. ask h.
      destruct x; exec; [| split; reflexivity].
      ask h. destruct x as [data | e]; exec; [| split; reflexivity].
      ask h. split; reflexivity.
    - unfold afterCacheAccess. destruct context as [[|]]; exec.
      + ask h. destruct x. ask h. ask h. split; reflexivity.
      + ask h. destruct x. split; reflexivity.
    - unfold deviceCodeCallback. exec. ask h. destruct x. ask h. destruct x.
      destruct (message response) as [m |]; exec; [| split; reflexivity].
      destruct (String.eqb m ""); exec; [split; reflexivity |].
      ask h. destruct x. split; reflexivity.
    - exec. ask h. split; reflexivity. }
  destruct Hc as [Hw Hr]. split; [apply writeThrough_app; assumption | exact Hr].
Qed.

Ltac segments :=
  repeat first
    [ apply writeThrough_app
    | apply library_segment
    | reflexivity ].

(** As far as server.js can tell, a linked run of the provider is one of
    the runs of [TokenRun]; underneath, the store is written through. *)
Lemma linked_getAccessToken_run (lib : Library I) {S} (h : handler (SysEv I) S) (s : S) :
  writeThrough (trace_of h (linked lib getAccessToken) s) /\
  exists tr0,
    TokenRun tr0 (result_of h (linked lib getAccessToken) s) /\
    returned (trace_of h (linked lib getAccessToken) s) = pca_calls tr0.
Proof.
  unfold linked, getAccessToken. cbn.
  rewrite trace_of_bind, result_of_bind.
  destruct (returning_run h s PcaGetAllAccounts (interp callbacks (lib_getAllAccounts lib)))
    as [-> ->].
  set (sa := state_of h (returning PcaGetAllAccounts _) s). clearbody sa.
  destruct (library_segment (lib_getAllAccounts lib) h s) as [Hwa Hra].
  destruct (result_of h (interp callbacks (lib_getAllAccounts lib)) s) as [accounts | e].
  2:{ exec. split; [segments |]. exists [entry PcaGetAllAccounts (Throw e)].
      split; [constructor |]. rewrite !returned_app, Hra. reflexivity. }
  assert (Hdev : forall s1,
    let p := interp (link_call lib) deviceCodeFlow in
    writeThrough (trace_of h p s1) /\
    exists d, returned (trace_of h p s1)
                = [entry (PcaAcquireTokenByDeviceCode SCOPES) d] /\
              result_of h p s1 = deviceOutcome d).
  { intros s1. unfold deviceCodeFlow. cbn.
    rewrite trace_of_bind, result_of_bind.
    destruct (returning_run h s1 (PcaAcquireTokenByDeviceCode SCOPES)
                (interp callbacks (lib_acquireTokenByDeviceCode lib SCOPES))) as [-> ->].
    set (sd := state_of h (returning _ _) s1). clearbody sd.
    destruct (library_segment (lib_acquireTokenByDeviceCode lib SCOPES) h s1) as [Hwd Hrd].
    set (d := result_of h (interp callbacks (lib_acquireTokenByDeviceCode lib SCOPES)) s1) in *.
    clearbody d. split.
    - destruct d as [[r |] | e]; exec; try (ask h; destruct x); segments.
    - exists d. rewrite !returned_app, Hrd.
      destruct d as [[r |] | e]; exec; try (ask h; destruct x); split; reflexivity. }
  destruct accounts as [| a rest]; unfold trySilent.
  - cbn. destruct (Hdev sa) as (Hw & d & Hr & ->).
    split; [segments; exact Hw |].
    exists (entry PcaGetAllAccounts (Ok []) :: deviceTrace d).
    split; [constructor |]. rewrite !returned_app, Hra, Hr.
    destruct d as [[r |] | e]; reflexivity.
  - cbn. rewrite trace_of_bind, result_of_bind.
    destruct (returning_run h sa (PcaAcquireTokenSilent a SCOPES)
                (interp callbacks (lib_acquireTokenSilent lib a SCOPES))) as [-> ->].
    set (ss := state_of h (returning _ _) sa). clearbody ss.
    destruct (library_segment (lib_acquireTokenSilent lib a SCOPES) h sa) as [Hws Hrs].
    destruct (result_of h (interp callbacks (lib_acquireTokenSilent lib a SCOPES)) sa)
      as [res | e].
    + exec. split; [segments |].
      exists [entry PcaGetAllAccounts (Ok (a :: rest));
              entry (PcaAcquireTokenSilent a SCOPES) (Ok res)].
      split; [constructor |]. rewrite !returned_app, Hra, Hrs. reflexivity.
    + exec. ask h. destruct x.
      destruct (Hdev s0) as (Hw & d & Hr & ->).
      split; [segments; exact Hw |].
      exists (entry PcaGetAllAccounts (Ok (a :: rest)) ::
              entry (PcaAcquireTokenSilent a SCOPES) (Throw e) ::
              silentFailureLog e :: deviceTrace d).
      split; [constructor |].
      rewrite !returned_app,
        (returned_cons _ (trace_of h (interp (link_call lib) deviceCodeFlow) s0)),
        Hra, Hrs, Hr.
      destruct d as [[r |] | e']; reflexivity.
Qed.
End Linking.
End ServerFacts.

(** * Properties of the specification *)

Import Server Msal Observe Behaviour RunFacts ServerFacts.

(** C1.  Against an empty token cache ([getAllAccounts] answers no
    account) [getAccessToken] never calls [acquireTokenSilent]: its next
    call after the cache query is [acquireTokenByDeviceCode], made once,
    and when that flow succeeds its access token is the result. *)
Theorem empty_cache_goes_straight_to_device_code `{Builtins} `{Config}
    {S} (h : handler Ev S) (s : S) :
  account_queries (trace_of h getAccessToken s) = [Ok []] ->
  silent_calls (trace_of h getAccessToken s) = [] /\
  exists d rest,
    trace_of h getAccessToken s =
      entry PcaGetAllAccounts (Ok []) ::
      entry (PcaAcquireTokenByDeviceCode SCOPES) d :: rest /\
    device_calls (trace_of h getAccessToken s) = [(SCOPES, d)] /\
    forall r, d = Ok (Some r) -> result_of h getAccessToken s = Ok (accessToken r).
Proof.
  intros Hq. pose proof (getAccessToken_runs h s) as Hr.
  destruct Hr as [e | a rest res | d | a rest e d]; try discriminate Hq.
  destruct (deviceTrace_calls d) as (Hd & Hs & _).
  split; [exact Hs |].
  exists d. eexists. split; [reflexivity |]. split; [exact Hd |].
  intros r ->. reflexivity.
Qed.

(** C2, as amended.  A blob on which [deserialize] throws makes
    [beforeCacheAccess] fail with that error: the plugin does not catch it.
    When the failure surfaces from [getAllAccounts], the token request
    fails with the same error without attempting silent renewal or the
    device code flow; the tool call that asked for the token sends nothing
    and reports the error as an error result instead of crashing. *)
Theorem corrupt_store_fails_the_token_request `{Builtins} `{Config}
    {S S'} (h : handler Ev S) (s : S) (h' : handler Ev S') (s' : S')
    (context : TokenCacheContext) (blob : string) (e : JsError)
    (request : CallToolRequest) :
  deserializations (trace_of h (beforeCacheAccess context) s) = [(blob, Throw e)] ->
  account_queries (trace_of h' (callTool request) s') = [Throw e] ->
  result_of h (beforeCacheAccess context) s = Throw e /\
  result_of h' getAccessToken s' = Throw e /\
  silent_calls (trace_of h' getAccessToken s') = [] /\
  device_calls (trace_of h' getAccessToken s') = [] /\
  result_of h' (callTool request) s' = Ok (errorResult e) /\
  fetch_calls (trace_of h' (callTool request) s') = [].
Proof.
  intros Hd Hq. split.
  { revert Hd. unfold beforeCacheAccess. exec. ask h.
    destruct x; exec; [| discriminate].
    ask h. destruct x as [data | e0]; exec; [| discriminate].
    ask h. intros [= _ ->]. reflexivity. }
  destruct (callTool_calls h' s' request) as (_ & _ & Hqa). rewrite Hqa in Hq.
  assert (Htok : account_queries (trace_of h' getAccessToken s') = [Throw e]).
  { destruct (dispatch_token_first h' s' request)
      as [[Hnil _] | (rest & Htr & Hrest & _)].
    - rewrite Hnil in Hq. discriminate Hq.
    - rewrite Htr in Hq. unfold account_queries in Hq. rewrite collect_app in Hq.
      fold account_queries in Hq. rewrite Hrest, app_nil_r in Hq. exact Hq. }
  pose proof (getAccessToken_runs h' s') as Hr.
  assert (Hres : result_of h' getAccessToken s' = Throw e /\
                 silent_calls (trace_of h' getAccessToken s') = [] /\
                 device_calls (trace_of h' getAccessToken s') = []).
  { destruct Hr as [e0 | a rest res | d | a rest e0 d]; try discriminate Htok.
    injection Htok as ->. repeat split. }
  destruct Hres as (Hres & Hs & Hdv). repeat (split; [assumption |]).
  destruct (callTool_without_token h' s' request e Hres) as (Hf & e' & Hr' & He').
  split; [| exact Hf]. rewrite Hr'. rewrite He'; [reflexivity |].
  destruct (callTool_calls h' s' request) as (_ & _ & ->). rewrite Hq. discriminate.
Qed.

(** C3, as amended.  A save ([afterCacheAccess] on a changed cache)
    serializes the cache and hands the blob to one [fs.writeFileSync] whose
    target is [TOKEN_CACHE_PATH] itself: the store artifact is rewritten in
    place, no other artifact is written first. *)
Theorem save_overwrites_the_store_in_place `{Builtins} `{Config}
    {S} (h : handler Ev S) (s : S) (context : TokenCacheContext) :
  cacheHasChanged context = true ->
  exists blob r,
    trace_of h (afterCacheAccess context) s =
      [entry TokenCacheSerialize blob;
       entry (FsWriteFileSync TOKEN_CACHE_PATH blob) r] /\
    result_of h (afterCacheAccess context) s = r /\
    store_writes (trace_of h (afterCacheAccess context) s) = [(TOKEN_CACHE_PATH, blob)] /\
    ~ writesElsewhere TOKEN_CACHE_PATH (trace_of h (afterCacheAccess context) s).
Proof.
  intros Hc. unfold afterCacheAccess. rewrite Hc. exec. ask h. ask h.
  exists x, x0. split; [reflexivity |]. split; [reflexivity |]. split; [reflexivity |].
  unfold writesElsewhere. cbn. intros Hall. inversion Hall as [| w ws Hw _]; subst.
  apply Hw. reflexivity.
Qed.

(** C4, as amended.  The dispatcher does not check that required arguments
    are present.  For each of the seven tools, given an arguments object and
    a token: when the members the tool puts into its path, and for
    create_page into the page, convert to text ([toolFetch] is defined),
    the request of [toolFetch], built from whatever members the object
    has, is the first one sent; when one of them does not convert, the
    template literal throws, nothing is sent and the call ends in the
    error result of that TypeError.  A member the object lacks reads as
    [undefined], which converts to the text undefined: on an object
    without any member every tool still has its request. *)
Theorem arguments_reach_the_api_unvalidated `{Builtins} `{Config}
    {S} (h : handler Ev S) (s : S)
    (request : CallToolRequest) (fields : list (string * JsValue)) (token : string) :
  In (name request) toolNames ->
  arguments request = Some fields ->
  result_of h getAccessToken s = Ok token ->
  match toolFetch token (name request) fields with
  | Some (url, options) =>
      exists f rest,
        fetch_calls (trace_of h (callTool request) s) = (url, options, f) :: rest
  | None =>
      fetch_calls (trace_of h (callTool request) s) = [] /\
      result_of h (callTool request) s = Ok (errorResult (new_TypeError "toString"))
  end /\
  (forall tool, In tool toolNames -> exists c, toolFetch token tool [] = Some c) /\
  (forall k, ~ In k (map fst fields) -> lookup_field k fields = JUndefined) /\
  ToString JUndefined = Some "undefined".
Proof.
  intros Hin Ha Htok. split; [| split; [| split; [| reflexivity]]].
  2:{ intros tool Hin'. cbn in Hin'.
      repeat (destruct Hin' as [<- | Hin']; [eexists; reflexivity |]).
      destruct Hin'. }
  2:{ intros k. apply lookup_field_missing. }
  destruct (callTool_calls h s request) as (-> & _).
  destruct (callTool_run h s request) as [_ ->].
  destruct (token_trace_quiet h s) as (Hq & _).
  unfold toolFetch.
  destruct (graphCall (name request) fields) as [[[ep m] b] |] eqn:Hc.
  - destruct (dispatch_graph h s request fields ep m b Hc (or_introl Ha)) as [-> _].
    destruct (graphRequest_after_token h s ep m b token Htok) as (tr2 & f & Hf & -> & _).
    unfold fetch_calls. rewrite collect_app. fold fetch_calls. rewrite Hq.
    destruct Hf; eexists _, _; reflexivity.
  - destruct (String.eqb (name request) "create_page") eqn:E.
    + apply String.eqb_eq in E.
      pose proof (dispatch_create_page h s request fields E Ha) as Hd.
      rewrite Htok in Hd.
      destruct (ToString (lookup_field "sectionId" fields)) as [section |];
        [destruct (ToString (lookup_field "htmlContent" fields)) as [html |] |].
      * destruct Hd as (f & -> & _).
        unfold fetch_calls. rewrite collect_app. fold fetch_calls. rewrite Hq.
        eexists _, _. reflexivity.
      * destruct Hd as [-> ->]. split; [exact Hq | reflexivity].
      * destruct Hd as [-> ->]. split; [exact Hq | reflexivity].
    + apply String.eqb_neq in E.
      destruct (dispatch_unconvertible h s request fields Hin E Ha Hc) as [-> ->].
      split; reflexivity.
Qed.


(** C6, as amended.  When the cache lists one or more accounts, silent
    renewal is attempted once, for the first account in the order
    [getAllAccounts] returned them; further accounts change nothing: the
    request ends with that renewal's token, or else with the outcome of one
    device code flow. *)
Theorem first_listed_account_is_renewed `{Builtins} `{Config}
    {S} (h : handler Ev S) (s : S)
    (a : AccountInfo) (rest : list AccountInfo) :
  account_queries (trace_of h getAccessToken s) = [Ok (a :: rest)] ->
  exists r,
    silent_calls (trace_of h getAccessToken s) = [(a, SCOPES, r)] /\
    ((exists res, r = Ok res /\
        device_calls (trace_of h getAccessToken s) = [] /\
        result_of h getAccessToken s = Ok (accessToken res)) \/
     (exists e d, r = Throw e /\
        device_calls (trace_of h getAccessToken s) = [(SCOPES, d)] /\
        result_of h getAccessToken s = deviceOutcome d)).
Proof.
  intros Hq. pose proof (getAccessToken_runs h s) as Hr.
  destruct Hr as [e | a' rest' res | d | a' rest' e d]; try discriminate Hq.
  - injection Hq as -> ->. exists (Ok res). split; [reflexivity |].
    left. exists res. repeat split.
  - injection Hq as -> ->. exists (Throw e).
    split; [destruct d as [[r |] | e2]; reflexivity |].
    right. exists e, d. split; [reflexivity |].
    split; [destruct d as [[r |] | e2]; reflexivity | reflexivity].
Qed.

(** C7.  For every token library and every environment: in a token
    request whose silent renewal succeeds while no cache access reports a
    change, server.js issues no [fs.writeFileSync], so the store artifact
    is left as it was; the request returns the renewed token and no device
    code flow is started. *)
Theorem silent_success_leaves_store_untouched `{Builtins} `{Config} {I : Type -> Type}
    (lib : Library I)
    {S} (h : handler (SysEv I) S) (s : S)
    (a : AccountInfo) (sc : list string) (res : AuthenticationResult) :
  In (a, sc, Ok res)
     (silent_calls (returned (trace_of h (linked lib getAccessToken) s))) ->
  changed_accesses (entered (trace_of h (linked lib getAccessToken) s)) = [] ->
  store_writes (src_entries (trace_of h (linked lib getAccessToken) s)) = [] /\
  result_of h (linked lib getAccessToken) s = Ok (accessToken res) /\
  device_calls (returned (trace_of h (linked lib getAccessToken) s)) = [].
Proof.
  intros Hin Hunchanged.
  destruct (linked_getAccessToken_run lib h s) as (Hw & tr0 & Hrun & Hret).
  unfold writeThrough in Hw. rewrite Hunchanged in Hw. apply map_eq_nil in Hw.
  split; [exact Hw |]. rewrite Hret in Hin |- *. clear Hret Hw Hunchanged.
  destruct Hrun as [e | a' rest res' | d | a' rest e d].
  - destruct Hin.
  - destruct Hin as [[= _ _ ->] | []]. split; reflexivity.
  - destruct d as [[r |] | e]; destruct Hin.
  - destruct d as [[r |] | e']; destruct Hin as [Hin | []]; discriminate Hin.
Qed.

(** C8.  When silent renewal fails, whatever the error, it is attempted
    once only: the failure is logged and one device code flow follows.  If
    that flow fails too, its error is the result of the token request, and
    the operation that asked for the token is abandoned: [graphRequest]
    fails with the same error and no tool call sends anything to the Graph
    API. *)
Theorem failed_silent_renewal_falls_through_once `{Builtins} `{Config}
    {S} (h : handler Ev S) (s : S)
    (a : AccountInfo) (sc : list string) (e : JsError) :
  In (a, sc, Throw e) (silent_calls (trace_of h getAccessToken s)) ->
  silent_calls (trace_of h getAccessToken s) = [(a, sc, Throw e)] /\
  exists rest d tail,
    trace_of h getAccessToken s =
      entry PcaGetAllAccounts (Ok (a :: rest)) ::
      entry (PcaAcquireTokenSilent a sc) (Throw e) ::
      silentFailureLog e ::
      entry (PcaAcquireTokenByDeviceCode SCOPES) d :: tail /\
    device_calls (trace_of h getAccessToken s) = [(SCOPES, d)] /\
    forall e2, d = Throw e2 ->
      result_of h getAccessToken s = Throw e2 /\
      (forall endpoint method body,
         result_of h (graphRequest endpoint method body) s = Throw e2 /\
         fetch_calls (trace_of h (graphRequest endpoint method body) s) = []) /\
      (forall request,
         fetch_calls (trace_of h (callTool request) s) = [] /\
         exists e', result_of h (callTool request) s = Ok (errorResult e')).
Proof.
  intros Hin. pose proof (getAccessToken_runs h s) as Hr.
  assert (Hg : forall e2, result_of h getAccessToken s = Throw e2 ->
             (forall endpoint method body,
                result_of h (graphRequest endpoint method body) s = Throw e2 /\
                fetch_calls (trace_of h (graphRequest endpoint method body) s) = []) /\
             (forall request,
                fetch_calls (trace_of h (callTool request) s) = [] /\
                exists e', result_of h (callTool request) s = Ok (errorResult e'))).
  { intros e2 He. split.
    - intros ep m b.
      destruct (graphRequest_without_token h s ep m b e2 He) as [-> ->].
      split; [reflexivity |]. apply (TokenRun_quiet _ _ Hr).
    - intros request.
      destruct (callTool_without_token h s request e2 He) as (Hf & e' & Hres & _).
      split; [exact Hf | exists e'; exact Hres]. }
  destruct Hr as [e' | a' rest' res | d | a' rest' e' d].
  - destruct Hin.
  - destruct Hin as [Hin | []]. discriminate Hin.
  - destruct d as [[r |] | e2]; destruct Hin.
  - assert (Hs : silent_calls
                   (entry PcaGetAllAccounts (Ok (a' :: rest')) ::
                    entry (PcaAcquireTokenSilent a' SCOPES) (Throw e') ::
                    silentFailureLog e' :: deviceTrace d) = [(a', SCOPES, Throw e')])
      by (destruct d as [[r |] | e2]; reflexivity).
    rewrite Hs in Hin |- *. destruct Hin as [Hin | []]. injection Hin as -> <- ->.
    split; [reflexivity |].
    exists rest', d. eexists. split; [reflexivity |].
    split; [destruct d as [[r |] | e2]; reflexivity |].
    intros e2 ->. split; [reflexivity |]. apply Hg. reflexivity.
Qed.

(** C9.  The create_page tool sends its own request: whatever the answer,
    at most one [fetch] is made and no timer is armed, so a 429 is not
    retried, and when the answer is not in the 2xx range the error result
    is built from the status text alone.  Each of the six other tools goes
    through [graphRequest]: a 429 as first answer is followed by the timer
    and exactly one more [fetch] of the same request. *)
Theorem create_page_bypasses_the_retrying_client `{Builtins} `{Config}
    {S} (h : handler Ev S) (s : S)
    (request : CallToolRequest) :
  In (name request) toolNames ->
  (name request = "create_page" ->
     timeouts (trace_of h (callTool request) s) = [] /\
     (forall c rest, fetch_calls (trace_of h (callTool request) s) = c :: rest -> rest = []) /\
     (forall url options r,
        fetch_calls (trace_of h (callTool request) s) = [(url, options, Ok r)] ->
        ok r = false ->
        result_of h (callTool request) s =
          Ok (errorResult (new_Error ("Failed to create page: " ++ statusText r))))) /\
  (name request <> "create_page" ->
     forall url options r1 rest,
       fetch_calls (trace_of h (callTool request) s) = (url, options, Ok r1) :: rest ->
       status r1 = 429 ->
       exists f2,
         rest = [(url, options, f2)] /\
         timeouts (trace_of h (callTool request) s) = [throttleDelay r1]).
Proof.
  intros Hin. destruct (callTool_calls h s request) as (Hf & Ht & _).
  destruct (callTool_run h s request) as [_ Hres]. rewrite Hf, Ht, Hres. clear Hf Ht Hres.
  destruct (token_trace_quiet h s) as (Hqf & Hqt & _). split.
  - intros Hn. destruct (arguments request) as [fields |] eqn:Ha.
    + pose proof (dispatch_create_page h s request fields Hn Ha) as Hd.
      assert (Hstop : forall r : Res CallToolResult,
                 trace_of h (dispatch request) s = trace_of h getAccessToken s /\
                 result_of h (dispatch request) s = r ->
                 timeouts (trace_of h (dispatch request) s) = [] /\
                 (forall c rest,
                    fetch_calls (trace_of h (dispatch request) s) = c :: rest -> rest = []) /\
                 (forall url options r',
                    fetch_calls (trace_of h (dispatch request) s) = [(url, options, Ok r')] ->
                    ok r' = false ->
                    Ok match result_of h (dispatch request) s with
                       | Ok v => v
                       | Throw e => errorResult e
                       end =
                    Ok (errorResult
                          (new_Error ("Failed to create page: " ++ statusText r'))))).
      { intros r [-> _]. rewrite Hqf, Hqt.
        split; [reflexivity |]. split; intros; discriminate. }
      destruct (result_of h getAccessToken s) as [token | e]; [| apply (Hstop _ Hd)].
      destruct (ToString (lookup_field "sectionId" fields)) as [section |];
        [| apply (Hstop _ Hd)].
      destruct (ToString (lookup_field "htmlContent" fields)) as [html |];
        [| apply (Hstop _ Hd)].
      clear Hstop. destruct Hd as (f & -> & ->).
      unfold fetch_calls, timeouts. rewrite !collect_app.
      fold fetch_calls timeouts. rewrite Hqf, Hqt. cbn.
      split; [reflexivity |]. split.
      * intros c rest [= _ <-]. reflexivity.
      * intros url options r [= _ _ ->] Hok.
        unfold createPageResult. cbn in Hok |- *. rewrite Hok. reflexivity.
    + assert (Hne : name request <> "list_notebooks") by (rewrite Hn; discriminate).
      destruct (dispatch_without_arguments h s request Ha Hne) as [-> _].
      split; [reflexivity |]. split; intros; discriminate.
  - intros Hn url options r1 rest Hfc Hs.
    destruct (dispatch_through_graph h s request Hin Hn) as [Hnone | (ep & m & b & Htr)].
    { rewrite Hnone in Hfc. discriminate Hfc. }
    rewrite Htr in Hfc |- *.
    destruct (graphRequest_throttled h s ep m b url options r1 rest Hfc Hs)
      as (f2 & before & -> & _ & Hbt & -> & _).
    exists f2. split; [reflexivity |].
    unfold timeouts. rewrite collect_app. fold timeouts. rewrite Hbt. reflexivity.
Qed.

(** C10.  A tool call whose name is none of the seven registered tools
    makes no call but the log line of the handler's [catch], and returns an
    error result ([isError] true) whose text is the JSON of an object
    carrying the message of the [McpError] built from [MethodNotFound] and
    the Unknown tool text with the name. *)
Theorem unknown_tool_is_reported_as_error_result `{Builtins} `{Config}
    {S} (h : handler Ev S) (s : S)
    (request : CallToolRequest) :
  ~ In (name request) toolNames ->
  let message := McpError_message ErrorCode_MethodNotFound ("Unknown tool: " ++ name request) in
  result_of h (callTool request) s =
    Ok {| content := [{| type := "text";
                         text := JSON_stringify (JObject [("error", JString message)]) |}];
          isError := true |} /\
  trace_of h (callTool request) s = [toolErrorLog (mkError "McpError" message)].
Proof.
  intros Hn message. destruct (callTool_run h s request) as [-> ->].
  destruct (dispatch_unknown h s request Hn) as [-> ->]. split; reflexivity.
Qed.

(** * The properties on the sample world *)

Module Witnesses.
Import Sample.

Lemma empty_cache_witness :
  account_queries (trace_of world getAccessToken fresh) = [Ok []] /\
  (silent_calls (trace_of world getAccessToken fresh) = [] /\
   exists d rest,
     trace_of world getAccessToken fresh =
       entry PcaGetAllAccounts (Ok []) ::
       entry (PcaAcquireTokenByDeviceCode SCOPES) d :: rest /\
     device_calls (trace_of world getAccessToken fresh) = [(SCOPES, d)] /\
     forall r, d = Ok (Some r) -> result_of world getAccessToken fresh = Ok (accessToken r)).
Proof.
  split; [vm_compute; reflexivity |].
  apply (empty_cache_goes_straight_to_device_code world fresh).
  vm_compute. reflexivity.
Defined.

(** C2 fails on the code: over a store that does not parse the token
    request fails with the parse error and never reaches the device code
    flow, whereas over an absent store it completes through that flow. *)
Lemma corrupt_store_is_not_treated_as_absent :
  files corrupt !! TOKEN_CACHE_PATH = Some "not a cache" /\
  deserializes "not a cache" = false /\
  result_of system (linked library getAccessToken) corrupt
    = Throw (mkError "SyntaxError" "Unexpected token in JSON") /\
  device_calls (returned (trace_of system (linked library getAccessToken) corrupt)) = [] /\
  files fresh !! TOKEN_CACHE_PATH = None /\
  result_of system (linked library getAccessToken) fresh = Ok "token-from-device-code".
Proof. repeat split; vm_compute; reflexivity. Qed.

Lemma corrupt_store_witness :
  deserializations (trace_of world (beforeCacheAccess unchanged) corrupt)
    = [("not a cache", Throw (mkError "SyntaxError" "Unexpected token in JSON"))] /\
  account_queries (trace_of world (callTool listNotebooks) unreadable)
    = [Throw (mkError "SyntaxError" "Unexpected token in JSON")] /\
  (result_of world (beforeCacheAccess unchanged) corrupt
     = Throw (mkError "SyntaxError" "Unexpected token in JSON") /\
   result_of world getAccessToken unreadable
     = Throw (mkError "SyntaxError" "Unexpected token in JSON") /\
   silent_calls (trace_of world getAccessToken unreadable) = [] /\
   device_calls (trace_of world getAccessToken unreadable) = [] /\
   result_of world (callTool listNotebooks) unreadable
     = Ok (errorResult (mkError "SyntaxError" "Unexpected token in JSON")) /\
   fetch_calls (trace_of world (callTool listNotebooks) unreadable) = []).
Proof.
  split; [vm_compute; reflexivity |]. split; [vm_compute; reflexivity |].
  apply (corrupt_store_fails_the_token_request world corrupt world unreadable
           unchanged "not a cache"); vm_compute; reflexivity.
Defined.

(** C3 fails on the code: the save writes onto the store artifact itself,
    so a write cut short leaves neither the old blob nor the new one; cut
    after the first character it leaves a file that no longer
    deserializes. *)
Lemma save_rewrites_the_existing_file :
  files warm !! TOKEN_CACHE_PATH = Some storedBlob /\
  store_writes (trace_of world (afterCacheAccess changed) warm)
    = [(TOKEN_CACHE_PATH, cacheBlob warm)] /\
  ~ writesElsewhere TOKEN_CACHE_PATH (trace_of world (afterCacheAccess changed) warm) /\
  interrupted_write TOKEN_CACHE_PATH (cacheBlob warm) 0 (files warm) !! TOKEN_CACHE_PATH
    = Some "" /\
  interrupted_write TOKEN_CACHE_PATH (cacheBlob warm) 1 (files warm) !! TOKEN_CACHE_PATH
    = Some "{" /\
  "" <> storedBlob /\ "" <> cacheBlob warm /\
  deserializes storedBlob = true /\ deserializes (cacheBlob warm) = true /\
  deserializes "{" = false.
Proof.
  split; [vm_compute; reflexivity |]. split; [vm_compute; reflexivity |].
  split.
  { intros Hall. vm_compute in Hall. inversion Hall as [| w ws Hw _]; subst.
    apply Hw. reflexivity. }
  repeat split; try (vm_compute; reflexivity); vm_compute; discriminate.
Qed.

Lemma save_in_place_witness :
  cacheHasChanged changed = true /\
  exists blob r,
    trace_of world (afterCacheAccess changed) warm =
      [entry TokenCacheSerialize blob;
       entry (FsWriteFileSync TOKEN_CACHE_PATH blob) r] /\
    result_of world (afterCacheAccess changed) warm = r /\
    store_writes (trace_of world (afterCacheAccess changed) warm)
      = [(TOKEN_CACHE_PATH, blob)] /\
    ~ writesElsewhere TOKEN_CACHE_PATH (trace_of world (afterCacheAccess changed) warm).
Proof.
  split; [reflexivity |].
  apply (save_overwrites_the_store_in_place world warm changed). reflexivity.
Defined.
(** C4 fails on the code: list_sections called without its notebookId is
    not rejected; the request goes out with undefined in its path. *)
Lemma missing_argument_reaches_the_api :
  arguments listSectionsBare = Some [] /\
  map (fun c => fst (fst c)) (fetch_calls (trace_of world (callTool listSectionsBare) missing))
    = ["https://graph.microsoft.com/v1.0/me/onenote/notebooks/undefined/sections"].
Proof. split; vm_compute; reflexivity. Qed.

Lemma unvalidated_arguments_witness :
  In (name listSectionsBare) toolNames /\
  arguments listSectionsBare = Some [] /\
  result_of world getAccessToken missing = Ok "token-from-cache" /\
  (exists f rest,
     fetch_calls (trace_of world (callTool listSectionsBare) missing)
       = ("https://graph.microsoft.com/v1.0/me/onenote/notebooks/undefined/sections",
          graphOptions "token-from-cache" "GET" JNull, f) :: rest) /\
  toolFetch "token-from-cache" (name listSectionsOdd)
    [("notebookId", JObject [("toString", JNumber (number_of_Z 1))])] = None /\
  fetch_calls (trace_of world (callTool listSectionsOdd) missing) = [] /\
  result_of world (callTool listSectionsOdd) missing
    = Ok (errorResult (new_TypeError "toString")).
Proof.
  assert (Hin : In (name listSectionsBare) toolNames) by (vm_compute; tauto).
  assert (Htok : result_of world getAccessToken missing = Ok "token-from-cache")
    by (vm_compute; reflexivity).
  split; [exact Hin |]. split; [reflexivity |]. split; [exact Htok |].
  destruct (arguments_reach_the_api_unvalidated world missing listSectionsBare []
              "token-from-cache" Hin eq_refl Htok) as (Hsent & _).
  destruct (arguments_reach_the_api_unvalidated world missing listSectionsOdd
              [("notebookId", JObject [("toString", JNumber (number_of_Z 1))])]
              "token-from-cache" Hin eq_refl Htok) as (Hstopped & _).
  split; [exact Hsent |]. split; [reflexivity | exact Hstopped].
Defined.



(** C6 fails on the code: the account renewed is the first in the order
    the cache lists them, so the same two accounts listed the other way
    round select the other account. *)
Lemma selection_follows_cache_order :
  ~ (forall l1 l2 : list AccountInfo,
       Permutation l1 l2 ->
       selectedAccount world shared l1 = selectedAccount world shared l2).
Proof.
  intros Hstable.
  specialize (Hstable [alice; bob] [bob; alice] (perm_swap bob alice [])).
  vm_compute in Hstable. discriminate Hstable.
Qed.

Lemma first_listed_account_witness :
  account_queries (trace_of world getAccessToken shared) = [Ok (alice :: [bob])] /\
  exists r,
    silent_calls (trace_of world getAccessToken shared) = [(alice, SCOPES, r)] /\
    ((exists res, r = Ok res /\
        device_calls (trace_of world getAccessToken shared) = [] /\
        result_of world getAccessToken shared = Ok (accessToken res)) \/
     (exists e d, r = Throw e /\
        device_calls (trace_of world getAccessToken shared) = [(SCOPES, d)] /\
        result_of world getAccessToken shared = deviceOutcome d)).
Proof.
  split; [vm_compute; reflexivity |].
  apply (first_listed_account_is_renewed world shared alice [bob]).
  vm_compute. reflexivity.
Defined.

Lemma silent_success_witness :
  In (alice, SCOPES, Ok (tokenFor alice "token-from-cache"))
     (silent_calls (returned (trace_of system (linked library getAccessToken) warm))) /\
  changed_accesses (entered (trace_of system (linked library getAccessToken) warm)) = [] /\
  (store_writes (src_entries (trace_of system (linked library getAccessToken) warm)) = [] /\
   result_of system (linked library getAccessToken) warm
     = Ok (accessToken (tokenFor alice "token-from-cache")) /\
   device_calls (returned (trace_of system (linked library getAccessToken) warm)) = []) /\
  files (state_of system (linked library getAccessToken) warm) = files warm.
Proof.
  assert (Hin : In (alice, SCOPES, Ok (tokenFor alice "token-from-cache"))
                   (silent_calls
                      (returned (trace_of system (linked library getAccessToken) warm))))
    by (vm_compute; left; reflexivity).
  assert (Hun : changed_accesses
                  (entered (trace_of system (linked library getAccessToken) warm)) = [])
    by (vm_compute; reflexivity).
  split; [exact Hin |]. split; [exact Hun |].
  split; [| vm_compute; reflexivity].
  exact (silent_success_leaves_store_untouched library system warm
           alice SCOPES (tokenFor alice "token-from-cache") Hin Hun).
Defined.
Lemma failed_silent_renewal_witness :
  In (alice, SCOPES, Throw (mkError "InteractionRequiredAuthError" "invalid_grant"))
     (silent_calls (trace_of world getAccessToken lapsed)) /\
  silent_calls (trace_of world getAccessToken lapsed)
    = [(alice, SCOPES, Throw (mkError "InteractionRequiredAuthError" "invalid_grant"))] /\
  device_calls (trace_of world getAccessToken lapsed)
    = [(SCOPES, Throw (mkError "ClientAuthError" "device_code_expired"))] /\
  result_of world getAccessToken lapsed
    = Throw (mkError "ClientAuthError" "device_code_expired") /\
  result_of world (graphRequest "/me/onenote/notebooks" "GET" JNull) lapsed
    = Throw (mkError "ClientAuthError" "device_code_expired") /\
  fetch_calls (trace_of world (callTool createPage) lapsed) = [].
Proof.
  assert (Hin : In (alice, SCOPES,
                    Throw (mkError "InteractionRequiredAuthError" "invalid_grant"))
                   (silent_calls (trace_of world getAccessToken lapsed)))
    by (vm_compute; left; reflexivity).
  split; [exact Hin |].
  destruct (failed_silent_renewal_falls_through_once world lapsed alice SCOPES _ Hin)
    as (Hs & rest & d & tail & Htr & Hd & Hfail).
  split; [exact Hs |].
  assert (Hdv : d = Throw (mkError "ClientAuthError" "device_code_expired")).
  { assert (Hdc : device_calls (trace_of world getAccessToken lapsed)
                   = [(SCOPES, Throw (mkError "ClientAuthError" "device_code_expired"))])
      by (vm_compute; reflexivity).
    rewrite Hdc in Hd. injection Hd as <-. reflexivity. }
  subst d. split; [exact Hd |].
  destruct (Hfail _ eq_refl) as (Hres & Hgraph & Htool).
  split; [exact Hres |]. split; [apply Hgraph | apply Htool].
Defined.

Lemma create_page_witness :
  In (name createPage) toolNames /\
  timeouts (trace_of world (callTool createPage) throttled) = [] /\
  fetch_calls (trace_of world (callTool createPage) throttled)
    = [(GRAPH_ENDPOINT ++ "/me/onenote/sections/s-1/pages",
        createPageOptions "token-from-cache" "<p>Hi</p>", Ok firstThrottle)] /\
  result_of world (callTool createPage) throttled
    = Ok (errorResult (new_Error "Failed to create page: Too Many Requests")) /\
  exists f2,
    timeouts (trace_of world (callTool listNotebooks) throttled)
      = [throttleDelay firstThrottle] /\
    map (fun c => snd c) (fetch_calls (trace_of world (callTool listNotebooks) throttled))
      = [Ok firstThrottle; f2].
Proof.
  assert (Hin : In (name createPage) toolNames) by (vm_compute; tauto).
  assert (Hin' : In (name listNotebooks) toolNames) by (vm_compute; tauto).
  split; [exact Hin |].
  destruct (create_page_bypasses_the_retrying_client world throttled createPage Hin)
    as [Hpage _].
  destruct (Hpage eq_refl) as (Ht & _ & Hfail).
  split; [exact Ht |].
  assert (Hf : fetch_calls (trace_of world (callTool createPage) throttled)
               = [(GRAPH_ENDPOINT ++ "/me/onenote/sections/s-1/pages",
                   createPageOptions "token-from-cache" "<p>Hi</p>",
                   Ok firstThrottle)])
    by (vm_compute; reflexivity).
  split; [exact Hf |]. split; [exact (Hfail _ _ _ Hf eq_refl) |].
  destruct (create_page_bypasses_the_retrying_client world throttled listNotebooks Hin')
    as [_ Hother].
  assert (Hn : name listNotebooks <> "create_page") by discriminate.
  assert (Hf' : fetch_calls (trace_of world (callTool listNotebooks) throttled)
                = (GRAPH_ENDPOINT ++ "/me/onenote/notebooks",
                   graphOptions "token-from-cache" "GET" JNull, Ok firstThrottle)
                  :: [(GRAPH_ENDPOINT ++ "/me/onenote/notebooks",
                       graphOptions "token-from-cache" "GET" JNull, Ok secondThrottle)])
    by (vm_compute; reflexivity).
  destruct (Hother Hn _ _ _ _ Hf' eq_refl) as (f2 & Hrest & Hto).
  exists f2. split; [exact Hto |]. rewrite Hf'. injection Hrest as <-. reflexivity.
Defined.

Lemma unknown_tool_witness :
  ~ In (name deletePage) toolNames /\
  (let message :=
     McpError_message ErrorCode_MethodNotFound ("Unknown tool: " ++ name deletePage) in
   result_of world (callTool deletePage) warm =
     Ok {| content := [{| type := "text";
                          text := JSON_stringify (JObject [("error", JString message)]) |}];
           isError := true |} /\
   trace_of world (callTool deletePage) warm = [toolErrorLog (mkError "McpError" message)]).
Proof.
  assert (Hn : ~ In (name deletePage) toolNames).
  { vm_compute. intros Hin. repeat (destruct Hin as [Hin | Hin]; [discriminate Hin |]).
    exact Hin. }
  split; [exact Hn |].
  apply (unknown_tool_is_reported_as_error_result world warm deletePage Hn).
Defined.
End Witnesses.

(** * More facts about runs *)

Module TextFacts.

Lemma append_assoc (a b c : string) : (a ++ b) ++ c = a ++ (b ++ c).
Proof.
  induction a as [| ch a IH]; [reflexivity |].
  change (String ch ((a ++ b) ++ c) = String ch (a ++ (b ++ c))). rewrite IH. reflexivity.
Qed.
End TextFacts.

Module ShapeFacts.
Import Channels.

Section Always.
Context {E : Type -> Type}.

Lemma Always_bind {A B} (P1 : A -> Prop) (P2 : B -> Prop) (Q : forall X, E X -> Prop)
    (p : Prog E A) (f : A -> Prog E B) :
  Always P1 Q p -> (forall a, P1 a -> Always P2 Q (f a)) -> Always P2 Q (bind p f).
Proof.
  intros Hp Hf. induction Hp as [r Hr | X e k Hq _ IH]; cbn.
  - apply Hf. exact Hr.
  - constructor; [exact Hq | exact IH].
Qed.

Lemma Always_weaken {R} (P P' : R -> Prop) (Q : forall X, E X -> Prop) (p : Prog E R) :
  (forall r, P r -> P' r) -> Always P Q p -> Always P' Q p.
Proof.
  intros Himp Hp. induction Hp as [r Hr | X e k Hq _ IH]; constructor; auto.
Qed.

(** Sequencing with [await]: a thrown error ends the program. *)
Lemma Always_abind {A B} (P : Res B -> Prop) (Q : forall X, E X -> Prop)
    (p : Async E A) (f : A -> Async E B) :
  Always anything Q p ->
  (forall e, P (Throw e)) ->
  (forall a, Always P Q (f a)) ->
  Always P Q (abind p f).
Proof.
  intros Hp Hthrow Hf. unfold abind. apply (Always_bind anything P Q p); [exact Hp |].
  intros [a | e] _; [apply Hf | constructor; apply Hthrow].
Qed.

Lemma Always_try_catch {A} (P : Res A -> Prop) (Q : forall X, E X -> Prop)
    (p : Async E A) (c : JsError -> Async E A) :
  Always (fun r => forall a, r = Ok a -> P (Ok a)) Q p ->
  (forall e, Always P Q (c e)) ->
  Always P Q (try_catch p c).
Proof.
  intros Hp Hc. unfold try_catch.
  apply (Always_bind (fun r => forall a, r = Ok a -> P (Ok a)) P Q p); [exact Hp |].
  intros [a | e] Hr; [constructor; apply Hr; reflexivity | apply Hc].
Qed.

(** What [Always] says of a run. *)
Lemma Always_run {R} (P : R -> Prop) (Q : forall X, E X -> Prop) (p : Prog E R)
    {S} (h : handler E S) (s : S) :
  Always P Q p ->
  P (result_of h p s) /\
  Forall (fun en => match en with entry e _ => Q _ e end) (trace_of h p s).
Proof.
  intros Hp. revert s. induction Hp as [r Hr | X e k Hq _ IH]; intros s.
  - split; [exact Hr | constructor].
  - rewrite result_of_Vis, trace_of_Vis.
    destruct (IH (fst (h X e s)) (snd (h X e s))) as [Hres Htr].
    split; [exact Hres | constructor; assumption].
Qed.
End Always.

(** Walks a program tree, case by case on the answers it branches on. *)
Ltac walk :=
  repeat first
    [ apply Always_Ret
    | apply Always_Vis; [try reflexivity | intros ?]
    | match goal with
      | |- Always _ _ ?p =>
          match p with
          | context [match ?x with _ => _ end] => destruct x
          end
      end
    | progress (cbn; unfold ret, throw, await, perform, call) ].

Section Programs.
Context `{Builtins} `{Config}.

Lemma getAccessToken_shape :
  Always (E := Ev) (R := Res string) anything ordinary getAccessToken.
Proof.
  unfold getAccessToken, trySilent, deviceCodeFlow.
  walk; exact Logic.I.
Qed.

Lemma graphRequest_shape endpoint method body :
  Always (E := Ev) (R := Res JsValue) anything ordinary (graphRequest endpoint method body).
Proof.
  unfold graphRequest. apply Always_abind; [apply getAccessToken_shape | easy |].
  intros token. unfold graphReturn, response_json, response_text.
  walk; exact Logic.I.
Qed.

Lemma dispatch_shape (request : CallToolRequest) :
  Always plainResult ordinary (dispatch request).
Proof.
  assert (Hthrow : forall e, plainResult (Throw e)) by (intros e v [=]).
  assert (Htext : forall t, plainResult (Ok (textResult t))).
  { intros t v [= <-]. split; [reflexivity | exists t; reflexivity]. }
  unfold dispatch, destructure, valueOf, response_json, interpolate.
  repeat match goal with
  | |- Always _ _ (if ?b then _ else _) => destruct b
  end;
  destruct (arguments request) as [fields |];
  repeat first
    [ apply Always_Ret; first [apply Htext | apply Hthrow]
    | apply Always_abind;
        [ first [ apply graphRequest_shape | apply getAccessToken_shape
                | walk; exact Logic.I ]
        | exact Hthrow
        | intros ? ]
    | apply Always_Vis; [reflexivity | intros ?]
    | match goal with
      | |- Always _ _ ?p =>
          match p with
          | context [match ?x with _ => _ end] => destruct x
          end
      end
    | progress (cbn; unfold ret, throw, await, perform, call) ].
Qed.

Lemma callTool_shape (request : CallToolRequest) :
  Always (fun r => exists v, r = Ok v /\ oneText v) ordinary (callTool request).
Proof.
  unfold callTool. apply Always_try_catch.
  - apply (Always_weaken plainResult); [| apply dispatch_shape].
    intros r Hr a ->. exists a. split; [reflexivity | apply (Hr a eq_refl)].
  - intros e. walk. eexists. split; [reflexivity |]. eexists. reflexivity.
Qed.
End Programs.
End ShapeFacts.

Module LinkFacts.
Import Channels ShapeFacts.

Section Invariant.
Context `{Builtins} `{Config} {I : Type -> Type}.

(** A property of linked traces kept by concatenation, by every callback,
    by the answers of the library and by the ordinary calls of
    server.js. *)
Variable P : list (Entry (SysEv I)) -> Prop.
Hypothesis P_nil : P [].
Hypothesis P_app : forall t1 t2, P t1 -> P t2 -> P (t1 ++ t2).
Hypothesis P_callback :
  forall X (c : LibEv I X) S (h : handler (SysEv I) S) (s : S),
    P (trace_of h (callbacks X c) s).
Hypothesis P_returns : forall r, P [entry (Mark (Returns r)) tt].
Hypothesis P_src : forall X (e : Ev X) (x : X), is_ordinary e = true -> P [entry (Src e) x].

Lemma library_invariant {R} (q : Prog (LibEv I) R) {S} (h : handler (SysEv I) S) (s : S) :
  P (trace_of h (interp callbacks q) s).
Proof.
  revert s. induction q as [r | X c k IH]; intros s; [exact P_nil |].
  cbn [interp]. rewrite trace_of_bind. apply P_app; [apply P_callback | apply IH].
Qed.

Lemma link_call_invariant (lib : Library I) {X} (e : Ev X)
    {S} (h : handler (SysEv I) S) (s : S) :
  is_ordinary e = true -> P (trace_of h (link_call lib X e) s).
Proof.
  intros He.
  assert (Hret : forall (e' : Ev X) (q : Prog (LibEv I) X),
             P (trace_of h (returning e' (interp callbacks q)) s)).
  { intros e' q. destruct (returning_run h s e' (interp callbacks q)) as [-> _].
    apply P_app; [apply library_invariant | apply P_returns]. }
  assert (Hsrc : forall e' : Ev X, is_ordinary e' = true -> P (trace_of h (call (Src e')) s)).
  { intros e' He'. unfold call. rewrite trace_of_Vis, trace_of_Ret. apply P_src. exact He'. }
  clear P_nil P_app P_callback P_returns P_src.
  destruct e; try discriminate He; cbn [link_call];
    first [apply Hret | apply Hsrc; exact He].
Qed.

Lemma linked_invariant (lib : Library I) {R} (p : Prog Ev R)
    {S} (h : handler (SysEv I) S) (s : S) :
  Always anything ordinary p -> P (trace_of h (linked lib p) s).
Proof.
  intros Hp. revert s. unfold linked.
  induction Hp as [r _ | X e k Hq _ IH]; intros s; [exact P_nil |].
  cbn [interp]. rewrite trace_of_bind.
  apply P_app; [apply link_call_invariant; exact Hq | apply IH].
Qed.
End Invariant.

Section Discipline.
Context `{Builtins} `{Config} {I : Type -> Type}.

Lemma onlyTheStore_app (t1 t2 : list (Entry (SysEv I))) :
  onlyTheStore t1 -> onlyTheStore t2 -> onlyTheStore (t1 ++ t2).
Proof.
  unfold onlyTheStore, store_paths, src_entries. intros H1' H2'.
  rewrite !collect_app. apply Forall_app. split; assumption.
Qed.

Lemma promptsShown_app (t1 t2 : list (Entry (SysEv I))) :
  promptsShown t1 -> promptsShown t2 -> promptsShown (t1 ++ t2).
Proof.
  unfold promptsShown. intros H1' H2'.
  assert (Hs : src_entries (t1 ++ t2) = (src_entries t1 ++ src_entries t2)%list)
    by apply collect_app.
  assert (He : entered (t1 ++ t2) = (entered t1 ++ entered t2)%list)
    by apply collect_app.
  rewrite Hs, He.
  transitivity (prompts (src_entries t1) ++ prompts (src_entries t2))%list;
    [apply collect_app |].
  rewrite H1', H2'. symmetry. apply flat_map_app.
Qed.

Lemma callback_discipline {X} (c : LibEv I X) {S} (h : handler (SysEv I) S) (s : S) :
  writeThrough (trace_of h (callbacks X c) s) /\
  onlyTheStore (trace_of h (callbacks X c) s) /\
  promptsShown (trace_of h (callbacks X c) s).
Proof.
  destruct c as [context | context | response | Y i]; unfold callbacks, entering.
  - unfold beforeCacheAccess. exec. ask h. destruct x. ask h.
    destruct x; exec; [| split; [reflexivity | split; [repeat constructor | reflexivity]]].
    ask h. destruct x as [data | e]; exec;
      [| split; [reflexivity | split; [repeat constructor | reflexivity]]].
    ask h. split; [reflexivity | split; [repeat constructor | reflexivity]].
  - unfold afterCacheAccess. destruct context as [[|]]; exec.
    + ask h. destruct x. ask h. ask h.
      split; [reflexivity | split; [repeat constructor | reflexivity]].
    + ask h. destruct x. split; [reflexivity | split; [repeat constructor | reflexivity]].
  - unfold deviceCodeCallback. exec. ask h. destruct x. ask h. destruct x.
    destruct (message response) as [m |]; exec;
      [| split; [reflexivity | split; [repeat constructor | reflexivity]]].
    destruct (String.eqb m ""); exec;
      [split; [reflexivity | split; [repeat constructor | reflexivity]] |].
    ask h. destruct x. split; [reflexivity | split; [repeat constructor | reflexivity]].
  - exec. ask h. split; [reflexivity | split; [repeat constructor | reflexivity]].
Qed.

(** Any program of server.js made of ordinary calls, linked with any
    library, keeps the three disciplines. *)
Lemma linked_discipline (lib : Library I) {R} (p : Prog Ev R)
    {S} (h : handler (SysEv I) S) (s : S) :
  Always anything ordinary p ->
  writeThrough (trace_of h (linked lib p) s) /\
  onlyTheStore (trace_of h (linked lib p) s) /\
  promptsShown (trace_of h (linked lib p) s).
Proof.
  apply (linked_invariant
           (fun tr => writeThrough tr /\ onlyTheStore tr /\ promptsShown tr)).
  - split; [reflexivity | split; [constructor | reflexivity]].
  - intros t1 t2 (Hw1 & Ho1 & Hp1) (Hw2 & Ho2 & Hp2).
    split; [apply writeThrough_app | split; [apply onlyTheStore_app | apply promptsShown_app]];
      assumption.
  - intros X c S' h' s'. apply callback_discipline.
  - intros r. split; [reflexivity | split; [constructor | reflexivity]].
  - intros X e x He. split; [| split].
    + destruct e; try discriminate He; reflexivity.
    + destruct e; try discriminate He; constructor.
    + destruct e; try discriminate He; try reflexivity.
      unfold promptsShown, prompts. cbn. rewrite app_nil_r.
      unfold is_ordinary in He. cbn in He.
      destruct (shown_challenges items); [reflexivity | discriminate He].
Qed.
End Discipline.
End LinkFacts.

(** * Facts about stderr in linked runs *)

Module StderrFacts.
Import Channels ShapeFacts LinkFacts.

Section Lines.
Context `{Builtins} `{Config} {I : Type -> Type}.

Lemma console_lines_app (t1 t2 : list (Entry (SysEv I))) :
  console_lines (src_entries (t1 ++ t2))
    = (console_lines (src_entries t1) ++ console_lines (src_entries t2))%list.
Proof.
  assert (Hs : src_entries (t1 ++ t2) = (src_entries t1 ++ src_entries t2)%list)
    by apply collect_app.
  rewrite Hs. apply collect_app.
Qed.

Lemma owedLines_app (t1 t2 : list (Entry (SysEv I))) :
  owedLines (t1 ++ t2) = (owedLines t1 ++ owedLines t2)%list.
Proof. apply flat_map_app. Qed.

Lemma challengeLines_app (t1 t2 : list (Entry (SysEv I))) :
  challengeLines (t1 ++ t2) = (challengeLines t1 ++ challengeLines t2)%list.
Proof.
  unfold challengeLines.
  assert (He : entered (t1 ++ t2) = (entered t1 ++ entered t2)%list) by apply collect_app.
  rewrite He. unfold challenges. rewrite !flat_map_app. reflexivity.
Qed.

(** What a callback writes to stderr is what it owes for its challenge;
    a callback is entered before it makes a call. *)
Lemma callback_lines {X} (c : LibEv I X) {S} (h : handler (SysEv I) S) (s : S)
    (inside : bool) :
  console_lines (src_entries (trace_of h (callbacks X c) s))
    = owedLines (trace_of h (callbacks X c) s) /\
  owedLines (trace_of h (callbacks X c) s) = challengeLines (trace_of h (callbacks X c) s) /\
  inLibrary inside (trace_of h (callbacks X c) s) = true /\
  placed inside (trace_of h (callbacks X c) s)
    = map (fun en => (true, en)) (src_entries (trace_of h (callbacks X c) s)).
Proof.
  destruct c as [context | context | response | Y i]; unfold callbacks, entering;
    [ unfold beforeCacheAccess
    | unfold afterCacheAccess; destruct context as [[|]]
    | unfold deviceCodeCallback, challengeLines, callbackLines;
      destruct (message response) as [m |] eqn:Em; [destruct (String.eqb m "") eqn:Eq |]
    | ];
    repeat (exec;
            match goal with
            | |- context [h ?Y ?e ?s0] =>
                let x := fresh "x" in
                let s' := fresh "s" in
                destruct (h Y e s0) as [x s']; cbn [fst snd]; try destruct x
            end);
    exec; unfold callbackLines; rewrite ?Em; cbn; rewrite ?Eq; repeat split.
Qed.

Lemma inLibrary_app (t1 t2 : list (Entry (SysEv I))) (inside : bool) :
  inLibrary inside (t1 ++ t2) = inLibrary (inLibrary inside t1) t2.
Proof.
  revert inside. induction t1 as [| [X e x] t1 IH]; intros inside; [reflexivity |].
  cbn [app inLibrary]. apply IH.
Qed.

Lemma placed_app (t1 t2 : list (Entry (SysEv I))) (inside : bool) :
  placed inside (t1 ++ t2) = (placed inside t1 ++ placed (inLibrary inside t1) t2)%list.
Proof.
  revert inside. induction t1 as [| [X e x] t1 IH]; intros inside; [reflexivity |].
  cbn [app placed inLibrary]. rewrite IH, app_assoc. reflexivity.
Qed.

(** All the library does between being called and answering: stderr gets
    what the callbacks owe, and every call of server.js is a callback's. *)
Lemma library_lines {R} (q : Prog (LibEv I) R) {S} (h : handler (SysEv I) S) (s : S) :
  console_lines (src_entries (trace_of h (interp callbacks q) s))
    = owedLines (trace_of h (interp callbacks q) s) /\
  owedLines (trace_of h (interp callbacks q) s)
    = challengeLines (trace_of h (interp callbacks q) s).
Proof.
  apply (library_invariant
           (fun tr => console_lines (src_entries tr) = owedLines tr /\
                      owedLines tr = challengeLines tr)).
  - split; reflexivity.
  - intros t1 t2 [Hc1 Ho1] [Hc2 Ho2].
    rewrite console_lines_app, owedLines_app, challengeLines_app, Hc1, Hc2, Ho1, Ho2.
    split; reflexivity.
  - intros X c S' h' s'.
    destruct (callback_lines c h' s' false) as (Hc & Ho & _). split; assumption.
Qed.

Lemma library_placed {R} (q : Prog (LibEv I) R) {S} (h : handler (SysEv I) S) (s : S)
    (inside : bool) :
  placed inside (trace_of h (interp callbacks q) s)
    = map (fun en => (true, en)) (src_entries (trace_of h (interp callbacks q) s)).
Proof.
  revert s inside. induction q as [r | X c k IH]; intros s inside; [reflexivity |].
  cbn [interp]. rewrite trace_of_bind, placed_app.
  destruct (callback_lines c h s inside) as (_ & _ & -> & ->).
  rewrite IH.
  assert (Hs : forall t1 t2 : list (Entry (SysEv I)),
             src_entries (t1 ++ t2) = (src_entries t1 ++ src_entries t2)%list)
    by (intros; apply collect_app).
  rewrite Hs, map_app. reflexivity.
Qed.

Lemma accounted_app (t1 t2 : list (Entry (SysEv I))) :
  accounted t1 -> accounted t2 -> accounted (t1 ++ t2).
Proof.
  unfold accounted, callback_entries, body_entries.
  intros (Hin1 & Hc1 & Hb1) (Hin2 & Hc2 & Hb2).
  rewrite inLibrary_app, placed_app, Hin1, !List.filter_app, !map_app, challengeLines_app.
  split; [exact Hin2 |]. split.
  - unfold console_lines in *. rewrite collect_app, Hc1, Hc2. reflexivity.
  - unfold prompts in *. rewrite collect_app, Hb1, Hb2. reflexivity.
Qed.

Lemma inside_only (l : list (Entry Ev)) :
  map snd (List.filter fst (map (fun en => (true, en)) l)) = l /\
  List.filter (fun c : bool * Entry Ev => negb (fst c)) (map (fun en => (true, en)) l) = [].
Proof.
  induction l as [| en l [IH1 IH2]]; [split; reflexivity |].
  cbn. rewrite IH1. split; [reflexivity | exact IH2].
Qed.

Lemma link_call_accounted (lib : Library I) {X} (e : Ev X)
    {S} (h : handler (SysEv I) S) (s : S) :
  is_ordinary e = true -> accounted (trace_of h (link_call lib X e) s).
Proof.
  intros He.
  assert (Hret : forall (e' : Ev X) (q : Prog (LibEv I) X),
             accounted (trace_of h (returning e' (interp callbacks q)) s)).
  { intros e' q. destruct (returning_run h s e' (interp callbacks q)) as [-> _].
    unfold accounted, callback_entries, body_entries.
    rewrite inLibrary_app, placed_app, library_placed, challengeLines_app.
    destruct (library_lines q h s) as [Hc Ho].
    set (seg := trace_of h (interp callbacks q) s) in *. clearbody seg.
    cbn [inLibrary placed entersLibrary app]. rewrite !app_nil_r.
    split; [reflexivity |]. split.
    - rewrite (proj1 (inside_only (src_entries seg))), Hc, Ho. reflexivity.
    - rewrite (proj2 (inside_only (src_entries seg))). reflexivity. }
  assert (Hsrc : forall e' : Ev X, is_ordinary e' = true ->
             accounted (trace_of h (call (Src e')) s)).
  { intros e' He'. unfold call. rewrite trace_of_Vis, trace_of_Ret.
    unfold accounted, callback_entries, body_entries. cbn.
    split; [reflexivity |]. split; [reflexivity |].
    unfold is_ordinary in He'. apply andb_prop in He'. destruct He' as [_ He'].
    rewrite app_nil_r. destruct e'; try reflexivity.
    destruct (shown_challenges items); [reflexivity | discriminate He']. }
  destruct e; try discriminate He; cbn [link_call];
    first [apply Hret | apply Hsrc; exact He].
Qed.

Lemma linked_accounted (lib : Library I) {R} (p : Prog Ev R)
    {S} (h : handler (SysEv I) S) (s : S) :
  Always anything ordinary p -> accounted (trace_of h (linked lib p) s).
Proof.
  intros Hp. revert s. unfold linked.
  induction Hp as [r _ | X e k Hq _ IH]; intros s; [repeat split |].
  cbn [interp]. rewrite trace_of_bind.
  apply accounted_app; [apply link_call_accounted; exact Hq | apply IH].
Qed.

End Lines.

#[local] Arguments console_lines : simpl never.
#[local] Arguments src_entries : simpl never.
#[local] Arguments owedLines : simpl never.

Section Provider.
Context `{Builtins} `{Config} {I : Type -> Type}.

(** Stderr of a linked token request, line by line. *)
Lemma linked_getAccessToken_lines (lib : Library I) {S} (h : handler (SysEv I) S) (s : S) :
  console_lines (src_entries (trace_of h (linked lib getAccessToken) s))
    = owedLines (trace_of h (linked lib getAccessToken) s).
Proof.
  assert (Hseg : forall R (q : Prog (LibEv I) R) s1,
             console_lines (src_entries (trace_of h (interp callbacks q) s1))
               = owedLines (trace_of h (interp callbacks q) s1)).
  { intros R q s1. apply (library_lines q h s1). }
  assert (Hret : forall X (e : Ev X) (q : Prog (LibEv I) X) s1 (tail : list (Entry (SysEv I))),
             console_lines (src_entries tail)
               = (failureLines [entry e (result_of h (interp callbacks q) s1)]
                    ++ owedLines tail)%list ->
             console_lines (src_entries
                              (trace_of h (returning e (interp callbacks q)) s1 ++ tail))
               = owedLines (trace_of h (returning e (interp callbacks q)) s1 ++ tail)).
  { intros X e q s1 tail Htail.
    destruct (returning_run h s1 e (interp callbacks q)) as [-> _].
    assert (Hmark : forall a : Entry Ev,
               console_lines (src_entries [entry (Mark (I := I) (Returns a)) tt]) = [])
      by reflexivity.
    assert (Howed : forall a : Entry Ev,
               owedLines [entry (Mark (I := I) (Returns a)) tt] = failureLines [a])
      by (intros a; unfold owedLines; cbn [flat_map]; apply app_nil_r).
    rewrite !console_lines_app, !owedLines_app, Hseg, Htail, Hmark, Howed, <- !app_assoc.
    reflexivity. }
  assert (Hdev : forall s1,
    console_lines (src_entries (trace_of h (interp (link_call lib) deviceCodeFlow) s1))
      = owedLines (trace_of h (interp (link_call lib) deviceCodeFlow) s1)).
  { intros s1. unfold deviceCodeFlow. cbn. rewrite trace_of_bind. apply Hret.
    destruct (returning_run h s1 (PcaAcquireTokenByDeviceCode SCOPES)
                (interp callbacks (lib_acquireTokenByDeviceCode lib SCOPES))) as [_ ->].
    destruct (result_of h (interp callbacks (lib_acquireTokenByDeviceCode lib SCOPES)) s1)
      as [[r |] | e]; exec; try (ask h; destruct x); reflexivity. }
  unfold linked, getAccessToken. cbn. rewrite trace_of_bind. apply Hret.
  destruct (returning_run h s PcaGetAllAccounts (interp callbacks (lib_getAllAccounts lib)))
    as [_ ->].
  set (sa := state_of h (returning PcaGetAllAccounts _) s). clearbody sa.
  destruct (result_of h (interp callbacks (lib_getAllAccounts lib)) s) as [accounts | e];
    [| exec; reflexivity].
  destruct accounts as [| a rest]; unfold trySilent; cbn; [apply Hdev |].
  rewrite trace_of_bind. apply Hret.
  destruct (returning_run h sa (PcaAcquireTokenSilent a SCOPES)
              (interp callbacks (lib_acquireTokenSilent lib a SCOPES))) as [_ ->].
  set (ss := state_of h (returning _ _) sa). clearbody ss.
  destruct (result_of h (interp callbacks (lib_acquireTokenSilent lib a SCOPES)) sa)
    as [res | e]; [exec; reflexivity |].
  exec. ask h. destruct x.
  match goal with
  | |- context [src_entries (?en :: ?tr)] =>
      change (en :: tr) with ([en] ++ tr)%list
  end.
  rewrite console_lines_app, owedLines_app, Hdev. reflexivity.
Qed.
End Provider.
End StderrFacts.

(** * More facts about the Graph client and the dispatcher *)

Module ToolFacts.
Import Channels.

Section Requests.
Context `{Builtins} `{Config}.

Lemma fetch_calls_after_token {S} (h : handler Ev S) (s : S) (tr : list (Entry Ev)) :
  fetch_calls (trace_of h getAccessToken s ++ tr) = fetch_calls tr.
Proof.
  unfold fetch_calls. rewrite collect_app. fold fetch_calls.
  destruct (token_trace_quiet h s) as (-> & _). reflexivity.
Qed.

Lemma timeouts_after_token {S} (h : handler Ev S) (s : S) (tr : list (Entry Ev)) :
  timeouts (trace_of h getAccessToken s ++ tr) = timeouts tr.
Proof.
  unfold timeouts. rewrite collect_app. fold timeouts.
  destruct (token_trace_quiet h s) as (_ & -> & _). reflexivity.
Qed.

Lemma token_queries_once {S} (h : handler Ev S) (s : S) :
  length (account_queries (trace_of h getAccessToken s)) = 1%nat.
Proof.
  destruct (getAccessToken_runs h s) as [e | a rest res | d | a rest e d];
    try destruct d as [[r |] | e']; reflexivity.
Qed.

(** The requests of one [graphRequest]: none without a token, else the
    same request once or twice, the result made of the last answer. *)
Lemma graphRequest_fetches {S} (h : handler Ev S) (s : S) endpoint method body :
  (fetch_calls (trace_of h (graphRequest endpoint method body) s) = [] /\
   timeouts (trace_of h (graphRequest endpoint method body) s) = [] /\
   exists e, result_of h getAccessToken s = Throw e /\
             result_of h (graphRequest endpoint method body) s = Throw e) \/
  (exists token f,
     result_of h getAccessToken s = Ok token /\
     result_of h (graphRequest endpoint method body) s
       = match f with
         | Ok response => graphResult response
         | Throw e => Throw e
         end /\
     let url := GRAPH_ENDPOINT ++ endpoint in
     let options := graphOptions token method body in
     ((fetch_calls (trace_of h (graphRequest endpoint method body) s) = [(url, options, f)] /\
       timeouts (trace_of h (graphRequest endpoint method body) s) = [] /\
       forall r, f = Ok r -> status r <> 429) \/
      (exists r1,
         status r1 = 429 /\
         fetch_calls (trace_of h (graphRequest endpoint method body) s)
           = [(url, options, Ok r1); (url, options, f)] /\
         timeouts (trace_of h (graphRequest endpoint method body) s) = [throttleDelay r1]))).
Proof.
  destruct (result_of h getAccessToken s) as [token | e] eqn:Htok.
  - right. destruct (graphRequest_after_token h s endpoint method body token Htok)
      as (tr2 & f & Hf & Htr & Hres).
    exists token, f. split; [reflexivity |]. split; [exact Hres |].
    rewrite Htr, fetch_calls_after_token, timeouts_after_token.
    destruct Hf as [e | r Hr | r1 f2 Hr]; cbn.
    + left. repeat split. intros r [=].
    + left. repeat split. intros r' [= <-]. exact Hr.
    + right. exists r1. repeat split. exact Hr.
  - left. destruct (graphRequest_without_token h s endpoint method body e Htok) as [Hr ->].
    destruct (token_trace_quiet h s) as (-> & -> & _).
    repeat split. exists e. split; [reflexivity | exact Hr].
Qed.

(** The requests of one tool call: none, or the request of [toolFetch] for
    the token obtained, once, or twice after a 429. *)
Lemma dispatch_fetches {S} (h : handler Ev S) (s : S) (request : CallToolRequest) :
  fetch_calls (trace_of h (dispatch request) s) = [] \/
  exists token url options f,
    result_of h getAccessToken s = Ok token /\
    toolFetch token (name request) (default [] (arguments request)) = Some (url, options) /\
    (fetch_calls (trace_of h (dispatch request) s) = [(url, options, f)] \/
     exists r1, status r1 = 429 /\
       fetch_calls (trace_of h (dispatch request) s)
         = [(url, options, Ok r1); (url, options, f)]).
Proof.
  destruct (in_dec string_dec (name request) toolNames) as [Hin | Hout].
  2:{ left. destruct (dispatch_unknown h s request Hout) as [-> _]. reflexivity. }
  destruct (string_dec (name request) "create_page") as [Hn | Hn].
  - destruct (arguments request) as [fields |] eqn:Ha; cbn [default].
    + pose proof (dispatch_create_page h s request fields Hn Ha) as Hd.
      destruct (result_of h getAccessToken s) as [token | e];
        [| destruct Hd as [-> _]; left; apply (token_trace_quiet h s)].
      destruct (ToString (lookup_field "sectionId" fields)) as [section |] eqn:Es;
        [| destruct Hd as [-> _]; left; apply (token_trace_quiet h s)].
      destruct (ToString (lookup_field "htmlContent" fields)) as [html |] eqn:Eh;
        [| destruct Hd as [-> _]; left; apply (token_trace_quiet h s)].
      destruct Hd as (f & -> & _). right.
      exists token. eexists _, _, f. split; [reflexivity |].
      split; [rewrite Hn; unfold toolFetch; cbn; rewrite Es, Eh; reflexivity |].
      left. rewrite fetch_calls_after_token. reflexivity.
    + left. assert (Hne : name request <> "list_notebooks") by (rewrite Hn; discriminate).
      destruct (dispatch_without_arguments h s request Ha Hne) as [-> _]. reflexivity.
  - destruct (dispatch_served h s request Hin Hn)
      as [[-> _] | (fields & ep & m & b & Hc & Hargs & -> & _)]; [left; reflexivity |].
    assert (Hdef : graphCall (name request) (default [] (arguments request))
                   = Some (ep, m, b)).
    { destruct Hargs as [-> | E]; [exact Hc |].
      rewrite E in Hc |- *. exact Hc. }
    destruct (graphRequest_fetches h s ep m b)
      as [(Hnone & _) | (token & f & Htok & _ & Hcases)]; [left; exact Hnone |].
    right. exists token, (GRAPH_ENDPOINT ++ ep), (graphOptions token m b), f.
    split; [exact Htok |]. split; [unfold toolFetch; rewrite Hdef; reflexivity |].
    destruct Hcases as [(Hone & _) | (r1 & Hs & Htwo & _)];
      [left; exact Hone | right; exists r1; split; assumption].
Qed.

(** Where the request of a tool goes and what it carries. *)
Lemma toolFetch_target (token tool : string) (fields : list (string * JsValue))
    (url : string) (options : RequestInit) :
  toolFetch token tool fields = Some (url, options) ->
  (exists suffix, url = GRAPH_ENDPOINT ++ "/me/onenote/" ++ suffix) /\
  (exists contentType,
     headers options = [("Authorization", "Bearer " ++ token); ("Content-Type", contentType)]) /\
  (In tool ["list_notebooks"; "list_sections"; "list_pages"; "read_content"] ->
     method options = "GET" /\ body options = None) /\
  (In tool ["create_notebook"; "create_section"; "create_page"] ->
     method options = "POST").
Proof.
  unfold toolFetch, graphCall. intros Hf.
  repeat match type of Hf with
  | context [String.eqb tool ?t] =>
      let E := fresh "E" in
      destruct (String.eqb tool t) eqn:E;
      [ apply String.eqb_eq in E; subst tool;
        repeat match type of Hf with
        | context [ToString ?v] => destruct (ToString v); try discriminate Hf
        end;
        injection Hf as <- <-;
        (split; [eexists; reflexivity |]); (split; [eexists; reflexivity |]);
        split; intros Hin; cbn in Hin;
        repeat (destruct Hin as [Hin | Hin]; [try discriminate Hin |]);
        try destruct Hin; try (split; reflexivity); reflexivity
      | ]
  end.
  discriminate Hf.
Qed.
End Requests.
End ToolFacts.

Module DispatchFacts.
Import Channels ToolFacts.

Section Dispatch.
Context `{Builtins} `{Config}.

(** An advertised tool either starts by asking for the accounts or stops
    on the destructuring of a missing arguments object. *)
Lemma dispatch_starts (request : CallToolRequest) :
  In (name request) toolNames ->
  (exists k, dispatch request = Vis PcaGetAllAccounts k) \/
  (exists key, dispatch request = throw (new_TypeError key)).
Proof.
  intros Hin. destruct request as [n args]. cbn in Hin.
  destruct Hin as [<- | [<- | [<- | [<- | [<- | [<- | [<- | []]]]]]]];
    destruct args as [fields |];
    unfold dispatch, destructure, interpolate, graphRequest, getAccessToken; cbn;
    repeat match goal with
    | |- context [ToString ?v] => destruct (ToString v); cbn
    end;
    first [ left; eexists; reflexivity | right; eexists; reflexivity ].
Qed.

(** The last answer of the network decides what [graphRequest] returns. *)
Lemma graphRequest_last_answer {S} (h : handler Ev S) (s : S) endpoint method body
    (url : string) (options : RequestInit) (f : Res Response) :
  last (fetch_calls (trace_of h (graphRequest endpoint method body) s))
    = Some (url, options, f) ->
  result_of h (graphRequest endpoint method body) s
    = match f with
      | Ok response => graphResult response
      | Throw e => Throw e
      end.
Proof.
  destruct (graphRequest_fetches h s endpoint method body)
    as [(-> & _) | (token & f' & _ & -> & Hcases)]; [intros [=] |].
  cbv zeta in Hcases. destruct Hcases as [(-> & _) | (r1 & _ & -> & _)];
    intros [= _ _ <-]; reflexivity.
Qed.

Lemma callTool_result_of_dispatch {S} (h : handler Ev S) (s : S) (request : CallToolRequest)
    (v : CallToolResult) :
  result_of h (dispatch request) s = Ok v -> result_of h (callTool request) s = Ok v.
Proof. intros Hd. destruct (callTool_run h s request) as [_ ->]. rewrite Hd. reflexivity. Qed.
End Dispatch.
End DispatchFacts.

(** * Facts about test.js *)

Module ClientFacts.
Import TestClient.

Lemma split_nonempty (s : string) : exists p ps, split s = p :: ps.
Proof.
  induction s as [| c rest IH]; [exists EmptyString, []; reflexivity |].
  cbn [split]. destruct (Ascii.eqb c LF); [eexists _, _; reflexivity |].
  destruct IH as (p & ps & ->). eexists _, _. reflexivity.
Qed.

(** No piece of a split contains a line feed: it splits to itself. *)
Lemma split_pieces (s : string) : Forall (fun p => split p = [p]) (split s).
Proof.
  induction s as [| c rest IH]; [repeat constructor |].
  cbn [split]. destruct (Ascii.eqb c LF) eqn:E; [constructor; [reflexivity | exact IH] |].
  destruct (split rest) as [| p ps]; [repeat constructor; cbn [split]; rewrite E; reflexivity |].
  inversion IH as [| p' ps' Hp Hps]; subst. constructor; [| exact Hps].
  cbn [split]. rewrite E, Hp. reflexivity.
Qed.

Lemma join_split (s : string) : join (split s) = s.
Proof.
  induction s as [| c rest IH]; [reflexivity |].
  cbn [split]. destruct (Ascii.eqb c LF) eqn:E.
  - apply Ascii.eqb_eq in E. subst c.
    destruct (split_nonempty rest) as (p & ps & Hs). rewrite Hs in IH |- *.
    cbn [join]. cbn [join] in IH. rewrite IH. reflexivity.
  - destruct (split_nonempty rest) as (p & ps & Hs). rewrite Hs in IH |- *.
    cbn [join] in IH |- *. destruct ps as [| p' ps'].
    + rewrite IH. reflexivity.
    + rewrite <- IH. reflexivity.
Qed.

(** Splitting a concatenation: the last piece of the left part is glued
    to the first piece of the right part. *)
Lemma split_app (a b : string) :
  split (a ++ b) =
    (List.removelast (split a) ++
     match split b with
     | p :: ps => (List.last (split a) EmptyString ++ p)%string :: ps
     | [] => []
     end)%list.
Proof.
  induction a as [| c a IH].
  - change (EmptyString ++ b) with b. cbn. destruct (split b); reflexivity.
  - change (String c a ++ b) with (String c (a ++ b)). cbn [split].
    destruct (split_nonempty a) as (p & ps & Ha). rewrite Ha in IH |- *.
    destruct (split_nonempty b) as (q & qs & Hb). rewrite Hb in IH |- *.
    destruct (Ascii.eqb c LF).
    + rewrite IH. reflexivity.
    + rewrite IH. destruct ps as [| p' ps']; reflexivity.
Qed.

Lemma removelast_snoc (l : list string) (x : string) (xs : list string) :
  List.removelast (l ++ x :: xs) = (l ++ List.removelast (x :: xs))%list.
Proof. apply removelast_app. discriminate. Qed.

Lemma last_snoc (l : list string) (x : string) (xs : list string) :
  List.last (l ++ x :: xs) EmptyString = List.last (x :: xs) EmptyString.
Proof.
  induction l as [| y l IH]; [reflexivity |].
  cbn [app]. destruct (l ++ x :: xs)%list eqn:E; [destruct l; discriminate E |].
  cbn [List.last]. exact IH.
Qed.

Section Client.
Context `{Builtins}.
Variable blank : string -> bool.

(** The lines handled and the buffer kept for [buffer] and [chunk]. *)
Lemma onData_lines (buffer chunk : string) :
  exists lines buffer',
    split (buffer ++ chunk) = (lines ++ [buffer'])%list /\
    onData blank buffer chunk =
      bind (processLines blank lines) (fun o =>
        match o with
        | Running => Ret (Some buffer')
        | Exited => Ret None
        end).
Proof.
  unfold onData. destruct (split_nonempty (buffer ++ chunk)) as (p & ps & Hs).
  exists (List.removelast (split (buffer ++ chunk))),
         (List.last (split (buffer ++ chunk)) EmptyString).
  split; [| reflexivity]. apply app_removelast_last. rewrite Hs. discriminate.
Qed.

Section Runs.
Context {S : Type} (h : handler Ev S).

Lemma run_processLines_app (l1 l2 : list string) (s : S) :
  run h (processLines blank (l1 ++ l2)) s =
  run h (bind (processLines blank l1) (fun o =>
           match o with
           | Running => processLines blank l2
           | Exited => Ret Exited
           end)) s.
Proof.
  revert s. induction l1 as [| line rest IH]; intros s; [reflexivity |].
  cbn [app processLines]. destruct (blank line); [apply IH |].
  rewrite !run_bind. destruct (run h (onMessage line) s) as [[o s1] t1].
  destruct o; [| cbn [run]; rewrite !app_nil_r; reflexivity].
  rewrite IH, !run_bind. destruct (run h (processLines blank rest) s1) as [[o2 s2] t2].
  destruct (run h match o2 with
                  | Running => processLines blank l2
                  | Exited => Ret Exited
                  end s2) as [[o3 s3] t3].
  rewrite app_assoc. reflexivity.
Qed.

(** Two chunks in a row are handled as their concatenation. *)
Lemma run_onData_twice (buffer c1 c2 : string) (s : S) :
  run h (bind (onData blank buffer c1) (fun r =>
           match r with
           | Some buffer' => onData blank buffer' c2
           | None => Ret None
           end)) s =
  run h (onData blank buffer (c1 ++ c2)) s.
Proof.
  unfold onData at 3. rewrite <- TextFacts.append_assoc, split_app.
  destruct (split_nonempty c2) as (q & qs & Hc2). rewrite Hc2.
  rewrite removelast_snoc, last_snoc.
  set (l1 := List.removelast (split (buffer ++ c1))).
  set (b1 := List.last (split (buffer ++ c1)) EmptyString).
  assert (Hb1 : split b1 = [b1]).
  { pose proof (split_pieces (buffer ++ c1)) as Hall.
    destruct (split_nonempty (buffer ++ c1)) as (p & ps & Hs).
    assert (Hin : In b1 (split (buffer ++ c1))).
    { unfold b1. rewrite Hs.
      rewrite (app_removelast_last EmptyString (l := p :: ps)) at 2 by discriminate.
      apply in_or_app. right. left. reflexivity. }
    rewrite List.Forall_forall in Hall. apply Hall. exact Hin. }
  assert (Hnext : onData blank b1 c2 =
            bind (processLines blank (List.removelast ((b1 ++ q) :: qs))) (fun o =>
              match o with
              | Running => Ret (Some (List.last ((b1 ++ q) :: qs) EmptyString))
              | Exited => Ret None
              end)).
  { unfold onData. rewrite split_app, Hb1, Hc2. reflexivity. }
  rewrite !run_bind, run_processLines_app, run_bind.
  unfold onData at 1. fold l1 b1. rewrite run_bind.
  destruct (run h (processLines blank l1) s) as [[o s1] t1].
  destruct o; cbn [run].
  - rewrite Hnext, run_bind.
    destruct (run h (processLines blank _) s1) as [[o2 s2] t2].
    destruct o2; cbn [run]; rewrite ?app_nil_r; reflexivity.
  - reflexivity.
Qed.
End Runs.
End Client.
End ClientFacts.

(** * Further properties of server.js *)

Import Channels ShapeFacts LinkFacts StderrFacts ToolFacts DispatchFacts.

(** X1.  Whatever the environment answers, one token request queries the
    accounts exactly once, attempts silent renewal at most once and the
    device code flow at most once, always for the four configured scopes,
    and makes no [fetch], timer, [fs] or token cache call of its own. *)
Theorem provider_call_budget `{Builtins} `{Config} {S} (h : handler Ev S) (s : S) :
  length (account_queries (trace_of h getAccessToken s)) = 1%nat /\
  (length (silent_calls (trace_of h getAccessToken s)) <= 1)%nat /\
  (length (device_calls (trace_of h getAccessToken s)) <= 1)%nat /\
  (forall a sc r, In (a, sc, r) (silent_calls (trace_of h getAccessToken s)) -> sc = SCOPES) /\
  (forall sc r, In (sc, r) (device_calls (trace_of h getAccessToken s)) -> sc = SCOPES) /\
  fetch_calls (trace_of h getAccessToken s) = [] /\
  timeouts (trace_of h getAccessToken s) = [] /\
  store_calls (trace_of h getAccessToken s) = [].
Proof.
  pose proof (getAccessToken_runs h s) as Hr.
  destruct (TokenRun_quiet _ _ Hr) as (Hf & Ht & Hs).
  repeat (split; [| first [exact Hf | exact Ht | exact Hs | idtac]]);
    try first [exact Hf | exact Ht | exact Hs];
    destruct Hr as [e | a rest res | d | a rest e d];
    try destruct d as [[r |] | e'];
    cbn; try lia; intros; repeat match goal with
    | Hin : _ \/ _ |- _ => destruct Hin
    | Hin : (_, _) = (_, _) |- _ => injection Hin as <-; subst
    | Hin : False |- _ => destruct Hin
    end; reflexivity.
Qed.

(** X2.  A token that [getAccessToken] returns is the [accessToken] of an
    answer the library gave in this very request: of the one successful
    silent renewal, no device code flow being started, or else of the one
    successful device code flow, every silent renewal before it having
    failed. *)
Theorem token_comes_from_the_library `{Builtins} `{Config}
    {S} (h : handler Ev S) (s : S) (token : string) :
  result_of h getAccessToken s = Ok token ->
  (exists a res,
     silent_calls (trace_of h getAccessToken s) = [(a, SCOPES, Ok res)] /\
     device_calls (trace_of h getAccessToken s) = [] /\
     token = accessToken res) \/
  (exists r,
     device_calls (trace_of h getAccessToken s) = [(SCOPES, Ok (Some r))] /\
     token = accessToken r /\
     forall c, In c (silent_calls (trace_of h getAccessToken s)) -> exists e, snd c = Throw e).
Proof.
  intros Hres. pose proof (getAccessToken_runs h s) as Hr. rewrite Hres in Hr.
  inversion Hr as [e | a rest res | d Htr Hd | a rest e d Htr Hd].
  - left. exists a, res. repeat split.
  - right. destruct d as [[r |] | e]; try discriminate Hd. injection Hd as <-.
    exists r. split; [reflexivity |]. split; [reflexivity |]. intros c [].
  - right. destruct d as [[r |] | e']; try discriminate Hd. injection Hd as <-.
    exists r. split; [reflexivity |]. split; [reflexivity |].
    intros c [<- | []]. exists e. reflexivity.
Qed.


(** X4.  Loading the cache only reads: [beforeCacheAccess] never writes a
    file and never serializes.  It asks once whether [TOKEN_CACHE_PATH]
    exists; when it does not, that is its only call and it succeeds; when
    it does, that file is read once, a read failure is the result without
    anything being deserialized, and otherwise exactly what was read is
    handed to [deserialize], whose outcome is the result. *)
Theorem load_only_reads_the_store `{Builtins} `{Config}
    {S} (h : handler Ev S) (s : S) (context : TokenCacheContext) :
  store_writes (trace_of h (beforeCacheAccess context) s) = [] /\
  serializations (trace_of h (beforeCacheAccess context) s) = [] /\
  exists present : bool,
    store_probes (trace_of h (beforeCacheAccess context) s) = [(TOKEN_CACHE_PATH, present)] /\
    if present then
      exists r,
        store_reads (trace_of h (beforeCacheAccess context) s) = [(TOKEN_CACHE_PATH, r)] /\
        match r with
        | Ok data =>
            exists d,
              deserializations (trace_of h (beforeCacheAccess context) s) = [(data, d)] /\
              result_of h (beforeCacheAccess context) s = d
        | Throw e =>
            deserializations (trace_of h (beforeCacheAccess context) s) = [] /\
            result_of h (beforeCacheAccess context) s = Throw e
        end
    else
      trace_of h (beforeCacheAccess context) s = [entry (FsExistsSync TOKEN_CACHE_PATH) false] /\
      result_of h (beforeCacheAccess context) s = Ok tt.
Proof.
  unfold beforeCacheAccess. exec. ask h.
  destruct x; exec.
  - ask h. destruct x as [data | e]; exec.
    + ask h. split; [reflexivity |]. split; [reflexivity |].
      exists true. split; [reflexivity |]. exists (Ok data). split; [reflexivity |].
      exists x. split; reflexivity.
    + split; [reflexivity |]. split; [reflexivity |].
      exists true. split; [reflexivity |]. exists (Throw e). repeat split.
  - split; [reflexivity |]. split; [reflexivity |].
    exists false. repeat split.
Qed.

(** X5.  Whatever token library server.js is linked with and whatever tool
    is called, the calls server.js itself makes on the file system keep the
    store discipline: every [fs] call names [TOKEN_CACHE_PATH], and the
    file is written once for each [afterCacheAccess] that reports a
    changed cache, never otherwise. *)
Theorem tool_calls_touch_only_the_token_store `{Builtins} `{Config} {I : Type -> Type}
    (lib : Library I) {S} (h : handler (SysEv I) S) (s : S) (request : CallToolRequest) :
  writeThrough (trace_of h (linked lib (callTool request)) s) /\
  onlyTheStore (trace_of h (linked lib (callTool request)) s).
Proof.
  assert (Hp : Always (E := Ev) anything ordinary (callTool request)).
  { apply (Always_weaken (fun r => exists v, r = Ok v /\ oneText v)); [easy |].
    apply callTool_shape. }
  destruct (linked_discipline lib (callTool request) h s Hp) as (Hw & Ho & _).
  split; assumption.
Qed.


(** X7.  When the first answer to a [graphRequest] is not a 429 (the call
    is rejected, or the status is another one), that answer is final: one
    [fetch] only, no timer.  A rejection is passed on unchanged; a status
    outside 2xx becomes an [Error] whose message starts with the status
    line; a 2xx answer whose content type contains application/json yields
    what [JSON.parse] makes of the body, be it a failure, and any other 2xx
    answer yields the body as text. *)
Theorem first_answer_other_than_429_is_final `{Builtins} `{Config}
    {S} (h : handler Ev S) (s : S)
    (endpoint method : string) (body : JsValue)
    (url : string) (options : RequestInit) (f : Res Response)
    (rest : list (string * RequestInit * Res Response)) :
  fetch_calls (trace_of h (graphRequest endpoint method body) s) = (url, options, f) :: rest ->
  (forall r, f = Ok r -> status r <> 429) ->
  rest = [] /\
  timeouts (trace_of h (graphRequest endpoint method body) s) = [] /\
  match f with
  | Throw e => result_of h (graphRequest endpoint method body) s = Throw e
  | Ok r =>
      if ok r then
        result_of h (graphRequest endpoint method body) s =
          match headers_get r "content-type" with
          | Some contentType =>
              if includes "application/json" contentType
              then JSON_parse (body_text r)
              else Ok (JString (body_text r))
          | None => Ok (JString (body_text r))
          end
      else
        exists detail,
          result_of h (graphRequest endpoint method body) s =
            Throw (new_Error ("Graph API Error: " ++ number_to_string (number_of_Z (status r))
                                ++ " " ++ statusText r ++ detail))
  end.
Proof.
  intros Hfc Hnot.
  destruct (graphRequest_fetches h s endpoint method body)
    as [(Hnone & _) | (token & f' & _ & Hres & Hcases)].
  { rewrite Hnone in Hfc. discriminate Hfc. }
  cbv zeta in Hcases. destruct Hcases as [(Hone & Ht & _) | (r1 & Hs & Htwo & _)].
  2:{ rewrite Htwo in Hfc. injection Hfc as _ _ <- _.
      exfalso. apply (Hnot r1 eq_refl). exact Hs. }
  rewrite Hone in Hfc. injection Hfc as _ _ -> <-.
  split; [reflexivity |]. split; [exact Ht |]. rewrite Hres.
  destruct f as [r | e]; [| reflexivity].
  unfold graphResult. destruct (ok r); cbn [negb].
  - destruct (headers_get r "content-type") as [ct |]; [| reflexivity].
    destruct (String.eqb ct "") eqn:E; cbn [negb andb]; [| reflexivity].
    apply String.eqb_eq in E. subst ct. reflexivity.
  - destruct (graphErrorMessage_carries r) as [[detail Hd] _].
    exists detail. rewrite Hd.
    rewrite !TextFacts.append_assoc. reflexivity.
Qed.

(** X8.  The CallTool handler never rejects: whatever happens inside its
    [try], it resolves to a result with exactly one content item of type
    text.  The result is flagged [isError] exactly when the [switch] threw,
    and then it is the error result built from the thrown error, after one
    line on stderr. *)
Theorem tool_call_always_resolves `{Builtins} `{Config}
    {S} (h : handler Ev S) (s : S) (request : CallToolRequest) :
  exists v,
    result_of h (callTool request) s = Ok v /\
    oneText v /\
    (isError v = true <-> exists e, result_of h (dispatch request) s = Throw e) /\
    (forall e, result_of h (dispatch request) s = Throw e ->
       v = errorResult e /\
       exists before, trace_of h (callTool request) s = (before ++ [toolErrorLog e])%list).
Proof.
  destruct (callTool_run h s request) as [Htr Hres].
  destruct (Always_run _ _ _ h s (dispatch_shape request)) as [Hplain _].
  rewrite Hres, Htr. clear Hres Htr.
  destruct (result_of h (dispatch request) s) as [r | e].
  - destruct (Hplain r eq_refl) as [Hflag Hone].
    exists r. split; [reflexivity |]. split; [exact Hone |]. split.
    + rewrite Hflag. split; [discriminate | intros [e He]; discriminate He].
    + intros e He. discriminate He.
  - exists (errorResult e). split; [reflexivity |]. split; [eexists; reflexivity |]. split.
    + split; [intros _; exists e; reflexivity | reflexivity].
    + intros e' [= <-]. split; [reflexivity |]. eexists. reflexivity.
Qed.

(** X9.  The names the ListTools handler advertises are exactly the names
    the CallTool handler serves: a call is turned down as an unknown tool,
    before any call is made, if and only if its name is not among the
    advertised ones. *)
Theorem advertised_tools_are_the_served_ones `{Builtins} `{Config}
    {S} (h : handler Ev S) (s : S) (request : CallToolRequest) :
  ~ In (name request) (map Registry.name Registry.tools) <->
  trace_of h (dispatch request) s = [] /\
  result_of h (dispatch request) s =
    Throw (new_McpError ErrorCode_MethodNotFound ("Unknown tool: " ++ name request)).
Proof.
  change (map Registry.name Registry.tools) with toolNames. split.
  - apply dispatch_unknown.
  - intros [Htr Hres] Hin.
    destruct (dispatch_starts request Hin) as [[k Hk] | [key Hk]]; rewrite Hk in Htr, Hres.
    + rewrite trace_of_Vis in Htr. discriminate Htr.
    + unfold throw in Hres. rewrite result_of_Ret in Hres. discriminate Hres.
Qed.

(** X10.  A tool reads nothing of its arguments object but the properties
    its advertised schema declares: two calls of an advertised tool whose
    argument objects agree on the declared properties are the same
    program, so they make the same calls and give the same result in every
    environment. *)
Theorem undeclared_arguments_are_ignored `{Builtins} `{Config}
    (tool : Registry.Tool) (fields1 fields2 : list (string * JsValue)) :
  In tool Registry.tools ->
  (forall k, In k (map Registry.key (Registry.properties (Registry.inputSchema tool))) ->
             lookup_field k fields1 = lookup_field k fields2) ->
  callTool {| name := Registry.name tool; arguments := Some fields1 |}
    = callTool {| name := Registry.name tool; arguments := Some fields2 |}.
Proof.
  intros Hin Hagree. cbn in Hin.
  repeat (destruct Hin as [<- | Hin];
          [ cbn in Hagree; unfold callTool, dispatch, destructure; cbn;
            repeat match goal with
            | |- context [lookup_field ?k fields1] =>
                rewrite (Hagree k) by (cbn; tauto)
            end; reflexivity |]).
  destruct Hin.
Qed.

(** X11.  A call without an arguments object never reaches the token
    library or the network, except for list_notebooks, which reads no
    argument and proceeds as with an empty object.  For every other
    advertised tool the call ends at once in an error result carrying the
    [TypeError] of destructuring the first property the tool's schema
    requires, after the one line on stderr. *)
Theorem call_without_arguments_object `{Builtins} `{Config}
    {S} (h : handler Ev S) (s : S) (request : CallToolRequest) (tool : Registry.Tool) :
  In tool Registry.tools ->
  Registry.name tool = name request ->
  arguments request = None ->
  match Registry.required (Registry.inputSchema tool) with
  | [] =>
      callTool request = callTool {| name := name request; arguments := Some [] |}
  | k :: _ =>
      trace_of h (callTool request) s = [toolErrorLog (new_TypeError k)] /\
      result_of h (callTool request) s = Ok (errorResult (new_TypeError k))
  end.
Proof.
  intros Hin Hname Hargs. destruct request as [n args]. cbn in Hname, Hargs. subst n args.
  cbn in Hin.
  repeat (destruct Hin as [<- | Hin];
          [ cbn; first [ reflexivity
                       | unfold callTool, dispatch, destructure; exec; ask h;
                         destruct x; split; reflexivity ] |]).
  destruct Hin.
Qed.

(** X12.  Every request a tool call sends goes to the OneNote part of the
    Graph API, under [GRAPH_ENDPOINT]/me/onenote/, and carries as
    [Authorization] the bearer token this call's own token request
    returned; nothing is sent when that request failed.  A tool call sends
    at most two requests, the second one only to repeat the first, and
    asks for the accounts at most once. *)
Theorem tool_requests_are_authorized_onenote_calls `{Builtins} `{Config}
    {S} (h : handler Ev S) (s : S) (request : CallToolRequest) :
  (length (fetch_calls (trace_of h (callTool request) s)) <= 2)%nat /\
  (length (account_queries (trace_of h (callTool request) s)) <= 1)%nat /\
  (forall c1 c2, In c1 (fetch_calls (trace_of h (callTool request) s)) ->
                 In c2 (fetch_calls (trace_of h (callTool request) s)) ->
                 fst c1 = fst c2) /\
  forall url options f,
    In (url, options, f) (fetch_calls (trace_of h (callTool request) s)) ->
    exists token suffix contentType,
      result_of h getAccessToken s = Ok token /\
      url = GRAPH_ENDPOINT ++ "/me/onenote/" ++ suffix /\
      headers options = [("Authorization", "Bearer " ++ token); ("Content-Type", contentType)].
Proof.
  destruct (callTool_calls h s request) as (-> & _ & ->).
  split; [| split; [| split]].
  - destruct (dispatch_fetches h s request)
      as [-> | (token & url & options & f & _ & _ & [-> | (r1 & _ & ->)])]; cbn; lia.
  - destruct (dispatch_token_first h s request) as [[-> _] | (rest & -> & Hrest & _)];
      [cbn; lia |].
    unfold account_queries. rewrite collect_app. fold account_queries.
    rewrite Hrest, app_nil_r.
    rewrite token_queries_once. lia.
  - intros c1 c2.
    destruct (dispatch_fetches h s request)
      as [-> | (token & url & options & f & _ & _ & [-> | (r1 & _ & ->)])]; cbn;
      intros Hc1 Hc2;
      repeat match goal with
      | Hin : _ \/ _ |- _ => destruct Hin as [<- | Hin]
      | Hin : False |- _ => destruct Hin
      end; reflexivity.
  - intros url options f.
    destruct (dispatch_fetches h s request)
      as [-> | (token & url' & options' & f' & Htok & Hfetch & Hcases)]; [intros [] |].
    destruct (toolFetch_target _ _ _ _ _ Hfetch) as ([suffix Hu] & [ct Hh] & _).
    intros Hin. exists token, suffix, ct. split; [exact Htok |].
    destruct Hcases as [Hc | (r1 & _ & Hc)]; rewrite Hc in Hin; cbn in Hin;
      repeat match goal with
      | Hin : _ \/ _ |- _ => destruct Hin as [Hin | Hin]
      | Hin : False |- _ => destruct Hin
      | Hin : (_, _) = (_, _) |- _ => injection Hin as <- <- <-
      end; split; assumption.
Qed.

(** X13.  The four reading tools are read-only towards the Graph API:
    every request they send is a GET without a body.  Every request of the
    three creating tools is a POST. *)
Theorem reading_tools_only_send_get `{Builtins} `{Config}
    {S} (h : handler Ev S) (s : S) (request : CallToolRequest)
    (url : string) (options : RequestInit) (f : Res Response) :
  In (url, options, f) (fetch_calls (trace_of h (callTool request) s)) ->
  (In (name request) ["list_notebooks"; "list_sections"; "list_pages"; "read_content"] ->
     method options = "GET" /\ body options = None) /\
  (In (name request) ["create_notebook"; "create_section"; "create_page"] ->
     method options = "POST").
Proof.
  destruct (callTool_calls h s request) as (-> & _).
  destruct (dispatch_fetches h s request)
    as [-> | (token & url' & options' & f' & _ & Hfetch & Hcases)]; [intros [] |].
  destruct (toolFetch_target _ _ _ _ _ Hfetch) as (_ & _ & Hread & Hcreate).
  intros Hin.
  assert (Ho : options = options').
  { destruct Hcases as [Hc | (r1 & _ & Hc)]; rewrite Hc in Hin; cbn in Hin;
      repeat match goal with
      | Hin : _ \/ _ |- _ => destruct Hin as [Hin | Hin]
      | Hin : False |- _ => destruct Hin
      | Hin : (_, _) = (_, _) |- _ => injection Hin as <- <- <-
      end; reflexivity. }
  rewrite Ho. split; assumption.
Qed.

(** X14.  read_content hands the page back verbatim: when the last answer
    of the network is a 2xx whose content type does not name JSON, the
    text of the tool result is the body of that answer, character for
    character, not a JSON rendering of it. *)
Theorem read_content_returns_the_body_verbatim `{Builtins} `{Config}
    {S} (h : handler Ev S) (s : S) (request : CallToolRequest)
    (url : string) (options : RequestInit) (r : Response) :
  name request = "read_content" ->
  last (fetch_calls (trace_of h (callTool request) s)) = Some (url, options, Ok r) ->
  ok r = true ->
  (forall contentType, headers_get r "content-type" = Some contentType ->
                       includes "application/json" contentType = false) ->
  result_of h (callTool request) s =
    Ok {| content := [{| type := "text"; text := Some (body_text r) |}]; isError := false |}.
Proof.
  intros Hn Hlast Hok Hct.
  destruct (callTool_calls h s request) as (Hfc & _). rewrite Hfc in Hlast. clear Hfc.
  apply callTool_result_of_dispatch.
  destruct (arguments request) as [fields |] eqn:Ha.
  2:{ assert (Hne : name request <> "list_notebooks") by (rewrite Hn; discriminate).
      destruct (dispatch_without_arguments h s request Ha Hne) as [Htr _].
      rewrite Htr in Hlast. discriminate Hlast. }
  assert (Hin : In (name request) toolNames) by (rewrite Hn; cbn; tauto).
  assert (Hp : name request <> "create_page") by (rewrite Hn; discriminate).
  destruct (ToString (lookup_field "pageId" fields)) as [page |] eqn:Ep.
  2:{ assert (Hc : graphCall (name request) fields = None).
      { rewrite Hn. unfold graphCall. cbn. rewrite Ep. reflexivity. }
      destruct (dispatch_unconvertible h s request fields Hin Hp Ha Hc) as [Htr _].
      rewrite Htr in Hlast. discriminate Hlast. }
  assert (Hc : graphCall (name request) fields
               = Some ("/me/onenote/pages/" ++ page ++ "/content", "GET", JNull)).
  { rewrite Hn. unfold graphCall. cbn. rewrite Ep. reflexivity. }
  destruct (dispatch_graph h s request fields _ _ _ Hc (or_introl Ha)) as [Htr _].
  rewrite Htr in Hlast. pose proof (graphRequest_last_answer h s _ _ _ _ _ _ Hlast) as Hres.
  assert (Hg : graphResult r = Ok (JString (body_text r))).
  { unfold graphResult. rewrite Hok. cbn [negb].
    destruct (headers_get r "content-type") as [ct |]; [| reflexivity].
    rewrite (Hct ct eq_refl), andb_false_r. reflexivity. }
  cbv beta iota in Hres. rewrite Hg in Hres. clear Htr Hlast Hc Hin Hp.
  destruct request as [n args]. cbn in Hn, Ha. subst n args.
  unfold dispatch, destructure, interpolate. cbn. rewrite Ep. cbn.
  rewrite result_of_abind, Hres. reflexivity.
Qed.

(** X15.  The three listing tools return the [value] member of the answer
    and nothing else: when the last answer of the network is a 2xx with a
    JSON content type whose body parses to an object, the text of the tool
    result is the pretty-printed JSON of that object's [value]; any other
    member, such as a link to a next page, is dropped. *)
Theorem listing_tools_return_the_value_member `{Builtins} `{Config}
    {S} (h : handler Ev S) (s : S) (request : CallToolRequest)
    (url : string) (options : RequestInit) (r : Response)
    (contentType : string) (members : list (string * JsValue)) :
  In (name request) ["list_notebooks"; "list_sections"; "list_pages"] ->
  last (fetch_calls (trace_of h (callTool request) s)) = Some (url, options, Ok r) ->
  ok r = true ->
  headers_get r "content-type" = Some contentType ->
  includes "application/json" contentType = true ->
  JSON_parse (body_text r) = Ok (JObject members) ->
  result_of h (callTool request) s =
    Ok {| content := [{| type := "text";
                         text := JSON_stringify_pretty (lookup_field "value" members) |}];
          isError := false |}.
Proof.
  intros Hn Hlast Hok Hct Hjson Hparse.
  destruct (callTool_calls h s request) as (Hfc & _). rewrite Hfc in Hlast. clear Hfc.
  apply callTool_result_of_dispatch.
  assert (Hne : contentType <> "").
  { intros ->. discriminate Hjson. }
  apply String.eqb_neq in Hne.
  assert (Hg : graphResult r = Ok (JObject members)).
  { unfold graphResult. rewrite Hok, Hct, Hne, Hjson. cbn. exact Hparse. }
  assert (Hin : In (name request) toolNames) by (cbn in Hn |- *; tauto).
  assert (Hp : name request <> "create_page").
  { intros E. rewrite E in Hn. cbn in Hn.
    repeat (destruct Hn as [Hn | Hn]; [discriminate Hn |]). destruct Hn. }
  destruct (dispatch_served h s request Hin Hp)
    as [[Htr _] | (fields & ep & m & b & Hc & Hargs & Htr & _)].
  { rewrite Htr in Hlast. discriminate Hlast. }
  rewrite Htr in Hlast. pose proof (graphRequest_last_answer h s _ _ _ _ _ _ Hlast) as Hres.
  cbv beta iota in Hres. rewrite Hg in Hres. clear Htr Hlast Hin Hp.
  destruct request as [n args]. cbn in Hn, Hargs, Hc.
  destruct Hn as [<- | [<- | [<- | []]]]; unfold graphCall in Hc; cbn in Hc;
    try match type of Hc with
        | context [ToString ?v] =>
            destruct (ToString v) as [text |] eqn:Et; [| discriminate Hc]
        end;
    injection Hc as <- <- <-;
    destruct Hargs as [-> | E]; try discriminate E;
    unfold dispatch, destructure, interpolate; cbn; rewrite ?Et; cbn;
    rewrite result_of_abind;
    match goal with
    | |- context [result_of h (graphRequest ?e ?m ?b) s] =>
        replace (result_of h (graphRequest e m b) s) with (@Ok JsValue (JObject members))
          by (symmetry; exact Hres)
    end; reflexivity.
Qed.

(** X16.  A failure of the Graph API reaches the caller of a tool as an
    error result that names it.  For the six tools served by
    [graphRequest], when the last answer of the network is a rejection the
    result is the error result of that very error, and when it is a status
    outside 2xx the error text is the Graph API Error message, which starts
    with the status code and status text of that answer. *)
Theorem graph_failures_surface_as_error_results `{Builtins} `{Config}
    {S} (h : handler Ev S) (s : S) (request : CallToolRequest)
    (url : string) (options : RequestInit) (f : Res Response) :
  name request <> "create_page" ->
  last (fetch_calls (trace_of h (callTool request) s)) = Some (url, options, f) ->
  match f with
  | Throw e => result_of h (callTool request) s = Ok (errorResult e)
  | Ok r =>
      ok r = false ->
      result_of h (callTool request) s = Ok (errorResult (new_Error (graphErrorMessage r))) /\
      exists detail,
        graphErrorMessage r =
          "Graph API Error: " ++ number_to_string (number_of_Z (status r))
            ++ " " ++ statusText r ++ detail
  end.
Proof.
  intros Hp Hlast.
  destruct (callTool_calls h s request) as (Hfc & _). rewrite Hfc in Hlast. clear Hfc.
  destruct (callTool_run h s request) as [_ ->].
  destruct (in_dec string_dec (name request) toolNames) as [Hin | Hout].
  2:{ destruct (dispatch_unknown h s request Hout) as [Htr _].
      rewrite Htr in Hlast. discriminate Hlast. }
  destruct (dispatch_served h s request Hin Hp)
    as [[Htr _] | (fields & ep & m & b & _ & _ & Htr & Hthrow)].
  { rewrite Htr in Hlast. discriminate Hlast. }
  rewrite Htr in Hlast. pose proof (graphRequest_last_answer h s _ _ _ _ _ _ Hlast) as Hres.
  destruct f as [r | e].
  - intros Hok. unfold graphResult in Hres. rewrite Hok in Hres. cbn [negb] in Hres.
    rewrite (Hthrow _ Hres). split; [reflexivity |].
    destruct (graphErrorMessage_carries r) as [[detail Hd] _].
    exists detail. rewrite Hd, !TextFacts.append_assoc. reflexivity.
  - rewrite (Hthrow _ Hres). reflexivity.
Qed.

(** * Properties of test.js *)

(** X17.  How the server's output is cut into chunks does not matter to
    the test client: handling the chunks of a stream one after the other,
    each from the buffer the one before left, makes the same calls and ends
    with the same buffer, or the same exit, as handling their concatenation
    in one piece. *)
Theorem chunking_of_the_stream_does_not_matter `{Builtins} (blank : string -> bool)
    {S} (h : handler TestClient.Ev S) (s : S)
    (buffer chunk : string) (chunks : list string) :
  run h (TestClient.session blank buffer (chunk :: chunks)) s =
  run h (TestClient.onData blank buffer (String.concat "" (chunk :: chunks))) s.
Proof.
  revert buffer chunk s. induction chunks as [| c2 rest IH]; intros buffer chunk s.
  - cbn [TestClient.session String.concat]. rewrite run_bind.
    destruct (run h (TestClient.onData blank buffer chunk) s) as [[r s1] t1].
    destruct r; cbn [run]; rewrite app_nil_r; reflexivity.
  - change (String.concat "" (chunk :: c2 :: rest))
      with (chunk ++ String.concat "" (c2 :: rest)).
    rewrite <- ClientFacts.run_onData_twice. cbn [TestClient.session]. rewrite !run_bind.
    destruct (run h (TestClient.onData blank buffer chunk) s) as [[r s1] t1].
    destruct r as [b1 |]; [| reflexivity].
    change (bind (TestClient.onData blank b1 c2) _)
      with (TestClient.session blank b1 (c2 :: rest)).
    rewrite IH. reflexivity.
Qed.

(** X18.  Framing loses nothing.  The [data] handler treats a list of
    complete lines and keeps a remainder such that these, joined by line
    feeds, are exactly the old buffer followed by the chunk; no treated
    line and no remainder contains a line feed, so the remainder is the
    incomplete last line. *)
Theorem framing_keeps_every_character `{Builtins} (blank : string -> bool)
    (buffer chunk : string) :
  exists (lines : list string) (remainder : string),
    TestClient.onData blank buffer chunk =
      bind (TestClient.processLines blank lines) (fun o =>
        match o with
        | TestClient.Running => Ret (Some remainder)
        | TestClient.Exited => Ret None
        end) /\
    TestClient.join (lines ++ [remainder]) = buffer ++ chunk /\
    Forall (fun line => TestClient.split line = [line]) lines /\
    TestClient.split remainder = [remainder].
Proof.
  destruct (ClientFacts.onData_lines blank buffer chunk) as (lines & remainder & Hs & Hd).
  exists lines, remainder. split; [exact Hd |].
  split; [rewrite <- Hs; apply ClientFacts.join_split |].
  pose proof (ClientFacts.split_pieces (buffer ++ chunk)) as Hall. rewrite Hs in Hall.
  apply List.Forall_app in Hall. destruct Hall as [Hl Hr].
  split; [exact Hl |]. inversion Hr; assumption.
Qed.

(** X19.  Output that is not protocol does not disturb the client: lines
    that are blank or that [JSON.parse] rejects cause no call and do not
    stop the loop, so a batch of lines is handled exactly as the batch
    without them. *)
Theorem unparsable_lines_are_skipped `{Builtins} (blank : string -> bool)
    {S} (h : handler TestClient.Ev S) (s : S) (lines : list string) :
  run h (TestClient.processLines blank lines) s =
  run h (TestClient.processLines blank (List.filter (TestClient.heeded blank) lines)) s.
Proof.
  revert s. induction lines as [| line rest IH]; intros s; [reflexivity |].
  cbn [List.filter TestClient.processLines]. unfold TestClient.heeded at 1.
  destruct (blank line) eqn:Hb; cbn [negb andb]; [apply IH |].
  destruct (JSON_parse line) as [message | e] eqn:Hp.
  - cbn [TestClient.processLines]. rewrite Hb, !run_bind.
    destruct (run h (TestClient.onMessage line) s) as [[o s1] t1].
    destruct o; [rewrite IH |]; reflexivity.
  - rewrite run_bind. unfold TestClient.onMessage. rewrite Hp. cbn [run].
    rewrite IH. destruct (run h _ s) as [[o s1] t1]. reflexivity.
Qed.

(** * The cache plugin over a file system that keeps what is written *)

Import Sample.

(** X20.  Save then load is a round trip.  On a file system that keeps what
    is written (the sample world, whatever its state), a save of a changed
    cache leaves the serialized cache under [TOKEN_CACHE_PATH] and touches
    no other file; the next load then finds the file, reads back exactly
    that blob and hands it to [deserialize], without changing any file. *)
Theorem saved_cache_is_read_back (w : World) (saving loading : TokenCacheContext) :
  cacheHasChanged saving = true ->
  files (state_of world (afterCacheAccess saving) w)
    = <[TOKEN_CACHE_PATH := cacheBlob w]> (files w) /\
  store_probes (trace_of world (beforeCacheAccess loading)
                  (state_of world (afterCacheAccess saving) w))
    = [(TOKEN_CACHE_PATH, true)] /\
  store_reads (trace_of world (beforeCacheAccess loading)
                 (state_of world (afterCacheAccess saving) w))
    = [(TOKEN_CACHE_PATH, Ok (cacheBlob w))] /\
  map fst (deserializations (trace_of world (beforeCacheAccess loading)
                               (state_of world (afterCacheAccess saving) w)))
    = [cacheBlob w] /\
  files (state_of world (beforeCacheAccess loading)
           (state_of world (afterCacheAccess saving) w))
    = <[TOKEN_CACHE_PATH := cacheBlob w]> (files w).
Proof.
  intros Hc. unfold afterCacheAccess. rewrite Hc. exec.
  split; [reflexivity |].
  unfold beforeCacheAccess. exec. rewrite !lookup_insert_eq. exec.
  rewrite !lookup_insert_eq. exec. repeat split.
Qed.

(** * The further properties on the sample world *)

Module Instances.
Import Sample Scenes.

Lemma provider_call_budget_witness :
  length (account_queries (trace_of world getAccessToken lapsed)) = 1%nat /\
  silent_calls (trace_of world getAccessToken lapsed)
    = [(alice, SCOPES, Throw (mkError "InteractionRequiredAuthError" "invalid_grant"))] /\
  forall sc r, In (sc, r) (device_calls (trace_of world getAccessToken lapsed)) -> sc = SCOPES.
Proof.
  destruct (provider_call_budget world lapsed) as (Hq & _ & _ & _ & Hd & _).
  split; [exact Hq |]. split; [vm_compute; reflexivity | exact Hd].
Defined.

Lemma token_comes_from_the_library_witness :
  result_of world getAccessToken fresh = Ok "token-from-device-code" /\
  ((exists a res,
      silent_calls (trace_of world getAccessToken fresh) = [(a, SCOPES, Ok res)] /\
      device_calls (trace_of world getAccessToken fresh) = [] /\
      "token-from-device-code" = accessToken res) \/
   (exists r,
      device_calls (trace_of world getAccessToken fresh) = [(SCOPES, Ok (Some r))] /\
      "token-from-device-code" = accessToken r /\
      forall c, In c (silent_calls (trace_of world getAccessToken fresh)) ->
                exists e, snd c = Throw e)).
Proof.
  split; [vm_compute; reflexivity |].
  apply (token_comes_from_the_library world fresh). vm_compute. reflexivity.
Defined.


Lemma saved_cache_witness :
  cacheHasChanged changed = true /\
  files (state_of world (afterCacheAccess changed) fresh) !! TOKEN_CACHE_PATH
    = Some (cacheBlob fresh) /\
  store_reads (trace_of world (beforeCacheAccess unchanged)
                 (state_of world (afterCacheAccess changed) fresh))
    = [(TOKEN_CACHE_PATH, Ok (cacheBlob fresh))].
Proof.
  split; [reflexivity |].
  destruct (saved_cache_is_read_back fresh changed unchanged eq_refl)
    as (Hfiles & _ & Hreads & _).
  split; [rewrite Hfiles; apply lookup_insert_eq | exact Hreads].
Defined.

Lemma store_discipline_witness :
  store_writes (src_entries (trace_of system (linked library (callTool listNotebooks)) fresh))
    = [(TOKEN_CACHE_PATH, cacheBlob fresh)] /\
  changed_accesses (entered (trace_of system (linked library (callTool listNotebooks)) fresh))
    = [changed] /\
  onlyTheStore (trace_of system (linked library (callTool listNotebooks)) fresh).
Proof.
  split; [vm_compute; reflexivity |]. split; [vm_compute; reflexivity |].
  apply (tool_calls_touch_only_the_token_store library system fresh listNotebooks).
Defined.


Lemma load_witness :
  store_writes (trace_of world (beforeCacheAccess unchanged) warm) = [] /\
  store_reads (trace_of world (beforeCacheAccess unchanged) warm)
    = [(TOKEN_CACHE_PATH, Ok storedBlob)] /\
  trace_of world (beforeCacheAccess unchanged) fresh
    = [entry (FsExistsSync TOKEN_CACHE_PATH) false].
Proof.
  destruct (load_only_reads_the_store world warm unchanged) as (Hw & _).
  destruct (load_only_reads_the_store world fresh unchanged) as (_ & _ & present & Hp & Hcase).
  split; [exact Hw |]. split; [vm_compute; reflexivity |].
  assert (Hprobe : store_probes (trace_of world (beforeCacheAccess unchanged) fresh)
                   = [(TOKEN_CACHE_PATH, false)]) by (vm_compute; reflexivity).
  rewrite Hprobe in Hp. injection Hp as <-. apply Hcase.
Defined.

Lemma first_answer_witness :
  fetch_calls (trace_of world (graphRequest "/me/onenote/notebooks" "GET" JNull) missing)
    = [(GRAPH_ENDPOINT ++ "/me/onenote/notebooks",
        graphOptions "token-from-cache" "GET" JNull, Ok notFound)] /\
  status notFound <> 429 /\
  timeouts (trace_of world (graphRequest "/me/onenote/notebooks" "GET" JNull) missing) = [] /\
  (exists detail,
     result_of world (graphRequest "/me/onenote/notebooks" "GET" JNull) missing =
       Throw (new_Error ("Graph API Error: 404 Not Found" ++ detail))) /\
  result_of world (graphRequest "/me/onenote/notebooks" "GET" JNull) served
    = Ok notebooks_body /\
  result_of world (graphRequest "/me/onenote/pages/p-1/content" "GET" JNull) paged
    = Ok (JString pageText).
Proof.
  assert (Hf : fetch_calls
                 (trace_of world (graphRequest "/me/onenote/notebooks" "GET" JNull) missing)
               = [(GRAPH_ENDPOINT ++ "/me/onenote/notebooks",
                   graphOptions "token-from-cache" "GET" JNull, Ok notFound)])
    by (vm_compute; reflexivity).
  assert (Hs : forall r, Ok notFound = Ok r -> status r <> 429).
  { intros r [= <-]. discriminate. }
  assert (Hg : fetch_calls
                 (trace_of world (graphRequest "/me/onenote/notebooks" "GET" JNull) served)
               = [(GRAPH_ENDPOINT ++ "/me/onenote/notebooks",
                   graphOptions "token-from-cache" "GET" JNull, Ok notebooksAnswer)])
    by (vm_compute; reflexivity).
  assert (Hn : forall r, Ok notebooksAnswer = Ok r -> status r <> 429).
  { intros r [= <-]. discriminate. }
  assert (Hp : fetch_calls
                 (trace_of world (graphRequest "/me/onenote/pages/p-1/content" "GET" JNull)
                    paged)
               = [(GRAPH_ENDPOINT ++ "/me/onenote/pages/p-1/content",
                   graphOptions "token-from-cache" "GET" JNull, Ok pageAnswer)])
    by (vm_compute; reflexivity).
  assert (Ha : forall r, Ok pageAnswer = Ok r -> status r <> 429).
  { intros r [= <-]. discriminate. }
  split; [exact Hf |]. split; [discriminate |].
  destruct (first_answer_other_than_429_is_final world missing
              "/me/onenote/notebooks" "GET" JNull _ _ _ _ Hf Hs) as (_ & Ht & Hres).
  destruct (first_answer_other_than_429_is_final world served
              "/me/onenote/notebooks" "GET" JNull _ _ _ _ Hg Hn) as (_ & _ & Hjson).
  destruct (first_answer_other_than_429_is_final world paged
              "/me/onenote/pages/p-1/content" "GET" JNull _ _ _ _ Hp Ha) as (_ & _ & Htext).
  split; [exact Ht |]. split; [exact Hres |].
  split; [rewrite Hjson; vm_compute; reflexivity | rewrite Htext; vm_compute; reflexivity].
Defined.

Lemma tool_call_resolves_witness :
  exists v,
    result_of world (callTool listNotebooks) missing = Ok v /\
    isError v = true /\
    content v = [{| type := "text";
                    text := Some ("{" ++ dq ++ "error" ++ dq ++ ":" ++ dq
                                    ++ "Graph API Error: 404 Not Found - " ++ dq ++ "}") |}].
Proof.
  destruct (tool_call_always_resolves world missing listNotebooks)
    as (v & Hres & _ & Hflag & _).
  exists v. split; [exact Hres |]. split.
  - apply Hflag. eexists. vm_compute. reflexivity.
  - assert (Hv : Ok v = result_of world (callTool listNotebooks) missing)
      by (symmetry; exact Hres).
    vm_compute in Hv. injection Hv as ->. vm_compute. reflexivity.
Defined.

Lemma advertised_tools_witness :
  ~ In (name deletePage) (map Registry.name Registry.tools) /\
  trace_of world (dispatch deletePage) warm = [] /\
  In (name createPage) (map Registry.name Registry.tools) /\
  trace_of world (dispatch createPage) warm <> [].
Proof.
  assert (Hout : ~ In (name deletePage) (map Registry.name Registry.tools)).
  { cbn. intros Hin. repeat (destruct Hin as [Hin | Hin]; [discriminate Hin |]). exact Hin. }
  split; [exact Hout |].
  split; [apply (proj1 (advertised_tools_are_the_served_ones world warm deletePage) Hout) |].
  split; [cbn; tauto |].
  intros Htr. vm_compute in Htr. discriminate Htr.
Defined.

Lemma undeclared_arguments_witness :
  In listSectionsTool Registry.tools /\
  callTool {| name := "list_sections";
              arguments := Some [("notebookId", JString "n-1"); ("verbose", JBool true)] |}
    = callTool {| name := "list_sections";
                  arguments := Some [("notebookId", JString "n-1")] |}.
Proof.
  assert (Hin : In listSectionsTool Registry.tools) by (cbn; tauto).
  split; [exact Hin |].
  apply (undeclared_arguments_are_ignored listSectionsTool
           [("notebookId", JString "n-1"); ("verbose", JBool true)]
           [("notebookId", JString "n-1")] Hin).
  intros k [<- | []]. reflexivity.
Defined.

Lemma call_without_arguments_witness :
  In listSectionsTool Registry.tools /\
  Registry.name listSectionsTool = name listSectionsNoArguments /\
  arguments listSectionsNoArguments = None /\
  trace_of world (callTool listSectionsNoArguments) warm
    = [toolErrorLog (new_TypeError "notebookId")] /\
  result_of world (callTool listSectionsNoArguments) warm
    = Ok (errorResult (new_TypeError "notebookId")).
Proof.
  assert (Hin : In listSectionsTool Registry.tools) by (cbn; tauto).
  split; [exact Hin |]. split; [reflexivity |]. split; [reflexivity |].
  exact (call_without_arguments_object world warm listSectionsNoArguments listSectionsTool
           Hin eq_refl eq_refl).
Defined.

Lemma authorized_requests_witness :
  map (fun c => fst (fst c)) (fetch_calls (trace_of world (callTool listNotebooks) throttled))
    = ["https://graph.microsoft.com/v1.0/me/onenote/notebooks";
       "https://graph.microsoft.com/v1.0/me/onenote/notebooks"] /\
  result_of world getAccessToken throttled = Ok "token-from-cache" /\
  forall url options f,
    In (url, options, f) (fetch_calls (trace_of world (callTool listNotebooks) throttled)) ->
    exists contentType,
      headers options = [("Authorization", "Bearer token-from-cache");
                         ("Content-Type", contentType)].
Proof.
  split; [vm_compute; reflexivity |].
  assert (Htok : result_of world getAccessToken throttled = Ok "token-from-cache")
    by (vm_compute; reflexivity).
  split; [exact Htok |].
  intros url options f Hin.
  destruct (tool_requests_are_authorized_onenote_calls world throttled listNotebooks)
    as (_ & _ & _ & Hall).
  destruct (Hall url options f Hin) as (token & suffix & ct & Ht & _ & Hh).
  rewrite Htok in Ht. injection Ht as <-. exists ct. exact Hh.
Defined.

Lemma reading_tools_witness :
  In (GRAPH_ENDPOINT ++ "/me/onenote/notebooks",
      graphOptions "token-from-cache" "GET" JNull, Ok notFound)
     (fetch_calls (trace_of world (callTool listNotebooks) missing)) /\
  method (graphOptions "token-from-cache" "GET" JNull) = "GET" /\
  body (graphOptions "token-from-cache" "GET" JNull) = None.
Proof.
  assert (Hin : In (GRAPH_ENDPOINT ++ "/me/onenote/notebooks",
                    graphOptions "token-from-cache" "GET" JNull, Ok notFound)
                   (fetch_calls (trace_of world (callTool listNotebooks) missing))).
  { vm_compute. left. reflexivity. }
  split; [exact Hin |].
  destruct (reading_tools_only_send_get world missing listNotebooks _ _ _ Hin) as [Hread _].
  apply Hread. cbn. tauto.
Defined.

Lemma read_content_witness :
  name readContent = "read_content" /\
  last (fetch_calls (trace_of world (callTool readContent) paged))
    = Some (GRAPH_ENDPOINT ++ "/me/onenote/pages/p-1/content",
            graphOptions "token-from-cache" "GET" JNull, Ok pageAnswer) /\
  ok pageAnswer = true /\
  result_of world (callTool readContent) paged =
    Ok {| content := [{| type := "text"; text := Some pageText |}]; isError := false |}.
Proof.
  assert (Hlast : last (fetch_calls (trace_of world (callTool readContent) paged))
                  = Some (GRAPH_ENDPOINT ++ "/me/onenote/pages/p-1/content",
                          graphOptions "token-from-cache" "GET" JNull, Ok pageAnswer))
    by (vm_compute; reflexivity).
  split; [reflexivity |]. split; [exact Hlast |]. split; [reflexivity |].
  apply (read_content_returns_the_body_verbatim world paged readContent _ _ pageAnswer
           eq_refl Hlast eq_refl).
  intros ct Hct. vm_compute in Hct. injection Hct as <-. vm_compute. reflexivity.
Defined.

Lemma listing_tools_witness :
  In (name listNotebooks) ["list_notebooks"; "list_sections"; "list_pages"] /\
  last (fetch_calls (trace_of world (callTool listNotebooks) served))
    = Some (GRAPH_ENDPOINT ++ "/me/onenote/notebooks",
            graphOptions "token-from-cache" "GET" JNull, Ok notebooksAnswer) /\
  ok notebooksAnswer = true /\
  result_of world (callTool listNotebooks) served =
    Ok {| content :=
            [{| type := "text";
                text := JSON_stringify_pretty
                          (JArray [JObject [("displayName", JString "Work")]]) |}];
          isError := false |}.
Proof.
  assert (Hin : In (name listNotebooks) ["list_notebooks"; "list_sections"; "list_pages"])
    by (left; reflexivity).
  assert (Hlast : last (fetch_calls (trace_of world (callTool listNotebooks) served))
                  = Some (GRAPH_ENDPOINT ++ "/me/onenote/notebooks",
                          graphOptions "token-from-cache" "GET" JNull, Ok notebooksAnswer))
    by (vm_compute; reflexivity).
  split; [exact Hin |]. split; [exact Hlast |]. split; [reflexivity |].
  apply (listing_tools_return_the_value_member world served listNotebooks _ _ notebooksAnswer
           "application/json; odata.metadata=minimal"
           [("value", JArray [JObject [("displayName", JString "Work")]])]
           Hin Hlast); vm_compute; reflexivity.
Defined.

Lemma graph_failure_witness :
  name listNotebooks <> "create_page" /\
  last (fetch_calls (trace_of world (callTool listNotebooks) missing))
    = Some (GRAPH_ENDPOINT ++ "/me/onenote/notebooks",
            graphOptions "token-from-cache" "GET" JNull, Ok notFound) /\
  ok notFound = false /\
  result_of world (callTool listNotebooks) missing
    = Ok (errorResult (new_Error "Graph API Error: 404 Not Found - ")).
Proof.
  assert (Hn : name listNotebooks <> "create_page") by discriminate.
  assert (Hlast : last (fetch_calls (trace_of world (callTool listNotebooks) missing))
                  = Some (GRAPH_ENDPOINT ++ "/me/onenote/notebooks",
                          graphOptions "token-from-cache" "GET" JNull, Ok notFound))
    by (vm_compute; reflexivity).
  split; [exact Hn |]. split; [exact Hlast |]. split; [reflexivity |].
  destruct (graph_failures_surface_as_error_results world missing listNotebooks _ _ _
              Hn Hlast eq_refl) as [Hres _].
  rewrite Hres. vm_compute. reflexivity.
Defined.
End Instances.
